(** * Licensing backend: HWID binding, subscription state and webhook handling

    A shallow embedding of the four server revisions of the repository and of
    the Discord vouch bot, followed by the properties of the specification
    that were checked against them and by further properties of the code.

    - [FileServer]     : [src/server.js], users kept in a JSON array on disk;
    - [LicenseServer]  : [src/unnamed/part_001], Firestore users, Stripe,
                         license-gated client login;
    - [VouchServer]    : first program of [src/unnamed/part_002], Firestore
                         users, Stripe, self-service HWID reset;
    - [HwidServer]     : second program of [src/unnamed/part_002], Firestore
                         users, client login with HWID lock only;
    - [DiscordBot]     : [src/unnamed/part_000], vouch moderation commands;
    - [VouchBot]       : [src/unnamed/part_000], the message handler with the
                         commands [!vouch] and [!vouches];
    - [VouchApi], [FeaturedApi] : the vouch routes of [src/unnamed/part_002];
    - [LicenseViews], [FileViews] : the listings and statistics of
                         [src/unnamed/part_001] and [src/server.js].

    Conventions of the embedding.  A JavaScript value that is [null],
    [undefined] or an absent field is [None]; a present string is [Some s].
    Instants ([new Date().toISOString()], Firestore timestamps) are
    milliseconds since the epoch in [Z], one instant per request.  A string
    is held as the bytes of its UTF-8 encoding: equality is equality of the
    bytes, [length] counts the UTF-16 code units that the bytes encode, white
    space is recognised in its encoded form.  [toLowerCase] lowers the letters
    A to Z only: it is JavaScript's on ASCII text, and on other text two
    strings that it identifies are identified by JavaScript's too, so the
    properties that compare lowered names either take ASCII names or use that
    direction only.  The clock, the identifiers Firestore generates and the
    answers of the Stripe SDK are inputs of the handlers; the session store is
    outside the model, a handler that reads [req.session] takes the user id it
    holds, and the outcome of [req.session.save] is an input ([saved]) of the
    routes that call it, the web login and the signup of [LicenseServer] and
    of [HwidServer].
    A call to Firestore or to the file system fails only when the call itself
    refuses its arguments (a missing document, an id in use, [undefined]);
    of the routes that only read, the listings and the statistics are
    modelled. *)

From Stdlib Require Import ZArith String Ascii List Bool DecimalString Sorted.
From Stdlib Require DecimalPos DecimalZ.
From stdpp Require Import base option list gmap strings fin_maps.

Local Open Scope Z_scope.
Local Open Scope string_scope.

(** ** JavaScript helpers *)

Module Js.

(** Instants, in milliseconds since the epoch. *)
Definition Timestamp : Type := Z.

(** [if (x)] on a value that is a string, [null] or [undefined]: the empty
    string is falsy like [null]. *)
Definition truthy (x : option string) : bool :=
  match x with
  | Some s => negb (String.eqb s "")
  | None => false
  end.

(** [a === b] where [a] may be [null]/[undefined] and [b] is a string. *)
Definition strictEq (a : option string) (b : string) : bool :=
  match a with
  | Some s => String.eqb s b
  | None => false
  end.

(** [a === b] on two values that may be absent; [undefined === undefined]. *)
Definition strictEqOpt (a b : option string) : bool :=
  match a, b with
  | Some s, Some t => String.eqb s t
  | None, None => true
  | _, _ => false
  end.

Definition lower_ascii (c : ascii) : ascii :=
  let n := nat_of_ascii c in
  if ((65 <=? n)%nat && (n <=? 90)%nat)%bool then ascii_of_nat (n + 32) else c.

(** [String.prototype.toLowerCase] on ASCII text.  On other text it lowers
    the letters A to Z and leaves every other character, where JavaScript
    lowers every cased letter: it identifies fewer strings than JavaScript
    does, never more. *)
Fixpoint toLowerCase (s : string) : string :=
  match s with
  | EmptyString => EmptyString
  | String c r => String (lower_ascii c) (toLowerCase r)
  end.

(** The UTF-16 code units that start at a byte of UTF-8 text: none at a
    continuation byte ([10xxxxxx]), two at the first byte of a character
    outside the basic plane ([11110xxx], a surrogate pair), one at any other
    first byte. *)
Definition units (c : ascii) : nat :=
  let n := nat_of_ascii c in
  if (n <? 128)%nat then 1%nat
  else if (n <? 192)%nat then 0%nat
  else if (n <? 240)%nat then 1%nat
  else 2%nat.

Fixpoint utf16_length (s : string) : nat :=
  match s with
  | EmptyString => 0%nat
  | String c r => (units c + utf16_length r)%nat
  end.

(** [s.length]: the number of UTF-16 code units of the text. *)
Definition str_length (s : string) : Z := Z.of_nat (utf16_length s).

(** The text is ASCII: every byte is below 128. *)
Fixpoint ascii_text (s : string) : bool :=
  match s with
  | EmptyString => true
  | String c r => (nat_of_ascii c <? 128)%nat && ascii_text r
  end.

(** [n.toString()] on an integer. *)
Definition toString (n : Z) : string := NilZero.string_of_int (Z.to_int n).

(** [xs.find(p)] followed by writes to the element found, then a save of
    the array: the first element that satisfies [p] is replaced. *)
Fixpoint modify_first {A : Type} (p : A -> bool) (f : A -> A) (xs : list A) : list A :=
  match xs with
  | [] => []
  | x :: r => if p x then f x :: r else x :: modify_first p f r
  end.

(** The outcome of a call that may throw. *)
Inductive result (A : Type) : Type :=
| Ok (a : A)
| Throw.
Arguments Ok {A} a.
Arguments Throw {A}.

Definition bind {A B} (r : result A) (k : A -> result B) : result B :=
  match r with
  | Ok a => k a
  | Throw => Throw
  end.

Definition rmap {A B} (f : A -> B) (r : result A) : result B :=
  match r with
  | Ok a => Ok (f a)
  | Throw => Throw
  end.

End Js.
Import Js.

(** ** HTTP responses *)

(** [res.status(code).json({success, message, ...})]; [success] is [None] for
    the webhook acknowledgements, which carry no such field.  [res.json]
    without [res.status] answers 200. *)
Record Response : Type := mkResponse {
  code : Z;
  success : option bool;
  message : string
}.

Definition json (c : Z) (ok : bool) (msg : string) : Response :=
  mkResponse c (Some ok) msg.

(** [res.json({received: true})] *)
Definition received : Response := mkResponse 200 None "received".

(** ** The Stripe objects the handlers read *)

Module Stripe.

(** [session.metadata]; Stripe always sends the object, a key may be absent. *)
Record Metadata : Type := mkMetadata {
  userId : option string;
  packageType : option string
}.

(** [event.data.object], read untyped by the handlers: a checkout session, a
    subscription or an invoice, every field optional.  On a checkout session
    Stripe sends [customer], [subscription] and [payment_intent] as a string
    or [null]; a subscription or an invoice always carries [customer], and a
    handler that queries by it fails on an object without one. *)
Record Object : Type := mkObject {
  id : option string;
  customer : option string;
  subscription : option string;
  payment_intent : option string;
  mode : option string;
  metadata : Metadata;
  status : option string;
  current_period_end : option Z;        (* seconds since the epoch *)
  amount_paid : option Z;               (* cents *)
  last_payment_error : option string    (* last_payment_error?.message *)
}.

Record Event : Type := mkEvent {
  type : string;
  object : Object
}.

(** The calls made to the SDK.  [None]/[false] stand for a thrown error. *)
Record Sdk : Type := mkSdk {
  (** [stripe.webhooks.constructEvent(rawBody, signatureHeader, secret)] *)
  constructEvent : string -> option string -> option string -> option Event;
  (** [stripe.subscriptions.retrieve(id).current_period_end] *)
  subscriptions_retrieve : option string -> option Z;
  (** [stripe.subscriptions.update(id, {cancel_at_period_end: true})] *)
  subscriptions_update : string -> bool;
  (** [stripe.subscriptions.cancel(id)] *)
  subscriptions_cancel : string -> bool;
  (** [stripe.customers.create(...).id] *)
  customers_create : option string;
  (** [stripe.checkout.sessions.create(config)] succeeded *)
  sessions_create : bool
}.

End Stripe.

(** ** Firestore collections *)

(** A collection is a finite map from document ids to documents.  A query
    [where(...).limit(1)] answers the first matching document in the order of
    [map_to_list]; no property below depends on that order when several
    documents match. *)
Module Firestore.
Section Collection.
Context {Doc : Type}.

(** [collection.doc(id).get()] *)
Definition doc_get (id : string) (c : gmap string Doc) : option Doc := c !! id.

(** [collection.doc(id).update(updates)]: fails when the document is absent. *)
Definition doc_update (id : string) (updates : Doc -> Doc) (c : gmap string Doc)
  : result (gmap string Doc) :=
  match c !! id with
  | Some d => Ok (<[id := updates d]> c)
  | None => Throw
  end.

(** [collection.add(doc)] with [newId] the identifier Firestore generates:
    a create, which fails on an identifier already in use. *)
Definition add (newId : string) (d : Doc) (c : gmap string Doc)
  : result (gmap string Doc) :=
  match c !! newId with
  | None => Ok (<[newId := d]> c)
  | Some _ => Throw
  end.

(** [collection.where(p).limit(1).get()]: [None] is [snapshot.empty]. *)
Definition where_limit1 (p : Doc -> bool) (c : gmap string Doc)
  : option (string * Doc) :=
  List.find (fun kv => p (snd kv)) (map_to_list c).

End Collection.
End Firestore.

(** ** The documents of the [users] collection *)

(** One schema for the three Firestore revisions, which read and write the
    same collection: every field any of them touches. *)
Module Schema.

Record Subscription : Type := mkSubscription {
  status : option string;
  package : option string;
  stripeCustomerId : option string;
  stripeSubscriptionId : option string;
  currentPeriodEnd : option Timestamp;
  activatedAt : option Timestamp;
  cancelledAt : option Timestamp;
  lastHwidReset : option Timestamp;
  sub_hwid : option string;              (* the field [subscription.hwid] *)
  lastPaymentDate : option Timestamp;
  lastPaymentAmount : option Z;          (* [amount_paid / 100], kept in cents *)
  paymentFailed : option bool;
  lastPaymentError : option string
}.

Record Stats : Type := mkStats {
  totalLogins : option Z;
  lastLoginDate : option Timestamp;
  accountAge : option Z
}.

Record User : Type := mkUser {
  username : string;
  email : option string;
  password : string;
  createdAt : Timestamp;
  lastLogin : option Timestamp;
  hwid : option string;
  hwidLockedAt : option Timestamp;
  subscription : option Subscription;
  stats : option Stats
}.

(** The map a nested field path creates when its parent is absent. *)
Definition noSubscription : Subscription :=
  mkSubscription None None None None None None None None None None None None None.

Definition noStats : Stats := mkStats None None None.

(** Field writes on the subscription map. *)
Definition set_status (v : option string) (s : Subscription) : Subscription :=
  mkSubscription v (package s) (stripeCustomerId s) (stripeSubscriptionId s)
    (currentPeriodEnd s) (activatedAt s) (cancelledAt s) (lastHwidReset s)
    (sub_hwid s) (lastPaymentDate s) (lastPaymentAmount s) (paymentFailed s)
    (lastPaymentError s).

Definition set_package (v : option string) (s : Subscription) : Subscription :=
  mkSubscription (status s) v (stripeCustomerId s) (stripeSubscriptionId s)
    (currentPeriodEnd s) (activatedAt s) (cancelledAt s) (lastHwidReset s)
    (sub_hwid s) (lastPaymentDate s) (lastPaymentAmount s) (paymentFailed s)
    (lastPaymentError s).

Definition set_stripeCustomerId (v : option string) (s : Subscription) : Subscription :=
  mkSubscription (status s) (package s) v (stripeSubscriptionId s)
    (currentPeriodEnd s) (activatedAt s) (cancelledAt s) (lastHwidReset s)
    (sub_hwid s) (lastPaymentDate s) (lastPaymentAmount s) (paymentFailed s)
    (lastPaymentError s).

Definition set_stripeSubscriptionId (v : option string) (s : Subscription) : Subscription :=
  mkSubscription (status s) (package s) (stripeCustomerId s) v
    (currentPeriodEnd s) (activatedAt s) (cancelledAt s) (lastHwidReset s)
    (sub_hwid s) (lastPaymentDate s) (lastPaymentAmount s) (paymentFailed s)
    (lastPaymentError s).

Definition set_currentPeriodEnd (v : option Timestamp) (s : Subscription) : Subscription :=
  mkSubscription (status s) (package s) (stripeCustomerId s) (stripeSubscriptionId s)
    v (activatedAt s) (cancelledAt s) (lastHwidReset s)
    (sub_hwid s) (lastPaymentDate s) (lastPaymentAmount s) (paymentFailed s)
    (lastPaymentError s).

Definition set_activatedAt (v : option Timestamp) (s : Subscription) : Subscription :=
  mkSubscription (status s) (package s) (stripeCustomerId s) (stripeSubscriptionId s)
    (currentPeriodEnd s) v (cancelledAt s) (lastHwidReset s)
    (sub_hwid s) (lastPaymentDate s) (lastPaymentAmount s) (paymentFailed s)
    (lastPaymentError s).

Definition set_cancelledAt (v : option Timestamp) (s : Subscription) : Subscription :=
  mkSubscription (status s) (package s) (stripeCustomerId s) (stripeSubscriptionId s)
    (currentPeriodEnd s) (activatedAt s) v (lastHwidReset s)
    (sub_hwid s) (lastPaymentDate s) (lastPaymentAmount s) (paymentFailed s)
    (lastPaymentError s).

Definition set_lastHwidReset (v : option Timestamp) (s : Subscription) : Subscription :=
  mkSubscription (status s) (package s) (stripeCustomerId s) (stripeSubscriptionId s)
    (currentPeriodEnd s) (activatedAt s) (cancelledAt s) v
    (sub_hwid s) (lastPaymentDate s) (lastPaymentAmount s) (paymentFailed s)
    (lastPaymentError s).

Definition set_sub_hwid (v : option string) (s : Subscription) : Subscription :=
  mkSubscription (status s) (package s) (stripeCustomerId s) (stripeSubscriptionId s)
    (currentPeriodEnd s) (activatedAt s) (cancelledAt s) (lastHwidReset s)
    v (lastPaymentDate s) (lastPaymentAmount s) (paymentFailed s)
    (lastPaymentError s).

Definition set_lastPayment (date : option Timestamp) (amount : option Z)
    (s : Subscription) : Subscription :=
  mkSubscription (status s) (package s) (stripeCustomerId s) (stripeSubscriptionId s)
    (currentPeriodEnd s) (activatedAt s) (cancelledAt s) (lastHwidReset s)
    (sub_hwid s) date amount (paymentFailed s) (lastPaymentError s).

Definition set_paymentFailed (flag : option bool) (err : option string)
    (s : Subscription) : Subscription :=
  mkSubscription (status s) (package s) (stripeCustomerId s) (stripeSubscriptionId s)
    (currentPeriodEnd s) (activatedAt s) (cancelledAt s) (lastHwidReset s)
    (sub_hwid s) (lastPaymentDate s) (lastPaymentAmount s) flag err.

(** Field writes on the user document. *)
Definition set_hwid (h : option string) (t : option Timestamp) (u : User) : User :=
  mkUser (username u) (email u) (password u) (createdAt u) (lastLogin u)
    h t (subscription u) (stats u).

Definition set_lastLogin (t : option Timestamp) (u : User) : User :=
  mkUser (username u) (email u) (password u) (createdAt u) t
    (hwid u) (hwidLockedAt u) (subscription u) (stats u).

Definition set_subscription (s : option Subscription) (u : User) : User :=
  mkUser (username u) (email u) (password u) (createdAt u) (lastLogin u)
    (hwid u) (hwidLockedAt u) s (stats u).

Definition set_stats (s : option Stats) (u : User) : User :=
  mkUser (username u) (email u) (password u) (createdAt u) (lastLogin u)
    (hwid u) (hwidLockedAt u) (subscription u) s.

(** A write to the field path [subscription.<field>]. *)
Definition upd_subscription (f : Subscription -> Subscription) (u : User) : User :=
  set_subscription (Some (f (default noSubscription (subscription u)))) u.

(** A write to the field path [stats.<field>]. *)
Definition upd_stats (f : Stats -> Stats) (u : User) : User :=
  set_stats (Some (f (default noStats (stats u)))) u.

(** [FieldValue.increment(1)] on [stats.totalLogins]. *)
Definition increment_totalLogins (s : Stats) : Stats :=
  mkStats (Some (default 0 (totalLogins s) + 1)) (lastLoginDate s) (accountAge s).

Definition set_lastLoginDate (t : option Timestamp) (s : Stats) : Stats :=
  mkStats (totalLogins s) t (accountAge s).

(** [!user.subscription || user.subscription.status !== 'active'] *)
Definition notActive (u : User) : bool :=
  match subscription u with
  | None => true
  | Some s => negb (strictEq (status s) "active")
  end.

End Schema.

(** ** [src/unnamed/part_001]: the license-gated Firestore server *)

Module LicenseServer.
Import Schema.

(** [getUserByUsername]: [where('username', '==', username).limit(1)] *)
Definition getUserByUsername (name : string) (db : gmap string User)
  : option (string * User) :=
  Firestore.where_limit1 (fun u => String.eqb (username u) name) db.

Definition getUserById (userId : string) (db : gmap string User) : option User :=
  Firestore.doc_get userId db.

(** The document [createUser] builds. *)
Definition newUser (now : Timestamp) (name pass : string) : User :=
  mkUser name None pass now (Some now) None None
    (Some (mkSubscription (Some "inactive") None None None None None None
             None None None None None None))
    (Some (mkStats (Some 1) (Some now) (Some 0))).

Definition createUser (newId : string) (now : Timestamp) (name pass : string)
    (db : gmap string User) : result (gmap string User) :=
  Firestore.add newId (newUser now name pass) db.

Definition updateUser (userId : string) (updates : User -> User)
    (db : gmap string User) : result (gmap string User) :=
  Firestore.doc_update userId updates db.

(** [requireAuth]: [req.session.userId] is set. *)
Definition requireAuth (session : option string) : bool := truthy session.

(** The [updates] object of [/api/login]. *)
Definition login_updates (user : User) (hwid : option string) (now : Timestamp)
  : User -> User :=
  fun d =>
    let d := if negb (truthy (Schema.hwid user)) then set_hwid hwid (Some now) d else d in
    let d := set_lastLogin (Some now) d in
    let d := upd_stats increment_totalLogins d in
    upd_stats (set_lastLoginDate (Some now)) d.

(** [POST /api/login], the client login. *)
Definition api_login (username password hwid : option string) (now : Timestamp)
    (db : gmap string User) : Response * gmap string User :=
  if negb (truthy username) || negb (truthy password) || negb (truthy hwid)
  then (json 400 false "Missing required fields", db)
  else
    match getUserByUsername (default "" username) db with
    | None => (json 401 false "Invalid credentials", db)
    | Some (id, user) =>
      if negb (strictEq password (Schema.password user))
      then (json 401 false "Invalid credentials", db)
      else if notActive user
      then (json 403 false "No active license. Please purchase a subscription.", db)
      else if truthy (Schema.hwid user) && negb (strictEqOpt (Schema.hwid user) hwid)
      then (json 403 false "Hardware mismatch. Contact administrator.", db)
      else
        match updateUser id (login_updates user hwid now) db with
        | Ok db' => (json 200 true "Login successful", db')
        | Throw => (json 500 false "Server error", db)
        end
    end.

(** [POST /api/web-login].  The answer is given in the callback of
    [req.session.save], after the write; [saved] tells whether the session
    was stored (the callback got no error). *)
Definition api_web_login (username password : option string) (saved : bool)
    (now : Timestamp) (db : gmap string User) : Response * gmap string User :=
  if negb (truthy username) || negb (truthy password)
  then (json 400 false "Missing credentials", db)
  else
    match getUserByUsername (default "" username) db with
    | None => (json 401 false "Invalid credentials", db)
    | Some (id, user) =>
      if negb (strictEq password (Schema.password user))
      then (json 401 false "Invalid credentials", db)
      else
        match updateUser id
                (fun d => upd_stats (set_lastLoginDate (Some now))
                            (set_lastLogin (Some now) d)) db with
        | Ok db' =>
          if saved then (json 200 true "Login successful", db')
          else (json 500 false "Login failed - session error", db')
        | Throw => (json 500 false "Server error", db)
        end
    end.

(** [POST /api/signup].  The answer is given in the callback of
    [req.session.save], after the account was created; [saved] tells whether
    the session was stored. *)
Definition api_signup (username password : option string) (newId : string)
    (saved : bool) (now : Timestamp) (db : gmap string User)
  : Response * gmap string User :=
  if negb (truthy username) || negb (truthy password)
  then (json 400 false "Missing required fields", db)
  else
    let name := default "" username in
    let pass := default "" password in
    if (str_length name <? 3)%Z
    then (json 400 false "Username must be at least 3 characters", db)
    else if (str_length pass <? 6)%Z
    then (json 400 false "Password must be at least 6 characters", db)
    else
      match getUserByUsername name db with
      | Some _ => (json 409 false "Username already exists", db)
      | None =>
        match createUser newId now name pass db with
        | Ok db' =>
          if saved then (json 200 true "Account created successfully", db')
          else (json 500 false "Signup successful but login failed", db')
        | Throw => (json 500 false "Server error", db)
        end
      end.

(** [POST /api/reset-hwid], the administrative reset. *)
Definition api_reset_hwid (username : option string) (db : gmap string User)
  : Response * gmap string User :=
  if negb (truthy username)
  then (json 400 false "Username required", db)
  else
    match getUserByUsername (default "" username) db with
    | None => (json 404 false "User not found", db)
    | Some (id, user) =>
      if negb (truthy (hwid user))
      then (json 400 false "User is not hardware locked", db)
      else
        match updateUser id (set_hwid None None) db with
        | Ok db' =>
          (json 200 true ("Hardware lock reset for " +:+ default "" username), db')
        | Throw => (json 500 false "Server error", db)
        end
    end.

(** [user.subscription?.stripeCustomerId] and [...?.stripeSubscriptionId] *)
Definition customerIdOf (u : User) : option string :=
  subscription u ≫= stripeCustomerId.

Definition subscriptionIdOf (u : User) : option string :=
  subscription u ≫= stripeSubscriptionId.

(** [POST /api/stripe/create-checkout-session]: the customer id is saved
    before the checkout session is created. *)
Definition api_stripe_create_checkout_session (sdk : Stripe.Sdk)
    (session priceId packageType : option string) (db : gmap string User)
  : Response * gmap string User :=
  if negb (requireAuth session) then (json 401 false "Unauthorized", db)
  else if negb (truthy priceId) || negb (truthy packageType)
  then (json 400 false "Missing required fields", db)
  else
    let userId := default "" session in
    match getUserById userId db with
    | None => (json 404 false "User not found", db)
    | Some user =>
      let saved :=
        if truthy (customerIdOf user) then Ok db
        else
          match Stripe.customers_create sdk with
          | None => Throw
          | Some customerId =>
            updateUser userId (upd_subscription (set_stripeCustomerId (Some customerId))) db
          end in
      match saved with
      | Throw => (json 500 false "Failed to create checkout session", db)
      | Ok db' =>
        if Stripe.sessions_create sdk
        then (json 200 true "checkout session created", db')
        else (json 500 false "Failed to create checkout session", db')
      end
    end.

(** The [updates] object of [handleCheckoutSessionCompleted], for a package
    type [pkg]; [periodEnd] is what the retrieval of the subscription gave. *)
Definition checkout_updates (now : Timestamp) (pkg : string)
    (session : Stripe.Object) (periodEnd : option Z) : Subscription -> Subscription :=
  fun s =>
    let s := set_status (Some "active") s in
    let s := set_package (Some pkg) s in
    let s := set_activatedAt (Some now) s in
    let s := set_stripeCustomerId (Stripe.customer session) s in
    if String.eqb pkg "lifetime"
    then set_currentPeriodEnd None s
    else
      let s := set_stripeSubscriptionId (Stripe.subscription session) s in
      if truthy (Stripe.subscription session)
      then
        match periodEnd with
        | Some t => set_currentPeriodEnd (Some (t * 1000)) s
        | None => s                       (* retrieval failed: logged only *)
        end
      else s.

(** [handleCheckoutSessionCompleted].  A missing [metadata.packageType] is
    [undefined] in the update, which Firestore refuses. *)
Definition handleCheckoutSessionCompleted (sdk : Stripe.Sdk) (now : Timestamp)
    (session : Stripe.Object) (db : gmap string User) : result (gmap string User) :=
  let userId := Stripe.userId (Stripe.metadata session) in
  let packageType := Stripe.packageType (Stripe.metadata session) in
  if negb (truthy userId) then Ok db
  else
    match packageType with
    | None => Throw
    | Some pkg =>
      updateUser (default "" userId)
        (upd_subscription
           (checkout_updates now pkg session
              (Stripe.subscriptions_retrieve sdk (Stripe.subscription session))))
        db
    end.

(** [where('subscription.stripeCustomerId', '==', customerId).limit(1)] *)
Definition getUserByCustomerId (customerId : string) (db : gmap string User)
  : option (string * User) :=
  Firestore.where_limit1 (fun u => strictEq (customerIdOf u) customerId) db.

(** [handleSubscriptionUpdated]: status and period end stored verbatim.  An
    event without [customer], [status] or [current_period_end] throws (the
    query or the update refuses [undefined], the date is invalid). *)
Definition handleSubscriptionUpdated (subscription : Stripe.Object)
    (db : gmap string User) : result (gmap string User) :=
  match Stripe.customer subscription with
  | None => Throw
  | Some customerId =>
    match getUserByCustomerId customerId db with
    | None => Ok db
    | Some (userId, _) =>
      match Stripe.status subscription, Stripe.current_period_end subscription with
      | Some st, Some t =>
        updateUser userId
          (upd_subscription
             (fun s => set_currentPeriodEnd (Some (t * 1000)) (set_status (Some st) s)))
          db
      | _, _ => Throw
      end
    end
  end.

(** [handleSubscriptionDeleted] *)
Definition handleSubscriptionDeleted (now : Timestamp) (subscription : Stripe.Object)
    (db : gmap string User) : result (gmap string User) :=
  match Stripe.customer subscription with
  | None => Throw
  | Some customerId =>
    match getUserByCustomerId customerId db with
    | None => Ok db
    | Some (userId, _) =>
      updateUser userId
        (upd_subscription
           (fun s => set_cancelledAt (Some now) (set_status (Some "cancelled") s)))
        db
    end
  end.

(** [handlePaymentSucceeded]: logs only. *)
Definition handlePaymentSucceeded (invoice : Stripe.Object) (db : gmap string User)
  : result (gmap string User) := Ok db.

(** [handlePaymentFailed]: looks the user up and logs. *)
Definition handlePaymentFailed (invoice : Stripe.Object) (db : gmap string User)
  : result (gmap string User) :=
  match Stripe.customer invoice with
  | None => Throw
  | Some customerId =>
    match getUserByCustomerId customerId db with
    | _ => Ok db
    end
  end.

(** The [switch (event.type)] of the webhook route. *)
Definition dispatch (sdk : Stripe.Sdk) (now : Timestamp) (event : Stripe.Event)
    (db : gmap string User) : result (gmap string User) :=
  let o := Stripe.object event in
  let t := Stripe.type event in
  if String.eqb t "checkout.session.completed"
  then handleCheckoutSessionCompleted sdk now o db
  else if String.eqb t "customer.subscription.updated"
  then handleSubscriptionUpdated o db
  else if String.eqb t "customer.subscription.deleted"
  then handleSubscriptionDeleted now o db
  else if String.eqb t "invoice.payment_succeeded"
  then handlePaymentSucceeded o db
  else if String.eqb t "invoice.payment_failed"
  then handlePaymentFailed o db
  else Ok db.

(** [POST /api/stripe/webhook] on the raw body, the [stripe-signature] header
    and [process.env.STRIPE_WEBHOOK_SECRET]. *)
Definition api_stripe_webhook (sdk : Stripe.Sdk) (now : Timestamp)
    (rawBody : string) (sig secret : option string) (db : gmap string User)
  : Response * gmap string User :=
  match Stripe.constructEvent sdk rawBody sig secret with
  | None => (mkResponse 400 None "Webhook Error", db)
  | Some event =>
    match dispatch sdk now event db with
    | Ok db' => (received, db')
    | Throw => (mkResponse 500 None "Webhook handler failed", db)
    end
  end.

(** [POST /api/stripe/cancel-subscription] *)
Definition api_stripe_cancel_subscription (sdk : Stripe.Sdk)
    (session : option string) (now : Timestamp) (db : gmap string User)
  : Response * gmap string User :=
  if negb (requireAuth session) then (json 401 false "Unauthorized", db)
  else
    let userId := default "" session in
    match getUserById userId db with
    | None => (json 404 false "User not found", db)
    | Some user =>
      if negb (truthy (subscriptionIdOf user))
      then (json 400 false "No active subscription to cancel", db)
      else if negb (Stripe.subscriptions_update sdk (default "" (subscriptionIdOf user)))
      then (json 500 false "Failed to cancel subscription", db)
      else
        match updateUser userId
                (upd_subscription
                   (fun s => set_cancelledAt (Some now) (set_status (Some "cancelled") s)))
                db with
        | Ok db' =>
          (json 200 true
             "Subscription cancelled. Access will continue until the end of the billing period.",
           db')
        | Throw => (json 500 false "Failed to cancel subscription", db)
        end
    end.

(** The requests that can change the collection, with what the environment
    supplies to each. *)
Inductive Op : Type :=
| Login (username password hwid : option string)
| WebLogin (username password : option string) (saved : bool)
| Signup (username password : option string) (newId : string) (saved : bool)
| ResetHwid (username : option string)
| CreateCheckoutSession (session priceId packageType : option string)
| Webhook (rawBody : string) (sig : option string)
| CancelSubscription (session : option string).

Definition step (sdk : Stripe.Sdk) (secret : option string) (now : Timestamp)
    (op : Op) (db : gmap string User) : Response * gmap string User :=
  match op with
  | Login u p h => api_login u p h now db
  | WebLogin u p saved => api_web_login u p saved now db
  | Signup u p newId saved => api_signup u p newId saved now db
  | ResetHwid u => api_reset_hwid u db
  | CreateCheckoutSession s priceId pkg =>
    api_stripe_create_checkout_session sdk s priceId pkg db
  | Webhook body sig => api_stripe_webhook sdk now body sig secret db
  | CancelSubscription s => api_stripe_cancel_subscription sdk s now db
  end.

End LicenseServer.

(** ** [src/unnamed/part_002], first program: the server with the vouch API
    and the self-service HWID reset *)

Module VouchServer.
Import Schema.

Definition getUserByCustomerId (customerId : string) (db : gmap string User)
  : option (string * User) :=
  Firestore.where_limit1
    (fun u => strictEq (subscription u ≫= stripeCustomerId) customerId) db.

(** The entries of [updates] that [handleCheckoutSessionCompleted] sets for
    every package. *)
Definition common_updates (now : Timestamp) (pkg : string)
    (session : Stripe.Object) (s : Subscription) : Subscription :=
  let s := set_status (Some "active") s in
  let s := set_package (Some pkg) s in
  let s := set_stripeCustomerId (Stripe.customer session) s in
  set_activatedAt (Some now) s.

(** [updates] for the package [lifetime]: no end date. *)
Definition lifetime_updates (now : Timestamp) (pkg : string)
    (session : Stripe.Object) (s : Subscription) : Subscription :=
  set_currentPeriodEnd None (common_updates now pkg session s).

(** [updates] for any other package; [periodEnd] is the [current_period_end]
    of the retrieved subscription. *)
Definition recurring_updates (now : Timestamp) (pkg : string)
    (session : Stripe.Object) (periodEnd : Z) (s : Subscription) : Subscription :=
  set_currentPeriodEnd (Some (periodEnd * 1000))
    (set_stripeSubscriptionId (Stripe.subscription session)
       (common_updates now pkg session s)).

(** [usersCollection.doc(userId).update(updates)] with the id of the metadata:
    [doc] refuses a missing or empty id. *)
Definition update_metadata_user (userId : option string) (updates : User -> User)
    (db : gmap string User) : result (gmap string User) :=
  if negb (truthy userId) then Throw
  else Firestore.doc_update (default "" userId) updates db.

(** [handleCheckoutSessionCompleted]: every failure is rethrown.  The
    subscription is retrieved for every package but [lifetime]; the update
    refuses a missing package type ([undefined]). *)
Definition handleCheckoutSessionCompleted (sdk : Stripe.Sdk) (now : Timestamp)
    (session : Stripe.Object) (db : gmap string User) : result (gmap string User) :=
  let userId := Stripe.userId (Stripe.metadata session) in
  let packageType := Stripe.packageType (Stripe.metadata session) in
  match packageType with
  | None => Throw
  | Some pkg =>
    if String.eqb pkg "lifetime"
    then update_metadata_user userId
           (upd_subscription (lifetime_updates now pkg session)) db
    else
      match Stripe.subscriptions_retrieve sdk (Stripe.subscription session) with
      | None => Throw
      | Some t =>
        update_metadata_user userId
          (upd_subscription (recurring_updates now pkg session t)) db
      end
  end.

Definition handleSubscriptionUpdated (subscription : Stripe.Object)
    (db : gmap string User) : result (gmap string User) :=
  match Stripe.customer subscription with
  | None => Throw
  | Some customerId =>
    match getUserByCustomerId customerId db with
    | None => Ok db
    | Some (userId, _) =>
      match Stripe.status subscription, Stripe.current_period_end subscription with
      | Some st, Some t =>
        Firestore.doc_update userId
          (upd_subscription
             (fun s => set_currentPeriodEnd (Some (t * 1000)) (set_status (Some st) s)))
          db
      | _, _ => Throw
      end
    end
  end.

Definition handleSubscriptionDeleted (now : Timestamp) (subscription : Stripe.Object)
    (db : gmap string User) : result (gmap string User) :=
  match Stripe.customer subscription with
  | None => Throw
  | Some customerId =>
    match getUserByCustomerId customerId db with
    | None => Ok db
    | Some (userId, _) =>
      Firestore.doc_update userId
        (upd_subscription
           (fun s => set_cancelledAt (Some now) (set_status (Some "cancelled") s)))
        db
    end
  end.

(** [handlePaymentSucceeded]: records the payment; its own [catch] logs and
    swallows every failure. *)
Definition handlePaymentSucceeded (now : Timestamp) (invoice : Stripe.Object)
    (db : gmap string User) : result (gmap string User) :=
  if truthy (Stripe.subscription invoice)
  then
    match Stripe.customer invoice with
    | None => Ok db
    | Some customerId =>
      match getUserByCustomerId customerId db with
      | None => Ok db
      | Some (userId, _) =>
        match Firestore.doc_update userId
                (upd_subscription (set_lastPayment (Some now) (Stripe.amount_paid invoice)))
                db with
        | Ok db' => Ok db'
        | Throw => Ok db
        end
      end
    end
  else Ok db.

(** [handlePaymentFailed]: records the failure flag and reason. *)
Definition handlePaymentFailed (invoice : Stripe.Object) (db : gmap string User)
  : result (gmap string User) :=
  if truthy (Stripe.subscription invoice)
  then
    match Stripe.customer invoice with
    | None => Ok db
    | Some customerId =>
      match getUserByCustomerId customerId db with
      | None => Ok db
      | Some (userId, _) =>
        let reason :=
          if truthy (Stripe.last_payment_error invoice)
          then Stripe.last_payment_error invoice else Some "Payment failed" in
        match Firestore.doc_update userId
                (upd_subscription (set_paymentFailed (Some true) reason)) db with
        | Ok db' => Ok db'
        | Throw => Ok db
        end
      end
    end
  else Ok db.

Definition dispatch (sdk : Stripe.Sdk) (now : Timestamp) (event : Stripe.Event)
    (db : gmap string User) : result (gmap string User) :=
  let o := Stripe.object event in
  let t := Stripe.type event in
  if String.eqb t "checkout.session.completed"
  then handleCheckoutSessionCompleted sdk now o db
  else if String.eqb t "customer.subscription.updated"
  then handleSubscriptionUpdated o db
  else if String.eqb t "customer.subscription.deleted"
  then handleSubscriptionDeleted now o db
  else if String.eqb t "invoice.payment_succeeded"
  then handlePaymentSucceeded now o db
  else if String.eqb t "invoice.payment_failed"
  then handlePaymentFailed o db
  else Ok db.

(** [POST /api/stripe/webhook] *)
Definition api_stripe_webhook (sdk : Stripe.Sdk) (now : Timestamp)
    (rawBody : string) (sig secret : option string) (db : gmap string User)
  : Response * gmap string User :=
  match Stripe.constructEvent sdk rawBody sig secret with
  | None => (mkResponse 400 None "Webhook Error", db)
  | Some event =>
    match dispatch sdk now event db with
    | Ok db' => (received, db')
    | Throw => (mkResponse 500 None "Webhook handler failed", db)
    end
  end.

(** [POST /api/login]: the web login of this revision; it takes no hwid and
    writes nothing.  A missing username makes the query throw. *)
Definition api_login (username password : option string) (db : gmap string User)
  : Response * gmap string User :=
  match username with
  | None => (json 500 false "Server error", db)
  | Some name =>
    match Firestore.where_limit1 (fun u => String.eqb (Schema.username u) name) db with
    | None => (json 200 false "Invalid username or password", db)
    | Some (_, userData) =>
      if negb (strictEq password (Schema.password userData))
      then (json 200 false "Invalid username or password", db)
      else (json 200 true "Login successful", db)
    end
  end.

(** The document [/api/signup] builds. *)
Definition newUser (now : Timestamp) (name mail pass : string) : User :=
  mkUser name (Some mail) pass now None None None
    (Some (mkSubscription (Some "none") None None None None None None
             None None None None None None))
    None.

(** [POST /api/signup]: no validation; a missing field makes the query that
    reads it, or the [add], throw. *)
Definition api_signup (username email password : option string) (newId : string)
    (now : Timestamp) (db : gmap string User) : Response * gmap string User :=
  match username with
  | None => (json 500 false "Server error", db)
  | Some name =>
    match Firestore.where_limit1 (fun u => String.eqb (Schema.username u) name) db with
    | Some _ => (json 200 false "Username already taken", db)
    | None =>
      match email with
      | None => (json 500 false "Server error", db)
      | Some mail =>
        match Firestore.where_limit1 (fun u => strictEq (Schema.email u) mail) db with
        | Some _ => (json 200 false "Email already registered", db)
        | None =>
          match password with
          | None => (json 500 false "Server error", db)
          | Some pass =>
            match Firestore.add newId (newUser now name mail pass) db with
            | Ok db' => (json 200 true "Account created successfully", db')
            | Throw => (json 500 false "Server error", db)
            end
          end
        end
      end
    end
  end.

(** Seven days, the cooldown of the self-service reset: the test
    [(Date.now() - lastReset.toDate()) / (1000 * 60 * 60 * 24) < 7] on whole
    milliseconds. *)
Definition cooldown : Z := 7 * (1000 * 60 * 60 * 24).

(** [Math.ceil(7 - daysSinceReset)], with [daysSinceReset] the quotient of
    the milliseconds since the last reset by those of a day: seven less the
    whole days that have passed.  (The code divides in floating point; the
    quotient of two whole numbers of milliseconds is exact to one part in
    2^53, and a quotient that is not whole lies at least one part in 86400000
    away from a whole number, so the rounding does not change the result.) *)
Definition daysRemaining (now lastReset : Timestamp) : Z :=
  7 - (now - lastReset) / (1000 * 60 * 60 * 24).

(** The message of a reset refused by the cooldown. *)
Definition cooldown_message (now lastReset : Timestamp) : string :=
  "HWID can only be reset once every 7 days. Please wait "
  +:+ toString (daysRemaining now lastReset) +:+ " more day(s).".

(** [POST /api/reset-hwid], the self-service reset.  It writes the field
    paths [subscription.hwid] and [subscription.lastHwidReset]. *)
Definition api_reset_hwid (session : option string) (now : Timestamp)
    (db : gmap string User) : Response * gmap string User :=
  if negb (truthy session) then (json 401 false "Not authenticated", db)
  else
    let userId := default "" session in
    match Firestore.doc_get userId db with
    | None => (json 404 false "User not found", db)
    | Some userData =>
      if notActive userData
      then (json 200 false "No active subscription", db)
      else
        let reset :=
          match Firestore.doc_update userId
                  (upd_subscription
                     (fun s => set_lastHwidReset (Some now) (set_sub_hwid None s))) db with
          | Ok db' => (json 200 true "HWID reset successfully", db')
          | Throw => (json 500 false "Server error", db)
          end in
        match subscription userData ≫= lastHwidReset with
        | Some lastReset =>
          if (now - lastReset <? cooldown)%Z
          then (json 200 false (cooldown_message now lastReset), db)
          else reset
        | None => reset
        end
    end.

(** [POST /api/stripe/create-checkout-session]; reading [userData.subscription]
    of an absent document throws. *)
Definition api_stripe_create_checkout_session (sdk : Stripe.Sdk)
    (session : option string) (db : gmap string User)
  : Response * gmap string User :=
  if negb (truthy session) then (json 401 false "Not authenticated", db)
  else
    let userId := default "" session in
    match Firestore.doc_get userId db with
    | None => (json 500 false "Failed to create checkout session", db)
    | Some userData =>
      let saved :=
        if truthy (subscription userData ≫= stripeCustomerId) then Ok db
        else
          match Stripe.customers_create sdk with
          | None => Throw
          | Some customerId =>
            Firestore.doc_update userId
              (upd_subscription (set_stripeCustomerId (Some customerId))) db
          end in
      match saved with
      | Throw => (json 500 false "Failed to create checkout session", db)
      | Ok db' =>
        if Stripe.sessions_create sdk
        then (json 200 true "checkout session created", db')
        else (json 500 false "Failed to create checkout session", db')
      end
    end.

(** [POST /api/subscription/cancel]: asks Stripe to cancel at the period end
    and writes nothing; the status follows with the webhook. *)
Definition api_subscription_cancel (sdk : Stripe.Sdk) (session : option string)
    (db : gmap string User) : Response * gmap string User :=
  if negb (truthy session) then (json 401 false "Not authenticated", db)
  else
    match Firestore.doc_get (default "" session) db with
    | None => (json 404 false "User not found", db)
    | Some userData =>
      let subscriptionId := subscription userData ≫= stripeSubscriptionId in
      if negb (truthy subscriptionId)
      then (json 200 false "No active subscription found", db)
      else if Stripe.subscriptions_update sdk (default "" subscriptionId)
      then (json 200 true
              "Subscription will be cancelled at the end of the billing period", db)
      else (json 500 false "Failed to cancel subscription", db)
    end.

Inductive Op : Type :=
| Login (username password : option string)
| Signup (username email password : option string) (newId : string)
| ResetHwid (session : option string)
| CreateCheckoutSession (session : option string)
| Webhook (rawBody : string) (sig : option string)
| CancelSubscription (session : option string).

Definition step (sdk : Stripe.Sdk) (secret : option string) (now : Timestamp)
    (op : Op) (db : gmap string User) : Response * gmap string User :=
  match op with
  | Login u p => api_login u p db
  | Signup u e p newId => api_signup u e p newId now db
  | ResetHwid s => api_reset_hwid s now db
  | CreateCheckoutSession s => api_stripe_create_checkout_session sdk s db
  | Webhook body sig => api_stripe_webhook sdk now body sig secret db
  | CancelSubscription s => api_subscription_cancel sdk s db
  end.

End VouchServer.

(** ** [src/unnamed/part_002], second program: client login with HWID lock,
    no subscriptions *)

Module HwidServer.
Import Schema.

Definition getUserByUsername (name : string) (db : gmap string User)
  : option (string * User) :=
  Firestore.where_limit1 (fun u => String.eqb (username u) name) db.

Definition newUser (now : Timestamp) (name pass : string) : User :=
  mkUser name None pass now None None None None None.

Definition createUser (newId : string) (now : Timestamp) (name pass : string)
    (db : gmap string User) : result (gmap string User) :=
  Firestore.add newId (newUser now name pass) db.

Definition updateUser (userId : string) (updates : User -> User)
    (db : gmap string User) : result (gmap string User) :=
  Firestore.doc_update userId updates db.

(** [POST /api/login], the client login. *)
Definition api_login (username password hwid : option string) (now : Timestamp)
    (db : gmap string User) : Response * gmap string User :=
  if negb (truthy username) || negb (truthy password) || negb (truthy hwid)
  then (json 400 false "Missing required fields", db)
  else
    match getUserByUsername (default "" username) db with
    | None => (json 401 false "Invalid credentials", db)
    | Some (id, user) =>
      if negb (strictEq password (Schema.password user))
      then (json 401 false "Invalid credentials", db)
      else if truthy (Schema.hwid user) && negb (strictEqOpt (Schema.hwid user) hwid)
      then (json 403 false "Hardware mismatch. Contact administrator.", db)
      else if negb (truthy (Schema.hwid user))
      then
        match updateUser id (set_hwid hwid (Some now)) db with
        | Ok db' => (json 200 true "Login successful", db')
        | Throw => (json 500 false "Server error", db)
        end
      else (json 200 true "Login successful", db)
    end.

(** [POST /api/web-login]: sets the session, writes nothing.  The answer is
    given in the callback of [req.session.save]; [saved] tells whether the
    session was stored. *)
Definition api_web_login (username password : option string) (saved : bool)
    (db : gmap string User) : Response * gmap string User :=
  if negb (truthy username) || negb (truthy password)
  then (json 400 false "Missing credentials", db)
  else
    match getUserByUsername (default "" username) db with
    | None => (json 401 false "Invalid credentials", db)
    | Some (_, user) =>
      if negb (strictEq password (Schema.password user))
      then (json 401 false "Invalid credentials", db)
      else if saved then (json 200 true "Login successful", db)
      else (json 500 false "Login failed - session error", db)
    end.

(** [POST /api/signup].  The answer is given in the callback of
    [req.session.save], after the account was created; [saved] tells whether
    the session was stored. *)
Definition api_signup (username password : option string) (newId : string)
    (saved : bool) (now : Timestamp) (db : gmap string User)
  : Response * gmap string User :=
  if negb (truthy username) || negb (truthy password)
  then (json 400 false "Missing required fields", db)
  else
    let name := default "" username in
    let pass := default "" password in
    if (str_length name <? 3)%Z
    then (json 400 false "Username must be at least 3 characters", db)
    else if (str_length pass <? 6)%Z
    then (json 400 false "Password must be at least 6 characters", db)
    else
      match getUserByUsername name db with
      | Some _ => (json 409 false "Username already exists", db)
      | None =>
        match createUser newId now name pass db with
        | Ok db' =>
          if saved then (json 200 true "Account created successfully", db')
          else (json 500 false "Signup successful but login failed", db')
        | Throw => (json 500 false "Server error", db)
        end
      end.

(** [POST /api/reset-hwid], the administrative reset. *)
Definition api_reset_hwid (username : option string) (db : gmap string User)
  : Response * gmap string User :=
  if negb (truthy username)
  then (json 400 false "Username required", db)
  else
    match getUserByUsername (default "" username) db with
    | None => (json 404 false "User not found", db)
    | Some (id, user) =>
      if negb (truthy (hwid user))
      then (json 400 false "User is not hardware locked", db)
      else
        match updateUser id (set_hwid None None) db with
        | Ok db' =>
          (json 200 true ("Hardware lock reset for " +:+ default "" username), db')
        | Throw => (json 500 false "Server error", db)
        end
    end.

Inductive Op : Type :=
| Login (username password hwid : option string)
| WebLogin (username password : option string) (saved : bool)
| Signup (username password : option string) (newId : string) (saved : bool)
| ResetHwid (username : option string).

Definition step (now : Timestamp) (op : Op) (db : gmap string User)
  : Response * gmap string User :=
  match op with
  | Login u p h => api_login u p h now db
  | WebLogin u p saved => api_web_login u p saved db
  | Signup u p newId saved => api_signup u p newId saved now db
  | ResetHwid u => api_reset_hwid u db
  end.

End HwidServer.

(** ** [src/server.js]: the flat-file server *)

Module FileServer.

Record Subscription : Type := mkSubscription {
  package : option string;
  status : string;
  customerId : option string;
  subscriptionId : option string;
  paymentIntentId : option string;
  mode : option string;
  sub_createdAt : Timestamp;
  cancelledAt : option Timestamp
}.

Record User : Type := mkUser {
  id : string;
  username : string;
  password : string;
  createdAt : Timestamp;
  hwid : option string;
  hwidLockedAt : option Timestamp;
  subscription : option Subscription
}.

Definition set_hwid (h : option string) (t : option Timestamp) (u : User) : User :=
  mkUser (id u) (username u) (password u) (createdAt u) h t (subscription u).

Definition set_subscription (s : option Subscription) (u : User) : User :=
  mkUser (id u) (username u) (password u) (createdAt u) (hwid u) (hwidLockedAt u) s.

Definition cancel (now : Timestamp) (s : Subscription) : Subscription :=
  mkSubscription (package s) "cancelled" (customerId s) (subscriptionId s)
    (paymentIntentId s) (mode s) (sub_createdAt s) (Some now).

(** [x || null] *)
Definition orNull (x : option string) : option string :=
  if truthy x then x else None.

(** The answer of a handler whose promise rejects: Express sends nothing. *)
Definition noResponse : Response := mkResponse 0 None "no response".

(** The subscription object of [checkout.session.completed]. *)
Definition purchased (now : Timestamp) (session : Stripe.Object) : Subscription :=
  mkSubscription (Stripe.packageType (Stripe.metadata session)) "active"
    (Stripe.customer session) (orNull (Stripe.subscription session))
    (orNull (Stripe.payment_intent session)) (Stripe.mode session) now None.

(** [u.subscription?.subscriptionId === subscription.id]: a user without
    subscription compares [undefined], a stored id is a string or [null]. *)
Definition hasSubscriptionId (sid : option string) (u : User) : bool :=
  match subscription u, sid with
  | None, None => true
  | Some s, Some i => strictEq (subscriptionId s) i
  | _, _ => false
  end.

(** [POST /api/stripe/webhook] *)
Definition api_stripe_webhook (sdk : Stripe.Sdk) (now : Timestamp)
    (rawBody : string) (sig secret : option string) (users : list User)
  : Response * list User :=
  match Stripe.constructEvent sdk rawBody sig secret with
  | None => (mkResponse 400 None "Bad Request", users)
  | Some event =>
    let o := Stripe.object event in
    if String.eqb (Stripe.type event) "checkout.session.completed"
    then
      let userId := Stripe.userId (Stripe.metadata o) in
      (received,
       modify_first (fun u => strictEq userId (id u))
         (set_subscription (Some (purchased now o))) users)
    else if String.eqb (Stripe.type event) "customer.subscription.deleted"
    then
      match List.find (hasSubscriptionId (Stripe.id o)) users with
      | None => (received, users)
      | Some user2 =>
        match subscription user2 with
        | None => (noResponse, users)       (* TypeError on [user2.subscription.status] *)
        | Some _ =>
          (received,
           modify_first (hasSubscriptionId (Stripe.id o))
             (fun u => set_subscription (cancel now <$> subscription u) u) users)
        end
      end
    else (received, users)
  end.

(** [u.username === username && u.password === password] *)
Definition credentials (username password : option string) (u : User) : bool :=
  strictEq username (FileServer.username u) && strictEq password (FileServer.password u).

(** [POST /api/web-login] *)
Definition api_web_login (username password : option string) (users : list User)
  : Response * list User :=
  if negb (truthy username) || negb (truthy password)
  then (json 200 false "Username and password are required", users)
  else
    match List.find (credentials username password) users with
    | None => (json 200 false "Invalid username or password", users)
    | Some _ => (json 200 true "Login successful", users)
    end.

(** [users.some(user => user.username.toLowerCase() === username.toLowerCase())] *)
Definition usernameExists (name : string) (users : list User) : bool :=
  existsb
    (fun user => String.eqb (toLowerCase (FileServer.username user)) (toLowerCase name))
    users.

(** [POST /api/signup] *)
Definition api_signup (username password : option string) (now : Timestamp)
    (users : list User) : Response * list User :=
  if negb (truthy username) || negb (truthy password)
  then (json 200 false "Username and password are required", users)
  else
    let name := default "" username in
    let pass := default "" password in
    if (str_length name <? 3)%Z
    then (json 200 false "Username must be at least 3 characters", users)
    else if (str_length pass <? 6)%Z
    then (json 200 false "Password must be at least 6 characters", users)
    else if usernameExists name users
    then (json 200 false "Username already taken", users)
    else
      let newUser := mkUser (toString now) name pass now None None None in
      (json 200 true "Account created successfully!", (users ++ [newUser])%list).

(** [POST /api/login], the client login with hardware lock. *)
Definition api_login (username password hwid : option string) (now : Timestamp)
    (users : list User) : Response * list User :=
  if negb (truthy username) || negb (truthy password)
  then (json 200 false "Username and password are required", users)
  else
    match List.find (credentials username password) users with
    | None => (json 200 false "Invalid username or password", users)
    | Some user =>
      if truthy hwid
      then
        if negb (truthy (FileServer.hwid user))
        then
          (json 200 true "Login successful - Account locked to this computer",
           modify_first (credentials username password) (set_hwid hwid (Some now)) users)
        else if negb (strictEqOpt (FileServer.hwid user) hwid)
        then
          (json 200 false
             "Hardware ID mismatch - This account is locked to another computer",
           users)
        else (json 200 true "Login successful", users)
      else (json 200 true "Login successful", users)
    end.

(** [POST /api/reset-hwid]: [delete user.hwid; delete user.hwidLockedAt] *)
Definition api_reset_hwid (username : option string) (users : list User)
  : Response * list User :=
  if negb (truthy username)
  then (json 200 false "Username is required", users)
  else
    match List.find (fun u => strictEq username (FileServer.username u)) users with
    | None => (json 200 false "User not found", users)
    | Some user =>
      if negb (truthy (hwid user))
      then (json 200 false "Account is not locked to any hardware", users)
      else
        (json 200 true "Hardware ID lock removed successfully",
         modify_first (fun u => strictEq username (FileServer.username u))
           (set_hwid None None) users)
    end.

(** [POST /api/stripe/cancel-subscription]; [session] is the id held in
    [req.session.user].  The route only asks Stripe to cancel: the status
    changes when the [customer.subscription.deleted] event arrives. *)
Definition api_stripe_cancel_subscription (sdk : Stripe.Sdk)
    (session : option string) (users : list User) : Response * list User :=
  match session with
  | None => (json 200 false "Not logged in", users)
  | Some sessionId =>
    match List.find (fun u => String.eqb (id u) sessionId) users ≫= subscription with
    | None => (json 200 false "No active subscription found", users)
    | Some sub =>
      if strictEq (mode sub) "payment" || strictEq (package sub) "lifetime"
      then
        (json 200 false
           "Lifetime subscriptions cannot be cancelled. This is a one-time payment.",
         users)
      else if negb (truthy (subscriptionId sub))
      then (json 200 false "No subscription ID found", users)
      else if Stripe.subscriptions_cancel sdk (default "" (subscriptionId sub))
      then (json 200 true "Subscription cancelled successfully", users)
      else (json 200 false "Failed to cancel subscription", users)
    end
  end.

Inductive Op : Type :=
| Login (username password hwid : option string)
| WebLogin (username password : option string)
| Signup (username password : option string)
| ResetHwid (username : option string)
| Webhook (rawBody : string) (sig : option string)
| CancelSubscription (session : option string).

Definition step (sdk : Stripe.Sdk) (secret : option string) (now : Timestamp)
    (op : Op) (users : list User) : Response * list User :=
  match op with
  | Login u p h => api_login u p h now users
  | WebLogin u p => api_web_login u p users
  | Signup u p => api_signup u p now users
  | ResetHwid u => api_reset_hwid u users
  | Webhook body sig => api_stripe_webhook sdk now body sig secret users
  | CancelSubscription s => api_stripe_cancel_subscription sdk s users
  end.

End FileServer.

(** ** [src/unnamed/part_000]: the moderation commands of the Discord bot *)

Module DiscordBot.

(** A document of the [vouches] collection (the display fields copied from
    the Discord message are left out). *)
Record Vouch : Type := mkVouch {
  authorId : string;
  targetUserId : string;
  rating : Z;
  vouchMessage : string;
  createdAt : Timestamp;
  approved : bool;
  featured : bool;
  approvedBy : option string;
  approvedAt : option Timestamp;
  rejected : option bool;
  rejectedBy : option string;
  rejectedAt : option Timestamp;
  rejectionReason : option string
}.

Definition set_featured (b : bool) (v : Vouch) : Vouch :=
  mkVouch (authorId v) (targetUserId v) (rating v) (vouchMessage v) (createdAt v)
    (approved v) b (approvedBy v) (approvedAt v) (rejected v) (rejectedBy v)
    (rejectedAt v) (rejectionReason v).

Definition set_approved (by_ : string) (now : Timestamp) (v : Vouch) : Vouch :=
  mkVouch (authorId v) (targetUserId v) (rating v) (vouchMessage v) (createdAt v)
    true (featured v) (Some by_) (Some now) (rejected v) (rejectedBy v)
    (rejectedAt v) (rejectionReason v).

Definition set_rejected (by_ : string) (now : Timestamp) (reason : string)
    (v : Vouch) : Vouch :=
  mkVouch (authorId v) (targetUserId v) (rating v) (vouchMessage v) (createdAt v)
    false (featured v) (approvedBy v) (approvedAt v) (Some true) (Some by_)
    (Some now) (Some reason).

(** What the handler reads of a message: its author, whether the member has
    [ManageMessages], and the arguments after the command word. *)
Record Message : Type := mkMessage {
  author : string;
  canManageMessages : bool;
  args : list string
}.

(** What the bot answers. *)
Inductive Reply : Type :=
| NoPermission
| Usage
| NotFound
| NotApproved          (* "Vouch must be approved before it can be featured." *)
| Approved
| Rejected (reason : string)
| Featured (newFeaturedState : bool)
| Failed.

(** [!approve <vouchId>] *)
Definition approve (msg : Message) (now : Timestamp) (vouches : gmap string Vouch)
  : Reply * gmap string Vouch :=
  if negb (canManageMessages msg) then (NoPermission, vouches)
  else
    let vouchId := head (args msg) in
    if negb (truthy vouchId) then (Usage, vouches)
    else
      match Firestore.doc_get (default "" vouchId) vouches with
      | None => (NotFound, vouches)
      | Some _ =>
        match Firestore.doc_update (default "" vouchId)
                (set_approved (author msg) now) vouches with
        | Ok vouches' => (Approved, vouches')
        | Throw => (Failed, vouches)
        end
      end.

(** [args.slice(1).join(' ') || 'No reason provided'] *)
Definition reasonOf (msg : Message) : string :=
  let r := String.concat " " (tail (args msg)) in
  if String.eqb r "" then "No reason provided" else r.

(** [!reject <vouchId> [reason]] *)
Definition reject (msg : Message) (now : Timestamp) (vouches : gmap string Vouch)
  : Reply * gmap string Vouch :=
  if negb (canManageMessages msg) then (NoPermission, vouches)
  else
    let vouchId := head (args msg) in
    if negb (truthy vouchId) then (Usage, vouches)
    else
      match Firestore.doc_get (default "" vouchId) vouches with
      | None => (NotFound, vouches)
      | Some _ =>
        match Firestore.doc_update (default "" vouchId)
                (set_rejected (author msg) now (reasonOf msg)) vouches with
        | Ok vouches' => (Rejected (reasonOf msg), vouches')
        | Throw => (Failed, vouches)
        end
      end.

(** [!feature <vouchId>]: toggles [featured] on an approved vouch. *)
Definition feature (msg : Message) (vouches : gmap string Vouch)
  : Reply * gmap string Vouch :=
  if negb (canManageMessages msg) then (NoPermission, vouches)
  else
    let vouchId := head (args msg) in
    if negb (truthy vouchId) then (Usage, vouches)
    else
      match Firestore.doc_get (default "" vouchId) vouches with
      | None => (NotFound, vouches)
      | Some vouchData =>
        if negb (approved vouchData) then (NotApproved, vouches)
        else
          let newFeaturedState := negb (featured vouchData) in
          match Firestore.doc_update (default "" vouchId)
                  (set_featured newFeaturedState) vouches with
          | Ok vouches' => (Featured newFeaturedState, vouches')
          | Throw => (Failed, vouches)
          end
      end.

End DiscordBot.

(** * Vocabulary of the properties *)

(** The invariant of the data model: [hwid] is set exactly when
    [hwidLockedAt] is. *)
Definition hwid_inv (u : Schema.User) : Prop :=
  is_Some (Schema.hwid u) <-> is_Some (Schema.hwidLockedAt u).

Definition file_hwid_inv (u : FileServer.User) : Prop :=
  is_Some (FileServer.hwid u) <-> is_Some (FileServer.hwidLockedAt u).

(** A stored fingerprint is never the empty string. *)
Definition hwid_nonempty (u : Schema.User) : Prop := Schema.hwid u <> Some "".

Definition file_hwid_nonempty (u : FileServer.User) : Prop :=
  FileServer.hwid u <> Some "".

(** A property of user documents kept by every kind of write the Firestore
    revisions perform: binding a presented (truthy) fingerprint, clearing the
    lock, and writes to [lastLogin], [stats] and [subscription]; and true of
    every new document, which has no lock. *)
Record Stable (P : Schema.User -> Prop) : Prop := mkStable {
  stable_bind : forall h t u,
    truthy h = true -> P u -> P (Schema.set_hwid h (Some t) u);
  stable_reset : forall u, P u -> P (Schema.set_hwid None None u);
  stable_lastLogin : forall t u, P u -> P (Schema.set_lastLogin t u);
  stable_stats : forall s u, P u -> P (Schema.set_stats s u);
  stable_subscription : forall s u, P u -> P (Schema.set_subscription s u);
  stable_new : forall name mail pass now login sub st,
    P (Schema.mkUser name mail pass now login None None sub st)
}.

(** The same for the records of the flat-file revision. *)
Record FileStable (P : FileServer.User -> Prop) : Prop := mkFileStable {
  file_stable_bind : forall h t u,
    truthy h = true -> P u -> P (FileServer.set_hwid h (Some t) u);
  file_stable_reset : forall u, P u -> P (FileServer.set_hwid None None u);
  file_stable_subscription : forall s u, P u -> P (FileServer.set_subscription s u);
  file_stable_new : forall i name pass now,
    P (FileServer.mkUser i name pass now None None None)
}.

(** The three cases of the HWID binding at a client login that presents the
    fingerprint [presented] at [now].  [stored] and [lockedAt] are the fields
    [hwid] and [hwidLockedAt] of the account before the request, [stored'] and
    [lockedAt'] after it; [resp] is the answer, [mismatch] the answer the
    revision gives on a hardware mismatch, [untouched] that no account
    changed. *)
Definition ThreeCaseBinding (stored : option string) (lockedAt : option Timestamp)
    (presented : string) (now : Timestamp) (resp mismatch : Response)
    (stored' : option string) (lockedAt' : option Timestamp)
    (untouched : Prop) : Prop :=
  (stored = None ->
   success resp = Some true /\ stored' = Some presented /\ lockedAt' = Some now) /\
  (stored = Some presented ->
   success resp = Some true /\ stored' = stored /\ lockedAt' = lockedAt) /\
  (forall other, stored = Some other -> other <> presented ->
   resp = mismatch /\ success resp = Some false /\ untouched).

(** A user document with [subscription.activatedAt] blanked: what is left to
    compare when the activation instant is set aside. *)
Definition forget_activatedAt (u : Schema.User) : Schema.User :=
  Schema.set_subscription
    (Schema.set_activatedAt None <$> Schema.subscription u) u.

(** The subscription of the account [id], and one of its fields. *)
Definition subscription_at (id : string) (db : gmap string Schema.User)
  : option Schema.Subscription := db !! id ≫= Schema.subscription.

Definition field_at {A : Type} (f : Schema.Subscription -> option A) (id : string)
    (db : gmap string Schema.User) : option A := subscription_at id db ≫= f.

(** The subscription of the account [id] after a handler ran. *)
Definition subscription_after (id : string) (r : result (gmap string Schema.User))
  : result (option Schema.Subscription) :=
  rmap (subscription_at id) r.

(** Two vouches that differ in the field [featured] at most. *)
Definition same_but_featured (v v' : DiscordBot.Vouch) : Prop :=
  DiscordBot.authorId v' = DiscordBot.authorId v /\
  DiscordBot.targetUserId v' = DiscordBot.targetUserId v /\
  DiscordBot.rating v' = DiscordBot.rating v /\
  DiscordBot.vouchMessage v' = DiscordBot.vouchMessage v /\
  DiscordBot.createdAt v' = DiscordBot.createdAt v /\
  DiscordBot.approved v' = DiscordBot.approved v /\
  DiscordBot.approvedBy v' = DiscordBot.approvedBy v /\
  DiscordBot.approvedAt v' = DiscordBot.approvedAt v /\
  DiscordBot.rejected v' = DiscordBot.rejected v /\
  DiscordBot.rejectedBy v' = DiscordBot.rejectedBy v /\
  DiscordBot.rejectedAt v' = DiscordBot.rejectedAt v /\
  DiscordBot.rejectionReason v' = DiscordBot.rejectionReason v.

(** A request to the license-gated server with what the environment supplies
    while it is served: the SDK's answers, the webhook secret, the clock. *)
Record Served : Type := mkServed {
  sdk_of : Stripe.Sdk;
  secret_of : option string;
  instant_of : Timestamp;
  op_of : LicenseServer.Op
}.

Definition serve (q : Served) (db : gmap string Schema.User) : gmap string Schema.User :=
  (LicenseServer.step (sdk_of q) (secret_of q) (instant_of q) (op_of q) db).2.

(** The store after a sequence of requests. *)
Definition run (trace : list Served) (db : gmap string Schema.User)
  : gmap string Schema.User :=
  fold_left (fun db q => serve q db) trace db.

(** The requests that can make the license of the account [id] active, the
    store being [db] when the request arrives: an authentic webhook delivery
    of a checkout-completed event whose [metadata.userId] is [id], or of a
    subscription-updated event with the status [active] for the Stripe
    customer that the account holds. *)
Definition activating_for (id : string) (q : Served) (db : gmap string Schema.User)
  : bool :=
  match op_of q with
  | LicenseServer.Webhook body sig =>
    match Stripe.constructEvent (sdk_of q) body sig (secret_of q) with
    | Some event =>
      let o := Stripe.object event in
      String.eqb (Stripe.type event) "checkout.session.completed"
      && strictEq (Stripe.userId (Stripe.metadata o)) id
      || String.eqb (Stripe.type event) "customer.subscription.updated"
         && strictEq (Stripe.status o) "active"
         && match db !! id ≫= LicenseServer.customerIdOf with
            | Some c => strictEq (Stripe.customer o) c
            | None => false
            end
    | None => false
    end
  | _ => false
  end.

(** No request of the trace, served from [db] on, is one of these. *)
Fixpoint quiet_for (id : string) (trace : list Served) (db : gmap string Schema.User)
  : bool :=
  match trace with
  | [] => true
  | q :: rest => negb (activating_for id q db) && quiet_for id rest (serve q db)
  end.

(** An account the license gate refuses, with no hardware lock. *)
Definition unlicensed (u : Schema.User) : Prop :=
  Schema.notActive u = true /\ Schema.hwid u = None /\ Schema.hwidLockedAt u = None.

Definition unlicensed_at (id : string) (db : gmap string Schema.User) : Prop :=
  exists u, db !! id = Some u /\ unlicensed u.

(** ** Sample data *)

Module Examples.

(** A Stripe SDK that refuses every signature and accepts every call. *)
Definition sdk : Stripe.Sdk :=
  Stripe.mkSdk (fun _ _ _ => None) (fun _ => Some 2000) (fun _ => true)
    (fun _ => true) (Some "cus_1") true.

Definition active (pkg : string) (subscriptionId : option string)
  : Schema.Subscription :=
  Schema.mkSubscription (Some "active") (Some pkg) (Some "cus_1") subscriptionId
    None (Some 50) None None None None None None None.

(** An unbound account with an active monthly license. *)
Definition alice : Schema.User :=
  Schema.mkUser "alice" None "secret1" 10 (Some 10) None None
    (Some (active "monthly" (Some "sub_1"))) None.

Definition db_alice : gmap string Schema.User := {[ "u1" := alice ]}.

(** The flat-file counterpart, with no subscription at all. *)
Definition file_alice : FileServer.User :=
  FileServer.mkUser "1" "alice" "secret1" 10 None None None.

(** Checkout sessions as [create-checkout-session] configures them. *)
Definition lifetime_checkout (userId : string) : Stripe.Object :=
  Stripe.mkObject (Some "cs_1") (Some "cus_1") None (Some "pi_1") (Some "payment")
    (Stripe.mkMetadata (Some userId) (Some "lifetime")) None None None None.

Definition monthly_checkout (userId : string) : Stripe.Object :=
  Stripe.mkObject (Some "cs_2") (Some "cus_1") (Some "sub_1") None
    (Some "subscription")
    (Stripe.mkMetadata (Some userId) (Some "monthly")) None None None None.

(** A new account of the license-gated server. *)
Definition bob : Schema.User := LicenseServer.newUser 10 "bob" "secret2".

Definition db_bob : gmap string Schema.User := {[ "u2" := bob ]}.

(** A flat-file account with an active monthly subscription. *)
Definition file_carol : FileServer.User :=
  FileServer.mkUser "3" "carol" "secret3" 10 None None
    (Some (FileServer.mkSubscription (Some "monthly") "active" (Some "cus_3")
             (Some "sub_3") None (Some "subscription") 20 None)).

(** A Stripe SDK that authenticates every delivery as [event]. *)
Definition delivering (event : Stripe.Event) : Stripe.Sdk :=
  Stripe.mkSdk (fun _ _ _ => Some event) (fun _ => Some 2000) (fun _ => true)
    (fun _ => true) (Some "cus_1") true.

(** [customer.subscription.updated] for the customer [cus_1], now active. *)
Definition subscription_updated : Stripe.Event :=
  Stripe.mkEvent "customer.subscription.updated"
    (Stripe.mkObject (Some "sub_1") (Some "cus_1") None None None
       (Stripe.mkMetadata None None) (Some "active") (Some 2000) None None).

End Examples.

(** * Further parts of the code *)

(** ** [src/unnamed/part_000]: the message handler of the bot, with the
    commands [!vouch] and [!vouches] *)

Module VouchBot.
Import DiscordBot.

(** The white space of [trim], of [/\s+/] and of [parseInt]: the number of
    bytes that the white-space character at the head of [s] takes, [0] when
    [s] does not start with one.  The characters are tab, line feed, vertical
    tab, form feed, carriage return and space, one byte each; U+00A0 in two
    bytes (C2 A0); and in three bytes U+1680 (E1 9A 80), U+2000 to U+200A
    (E2 80 80 to E2 80 8A), U+2028 and U+2029 (E2 80 A8, E2 80 A9), U+202F
    (E2 80 AF), U+205F (E2 81 9F), U+3000 (E3 80 80) and U+FEFF (EF BB BF).
    In the encoding of a text these byte sequences occur at the start of a
    character only. *)
Definition space_width (s : string) : nat :=
  match s with
  | EmptyString => 0%nat
  | String a r =>
    let x := nat_of_ascii a in
    if ((9 <=? x)%nat && (x <=? 13)%nat)%bool || (x =? 32)%nat then 1%nat
    else
      match r with
      | EmptyString => 0%nat
      | String b r' =>
        let y := nat_of_ascii b in
        if (x =? 194)%nat && (y =? 160)%nat then 2%nat
        else
          match r' with
          | EmptyString => 0%nat
          | String c _ =>
            let z := nat_of_ascii c in
            if (x =? 225)%nat && (y =? 154)%nat && (z =? 128)%nat
               || (x =? 226)%nat && (y =? 128)%nat
                  && ((128 <=? z)%nat && (z <=? 138)%nat
                      || (z =? 168)%nat || (z =? 169)%nat || (z =? 175)%nat)
               || (x =? 226)%nat && (y =? 129)%nat && (z =? 159)%nat
               || (x =? 227)%nat && (y =? 128)%nat && (z =? 128)%nat
               || (x =? 239)%nat && (y =? 187)%nat && (z =? 191)%nat
            then 3%nat else 0%nat
          end
      end
  end.

(** [s.trim().split(/\s+/)] on a text that is not all white space: the maximal
    runs of other characters, [cur] being the run that is open and [skip] the
    bytes still to pass of the white-space character that was met. *)
Fixpoint tokens (s : string) (cur : string) (skip : nat) : list string :=
  match s with
  | EmptyString => if String.eqb cur "" then [] else [cur]
  | String c r =>
    match skip with
    | S k => tokens r cur k
    | O =>
      match space_width s with
      | O => tokens r (cur +:+ String c EmptyString) 0%nat
      | S k => if String.eqb cur "" then tokens r "" k else cur :: tokens r "" k
      end
    end
  end.

(** [content.slice(PREFIX.length).trim().split(/\s+/)] followed by
    [args.shift().toLowerCase()]: the command word and the arguments.  A text
    that is empty once trimmed splits into one empty string.  The prefix is
    the one character [!].  The command word is compared with the six command
    names only: a word with a letter outside ASCII is none of them before and
    after [toLowerCase], but for the Kelvin sign U+212A, which lowers to the
    letter k, and no command name has a k. *)
Definition command_of (content : string) : string * list string :=
  match tokens (String.substring 1 (String.length content) content) "" 0%nat with
  | [] => ("", [])
  | c :: args => (toLowerCase c, args)
  end.

(** The value of the digit [c] in the radix, when it is one. *)
Definition digit_of (radix : Z) (c : ascii) : option Z :=
  let n := Z.of_nat (nat_of_ascii c) in
  let v :=
    if ((48 <=? n) && (n <=? 57))%Z then Some (n - 48)
    else if ((97 <=? n) && (n <=? 102))%Z then Some (n - 87)
    else if ((65 <=? n) && (n <=? 70))%Z then Some (n - 55)
    else None in
  match v with
  | Some d => if (d <? radix)%Z then Some d else None
  | None => None
  end.

(** The longest prefix of digits, as a number; [None] when it is empty. *)
Fixpoint digits (radix : Z) (s : string) (acc : option Z) : option Z :=
  match s with
  | EmptyString => acc
  | String c r =>
    match digit_of radix c with
    | Some d => digits radix r (Some (default 0 acc * radix + d))
    | None => acc
    end
  end.

(** The text without the white space it starts with, [skip] being the bytes
    still to pass of the white-space character that was met. *)
Fixpoint trimStart (s : string) (skip : nat) : string :=
  match s with
  | EmptyString => EmptyString
  | String c r =>
    match skip with
    | S k => trimStart r k
    | O =>
      match space_width s with
      | O => s
      | S k => trimStart r k
      end
    end
  end.

(** [parseInt(s)] without a radix: leading white space, a sign, the prefix
    [0x] or [0X] for radix 16, then the longest run of digits; [None] is
    [NaN].  The result is an integer, so that [-0] is [0]. *)
Definition parseInt (s : string) : option Z :=
  let s := trimStart s 0%nat in
  let '(sign, s) :=
    match s with
    | String "-" r => (-1, r)
    | String "+" r => (1, r)
    | _ => (1, s)
    end in
  let '(radix, s) :=
    match s with
    | String "0" (String "x" r) => (16, r)
    | String "0" (String "X" r) => (16, r)
    | _ => (10, s)
    end in
  Z.mul sign <$> digits radix s None.

(** What the handler reads of a message. *)
Record Incoming : Type := mkIncoming {
  bot : bool;                       (* message.author.bot *)
  content : string;
  sender : string;                  (* message.author.id *)
  channel : string;                 (* message.channel.id *)
  firstMention : option string;     (* message.mentions.users.first()?.id *)
  manageMessages : bool             (* the member has ManageMessages *)
}.

Inductive VouchReply : Type :=
| WrongChannel
| NoMention
| SelfVouch
| InvalidRating
| MessageTooShort
| MessageTooLong
| Submitted (vouchId : string)
| SubmitFailed.

(** The document [!vouch] stores: pending, not featured. *)
Definition vouchData (author target : string) (rating : Z) (vouchMessage : string)
    (now : Timestamp) : Vouch :=
  mkVouch author target rating vouchMessage now false false None None None None None None.

(** [!vouch @user rating message]; [VOUCH_CHANNEL_ID] is the configured
    channel or [null], [newId] the id Firestore gives the document. *)
Definition vouch (VOUCH_CHANNEL_ID : option string) (m : Incoming) (args : list string)
    (newId : string) (now : Timestamp) (vouches : gmap string Vouch)
  : VouchReply * gmap string Vouch :=
  if truthy VOUCH_CHANNEL_ID && negb (strictEq VOUCH_CHANNEL_ID (channel m))
  then (WrongChannel, vouches)
  else
    match firstMention m with
    | None => (NoMention, vouches)
    | Some mentionedUser =>
      if String.eqb mentionedUser (sender m) then (SelfVouch, vouches)
      else
        let ratingArg := nth_error args 1 in
        let rating := ratingArg ≫= parseInt in
        let invalid :=
          negb (truthy ratingArg)
          || match rating with
             | None => true
             | Some n => (n <? 1)%Z || (5 <? n)%Z
             end in
        if invalid then (InvalidRating, vouches)
        else
          let vouchMessage := String.concat " " (drop 2 args) in
          if String.eqb vouchMessage "" || (str_length vouchMessage <? 10)%Z
          then (MessageTooShort, vouches)
          else if (500 <? str_length vouchMessage)%Z
          then (MessageTooLong, vouches)
          else
            match Firestore.add newId
                    (vouchData (sender m) mentionedUser (default 0 rating)
                       vouchMessage now) vouches with
            | Ok vouches' => (Submitted newId, vouches')
            | Throw => (SubmitFailed, vouches)
            end
    end.

(** [[1, 2, 3, 4, 5].map(rating => vouches.filter(v => v.rating === rating).length)] *)
Definition ratingDistribution (vouches : list Vouch) : list Z :=
  List.map
    (fun r => Z.of_nat (List.length (List.filter (fun v => (rating v =? r)%Z) vouches)))
    [1; 2; 3; 4; 5].

(** [vouches.reduce((sum, v) => sum + v.rating, 0)] *)
Definition ratingSum (vouches : list Vouch) : Z :=
  fold_left (fun sum v => sum + rating v) vouches 0.

(** The answer of [!vouches].  The average shown is the quotient of [sum] by
    [totalVouches], computed in floating point and printed with one decimal;
    the model keeps the two numbers. *)
Inductive StatsReply : Type :=
| NoApprovedVouches
| Statistics (totalVouches sum : Z) (distribution : list Z).

(** [!vouches [@user]]: the approved vouches for the first user mentioned, or
    for the author. *)
Definition vouches (m : Incoming) (store : gmap string Vouch) : StatsReply :=
  let mentionedUser := default (sender m) (firstMention m) in
  let docs :=
    List.filter (fun v => String.eqb (targetUserId v) mentionedUser && approved v)
      (List.map snd (map_to_list store)) in
  match docs with
  | [] => NoApprovedVouches
  | _ => Statistics (Z.of_nat (List.length docs)) (ratingSum docs) (ratingDistribution docs)
  end.

Inductive Outcome : Type :=
| Ignored
| VouchCommand (r : VouchReply)
| Moderation (r : Reply)
| VouchesCommand (r : StatsReply)
| Help.

(** [client.on('messageCreate', ...)] *)
Definition messageCreate (VOUCH_CHANNEL_ID : option string) (m : Incoming)
    (newId : string) (now : Timestamp) (store : gmap string Vouch)
  : Outcome * gmap string Vouch :=
  if bot m || negb (String.prefix "!" (content m)) then (Ignored, store)
  else
    let '(command, args) := command_of (content m) in
    let message := mkMessage (sender m) (manageMessages m) args in
    if String.eqb command "vouch"
    then let '(r, s) := vouch VOUCH_CHANNEL_ID m args newId now store in (VouchCommand r, s)
    else if String.eqb command "approve"
    then let '(r, s) := approve message now store in (Moderation r, s)
    else if String.eqb command "reject"
    then let '(r, s) := reject message now store in (Moderation r, s)
    else if String.eqb command "feature"
    then let '(r, s) := feature message store in (Moderation r, s)
    else if String.eqb command "vouches"
    then (VouchesCommand (vouches m store), store)
    else if String.eqb command "help"
    then (Help, store)
    else (Ignored, store).

End VouchBot.

(** ** [src/unnamed/part_002], first program: the vouch statistics of the
    web site *)

Module VouchApi.
Import DiscordBot.

(** The [stats] object of [GET /api/vouches/stats], the average left as the
    sum and the count it is computed from ([0] when there is no vouch). *)
Record Stats : Type := mkStats {
  totalVouches : Z;
  sum : Z;
  distribution : list Z
}.

(** [GET /api/vouches/stats], over all approved vouches; the route computes
    the sum and the distribution with the expressions of [!vouches]. *)
Definition api_vouches_stats (store : gmap string Vouch) : Stats :=
  let docs := List.filter approved (List.map snd (map_to_list store)) in
  mkStats (Z.of_nat (List.length docs)) (VouchBot.ratingSum docs)
    (VouchBot.ratingDistribution docs).

End VouchApi.

(** ** Queries with [orderBy(field, 'desc')] *)

Module Query.
Section Ordered.
Context {Doc : Type} (key : Doc -> Z).

(** The order of the results: the larger key first and, on equal keys, the
    larger document id first (Firestore breaks ties by document name, in the
    direction of the last [orderBy]). *)
Definition precedes (a b : string * Doc) : bool :=
  (key (snd b) <? key (snd a))%Z
  || ((key (snd a) =? key (snd b))%Z && String.ltb (fst b) (fst a)).

Fixpoint insert (x : string * Doc) (l : list (string * Doc)) : list (string * Doc) :=
  match l with
  | [] => [x]
  | y :: r => if precedes x y then x :: l else y :: insert x r
  end.

Definition orderBy_desc (docs : list (string * Doc)) : list (string * Doc) :=
  fold_right insert [] docs.

End Ordered.
End Query.

(** ** [src/unnamed/part_002], first program: the featured vouches *)

Module FeaturedApi.
Import DiscordBot.

(** [GET /api/vouches/featured]:
    [where('approved', '==', true).where('featured', '==', true)
     .orderBy('createdAt', 'desc').limit(6)] *)
Definition api_vouches_featured (store : gmap string Vouch) : list (string * Vouch) :=
  take 6
    (Query.orderBy_desc createdAt
       (List.filter (fun kv => approved (snd kv) && featured (snd kv))
          (map_to_list store))).

End FeaturedApi.

(** ** [src/unnamed/part_001]: the routes that only read *)

Module LicenseViews.
Import Schema.

(** One day, in milliseconds. *)
Definition day : Z := 1000 * 60 * 60 * 24.

(** The [stats] object of [GET /api/user/stats]. *)
Record UserStats : Type := mkUserStats {
  accountCreated : Timestamp;
  us_lastLogin : option Timestamp;
  us_totalLogins : Z;
  accountAgeDays : Z;
  hwidLocked : bool;
  us_hwidLockedAt : option Timestamp;
  us_subscription : option Subscription
}.

(** [user.stats?.totalLogins || 1] *)
Definition totalLoginsOr1 (user : User) : Z :=
  match stats user ≫= totalLogins with
  | Some n => if (n =? 0)%Z then 1 else n
  | None => 1
  end.

(** [GET /api/user/stats], behind [requireAuth]. *)
Definition api_user_stats (session : option string) (now : Timestamp)
    (db : gmap string User) : Response + UserStats :=
  if negb (LicenseServer.requireAuth session) then inl (json 401 false "Unauthorized")
  else
    match LicenseServer.getUserById (default "" session) db with
    | None => inl (json 404 false "User not found")
    | Some user =>
      inr (mkUserStats (createdAt user) (lastLogin user) (totalLoginsOr1 user)
             ((now - createdAt user) / day) (truthy (hwid user)) (hwidLockedAt user)
             (subscription user))
    end.

(** A row of [GET /api/users]. *)
Record Row : Type := mkRow {
  row_id : string;
  row_username : string;
  row_createdAt : Timestamp;
  row_lastLogin : option Timestamp;
  row_hwid : option string;
  row_hwidLockedAt : option Timestamp;
  isLocked : bool;
  row_subscription : option Subscription;
  row_stats : option Stats
}.

(** [GET /api/users]: every account, the newest first. *)
Definition api_users (db : gmap string User) : list Row :=
  List.map
    (fun kv =>
       let userData := snd kv in
       mkRow (fst kv) (username userData) (createdAt userData) (lastLogin userData)
         (hwid userData) (hwidLockedAt userData) (truthy (hwid userData))
         (subscription userData) (stats userData))
    (Query.orderBy_desc createdAt (map_to_list db)).

End LicenseViews.

(** ** [src/server.js]: the routes that only read *)

Module FileViews.
Import FileServer.

(** [GET /api/check-username/:username]: the field [available]. *)
Definition api_check_username (username : string) (users : list User) : bool :=
  negb (usernameExists username users).

(** A row of [GET /api/users]. *)
Record Row : Type := mkRow {
  row_id : string;
  row_username : string;
  row_createdAt : Timestamp;
  row_hwid : option string;
  row_hwidLockedAt : option Timestamp;
  isLocked : bool
}.

(** [hwid ? hwid.substring(0, 16) + '...' : null] *)
Definition shown (hwid : option string) : option string :=
  if truthy hwid then Some (String.substring 0 16 (default "" hwid) +:+ "...") else None.

(** [GET /api/users] *)
Definition api_users (users : list User) : list Row :=
  List.map
    (fun u => mkRow (id u) (username u) (createdAt u) (shown (hwid u)) (hwidLockedAt u)
                (truthy (hwid u)))
    users.

End FileViews.


(** * Vocabulary of the further properties *)

(** The fields of an account that no route writes. *)
Definition same_identity (d d' : Schema.User) : Prop :=
  Schema.username d' = Schema.username d /\ Schema.password d' = Schema.password d /\
  Schema.email d' = Schema.email d /\ Schema.createdAt d' = Schema.createdAt d.

(** The hardware lock of an account. *)
Definition same_lock (d d' : Schema.User) : Prop :=
  Schema.hwid d' = Schema.hwid d /\ Schema.hwidLockedAt d' = Schema.hwidLockedAt d.

Definition username_free (name : string) (db : gmap string Schema.User) : Prop :=
  forall id u, db !! id = Some u -> Schema.username u <> name.

Definition email_free (mail : option string) (db : gmap string Schema.User) : Prop :=
  forall id u e, db !! id = Some u -> mail = Some e -> Schema.email u <> Some e.

(** What one request does to the collection: nothing, one write to one
    existing document that keeps its identity (and stands in the relation [R]
    to the old one), or one new document, without lock, whose username and
    email no document has. *)
Inductive Effect (R : Schema.User -> Schema.User -> Prop)
    (db db' : gmap string Schema.User) : Prop :=
| Unchanged : db' = db -> Effect R db db'
| Updated id d d' :
    db !! id = Some d -> db' = <[id := d']> db -> same_identity d d' -> R d d' ->
    Effect R db db'
| Added id d :
    db !! id = None -> db' = <[id := d]> db ->
    username_free (Schema.username d) db -> email_free (Schema.email d) db ->
    Schema.hwid d = None ->
    Effect R db db'.

(** No two accounts have the same username; no two the same email. *)
Definition unique_usernames (db : gmap string Schema.User) : Prop :=
  forall id1 id2 u1 u2,
    db !! id1 = Some u1 -> db !! id2 = Some u2 ->
    Schema.username u1 = Schema.username u2 -> id1 = id2.

Definition unique_emails (db : gmap string Schema.User) : Prop :=
  forall id1 id2 u1 u2 e,
    db !! id1 = Some u1 -> db !! id2 = Some u2 ->
    Schema.email u1 = Some e -> Schema.email u2 = Some e -> id1 = id2.

(** The identity of a record of the flat file, and its username up to letter
    case. *)
Definition file_identity (u : FileServer.User)
  : string * string * string * Timestamp :=
  (FileServer.id u, FileServer.username u, FileServer.password u, FileServer.createdAt u).

Definition file_key (u : FileServer.User) : string :=
  toLowerCase (FileServer.username u).

(** A request to the flat-file server with what the environment supplies
    while it is served, and the file after a sequence of requests. *)
Record FileServed : Type := mkFileServed {
  file_sdk_of : Stripe.Sdk;
  file_secret_of : option string;
  file_instant_of : Timestamp;
  file_op_of : FileServer.Op
}.

Definition file_serve (q : FileServed) (users : list FileServer.User)
  : list FileServer.User :=
  (FileServer.step (file_sdk_of q) (file_secret_of q) (file_instant_of q)
     (file_op_of q) users).2.

Definition file_run (trace : list FileServed) (users : list FileServer.User)
  : list FileServer.User :=
  fold_left (fun users q => file_serve q users) trace users.

(** What every request keeps of a Firestore store: each account stays, with
    its identity, and at most one document differs afterwards. *)
Definition keeps_accounts (db db' : gmap string Schema.User) : Prop :=
  (forall id d, db !! id = Some d ->
     exists d', db' !! id = Some d' /\ same_identity d d') /\
  (exists id0, forall id, id <> id0 -> db' !! id = db !! id).

(** An answer that reports a failure: a status other than 200, or
    [success: false]. *)
Definition refused (r : Response) : bool :=
  negb (code r =? 200)%Z
  || match success r with Some false => true | _ => false end.

(** The event types each webhook route handles. *)
Definition firestore_event_types : list string :=
  [ "checkout.session.completed"; "customer.subscription.updated";
    "customer.subscription.deleted"; "invoice.payment_succeeded";
    "invoice.payment_failed" ].

Definition file_event_types : list string :=
  [ "checkout.session.completed"; "customer.subscription.deleted" ].

Definition unique_accounts (db : gmap string Schema.User) : Prop :=
  unique_usernames db /\ unique_emails db.

(** What a request of the license-gated server may change of an account it
    updates: the payment routes write the field [subscription] only, the
    logins and the administrative reset leave it alone, and only the client
    login counts. *)
Definition only_subscription (d d' : Schema.User) : Prop :=
  d' = Schema.set_subscription (Schema.subscription d') d.

Definition same_subscription (d d' : Schema.User) : Prop :=
  Schema.subscription d' = Schema.subscription d.

(** [stats.totalLogins], [0] when the field is absent. *)
Definition login_count (d : Schema.User) : Z :=
  default 0 (Schema.stats d ≫= Schema.totalLogins).

Definition license_frame (op : LicenseServer.Op) (d d' : Schema.User) : Prop :=
  match op with
  | LicenseServer.Login _ _ _ =>
    same_subscription d d' /\ login_count d' = login_count d + 1
  | LicenseServer.WebLogin _ _ _ =>
    same_subscription d d' /\ same_lock d d' /\ login_count d' = login_count d
  | LicenseServer.Signup _ _ _ _ => False
  | LicenseServer.ResetHwid _ => d' = Schema.set_hwid None None d
  | LicenseServer.CreateCheckoutSession _ _ _
  | LicenseServer.Webhook _ _
  | LicenseServer.CancelSubscription _ => only_subscription d d'
  end.

(** No account of the collection holds the Stripe customer of the event. *)
Definition customer_unknown (event : Stripe.Event) (db : gmap string Schema.User)
  : Prop :=
  forall c id u,
    Stripe.customer (Stripe.object event) = Some c -> db !! id = Some u ->
    Schema.subscription u ≫= Schema.stripeCustomerId <> Some c.

(** At most one account holds a given Stripe customer id. *)
Definition unique_customers (db : gmap string Schema.User) : Prop :=
  forall id1 id2 u1 u2 c,
    db !! id1 = Some u1 -> db !! id2 = Some u2 ->
    Schema.subscription u1 ≫= Schema.stripeCustomerId = Some c ->
    Schema.subscription u2 ≫= Schema.stripeCustomerId = Some c -> id1 = id2.

(** The client login of the license-gated server turns the holder of the
    account [u] away: whatever password and fingerprint are sent, the answer
    is a failure and nothing is written, and with the right password it is
    the 403 of the license gate. *)
Definition turned_away (u : Schema.User) (db : gmap string Schema.User) : Prop :=
  forall pass h now,
    let r := LicenseServer.api_login (Some (Schema.username u)) pass h now db in
    refused r.1 = true /\ r.2 = db /\
    (truthy (Some (Schema.username u)) = true -> truthy h = true ->
     truthy pass = true -> pass = Some (Schema.password u) ->
     r.1 = json 403 false "No active license. Please purchase a subscription.").

(** The course of the hardware lock after the client login of the account
    [u], stored under [id], has succeeded with the fingerprint [h] at [now]:
    the account carries [h]; another fingerprint is answered 403 without a
    write; [h] is admitted again and the instant of the lock stays; the
    administrative reset clears the lock, and the login that follows binds
    the fingerprint it sends. *)
Definition lock_cycle (db : gmap string Schema.User) (id : string) (u : Schema.User)
    (pass h : option string) (now : Timestamp) : Prop :=
  let name := Some (Schema.username u) in
  let r := LicenseServer.api_login name pass h now db in
  exists u1,
    r.2 = <[id := u1]> db /\ Schema.hwid u1 = h /\
    (forall h2 now2, truthy h2 = true -> h2 <> h ->
       LicenseServer.api_login name pass h2 now2 r.2
       = (json 403 false "Hardware mismatch. Contact administrator.", r.2)) /\
    (forall now2, exists u2,
       LicenseServer.api_login name pass h now2 r.2
       = (json 200 true "Login successful", <[id := u2]> r.2) /\
       Schema.hwid u2 = h /\ Schema.hwidLockedAt u2 = Schema.hwidLockedAt u1) /\
    LicenseServer.api_reset_hwid name r.2
    = (json 200 true ("Hardware lock reset for " +:+ Schema.username u),
       <[id := Schema.set_hwid None None u1]> r.2) /\
    (forall h2 now2, truthy h2 = true -> exists u3,
       LicenseServer.api_login name pass h2 now2 (LicenseServer.api_reset_hwid name r.2).2
       = (json 200 true "Login successful",
          <[id := u3]> (LicenseServer.api_reset_hwid name r.2).2) /\
       Schema.hwid u3 = h2 /\ Schema.hwidLockedAt u3 = Some now2).

(** ** Vocabulary of the properties of the vouches *)

(** What the bot maintains of every vouch: a rating from 1 to 5, a message of
    10 to 500 characters, an author who is not the target, and the marks that
    approval and rejection leave. *)
Definition valid_vouch (v : DiscordBot.Vouch) : Prop :=
  (1 <= DiscordBot.rating v <= 5) /\
  (10 <= str_length (DiscordBot.vouchMessage v) <= 500) /\
  DiscordBot.authorId v <> DiscordBot.targetUserId v /\
  (DiscordBot.approved v = true ->
   is_Some (DiscordBot.approvedBy v) /\ is_Some (DiscordBot.approvedAt v)) /\
  (DiscordBot.featured v = true -> is_Some (DiscordBot.approvedBy v)) /\
  (DiscordBot.rejected v = Some true ->
   is_Some (DiscordBot.rejectedBy v) /\ is_Some (DiscordBot.rejectedAt v) /\
   exists reason, DiscordBot.rejectionReason v = Some reason /\ reason <> "").

(** The part of a vouch that its author wrote. *)
Definition submission (v : DiscordBot.Vouch) : string * string * Z * string * Timestamp :=
  (DiscordBot.authorId v, DiscordBot.targetUserId v, DiscordBot.rating v,
   DiscordBot.vouchMessage v, DiscordBot.createdAt v).

(** What one message does to the collection. *)
Inductive BotEffect (m : VouchBot.Incoming) (now : Timestamp)
    (store : gmap string DiscordBot.Vouch)
  : VouchBot.Outcome -> gmap string DiscordBot.Vouch -> Prop :=
| NoWrite o : BotEffect m now store o store
| Submit newId target n text args :
    store !! newId = None ->
    VouchBot.firstMention m = Some target -> target <> VouchBot.sender m ->
    (VouchBot.command_of (VouchBot.content m)).2 = args ->
    nth_error args 1 ≫= VouchBot.parseInt = Some n -> 1 <= n <= 5 ->
    text = String.concat " " (drop 2 args) -> 10 <= str_length text <= 500 ->
    BotEffect m now store (VouchBot.VouchCommand (VouchBot.Submitted newId))
      (<[newId := VouchBot.vouchData (VouchBot.sender m) target n text now]> store)
| Approve id v :
    VouchBot.manageMessages m = true -> store !! id = Some v ->
    BotEffect m now store (VouchBot.Moderation DiscordBot.Approved)
      (<[id := DiscordBot.set_approved (VouchBot.sender m) now v]> store)
| Reject id v reason :
    VouchBot.manageMessages m = true -> store !! id = Some v -> reason <> "" ->
    BotEffect m now store (VouchBot.Moderation (DiscordBot.Rejected reason))
      (<[id := DiscordBot.set_rejected (VouchBot.sender m) now reason v]> store)
| Feature id v :
    VouchBot.manageMessages m = true -> store !! id = Some v ->
    DiscordBot.approved v = true ->
    BotEffect m now store
      (VouchBot.Moderation (DiscordBot.Featured (negb (DiscordBot.featured v))))
      (<[id := DiscordBot.set_featured (negb (DiscordBot.featured v)) v]> store).

(** [docs] lists, once each and under their ids, the vouches of the
    collection that satisfy [P]. *)
Definition lists_exactly (P : DiscordBot.Vouch -> Prop)
    (store : gmap string DiscordBot.Vouch) (docs : list (string * DiscordBot.Vouch))
  : Prop :=
  NoDup (List.map fst docs) /\
  forall id v, In (id, v) docs <-> store !! id = Some v /\ P v.

(** The statistics of the vouches [docs]: their number, the sum of their
    ratings, and for each rating from 1 to 5 the number of vouches that carry
    it. *)
Definition tallies (docs : list (string * DiscordBot.Vouch)) (total sum : Z)
    (dist : list Z) : Prop :=
  total = Z.of_nat (List.length docs) /\
  sum = fold_right Z.add 0 (List.map (fun d => DiscordBot.rating (snd d)) docs) /\
  List.length dist = 5%nat /\
  forall r, 1 <= r <= 5 ->
    nth_error dist (Z.to_nat (r - 1))
    = Some (Z.of_nat
              (List.length
                 (List.filter (fun d => (DiscordBot.rating (snd d) =? r)%Z) docs))).

(** ** Vocabulary of the properties of the listings and of the account ids *)

(** The flat file makes the id of an account from the clock: the id is the
    decimal of an instant before [now], or up to [now]. *)
Definition minted_before (now : Timestamp) (u : FileServer.User) : Prop :=
  exists t, FileServer.id u = toString t /\ t < now.

Definition minted_by (now : Timestamp) (u : FileServer.User) : Prop :=
  exists t, FileServer.id u = toString t /\ t <= now.

(** What the requests of the server with the vouch API keep of the payment
    fields: a recorded failure stays recorded; an invoice event leaves the
    status alone. *)
Definition keeps_failure (d d' : Schema.User) : Prop :=
  Schema.subscription d ≫= Schema.paymentFailed = Some true ->
  Schema.subscription d' ≫= Schema.paymentFailed = Some true.

Definition keeps_status (d d' : Schema.User) : Prop :=
  Schema.subscription d' ≫= Schema.status = Schema.subscription d ≫= Schema.status.

(** The order of a listing: no entry is followed by one with a larger key. *)
Definition newer_first {Doc : Type} (key : Doc -> Z) (a b : string * Doc) : Prop :=
  key (snd b) <= key (snd a).

(** The course of the hardware lock in the flat file after the client login
    of [name] has succeeded with the fingerprint [h]: the account carries
    [h]; another fingerprint is refused without a write; [h] is admitted
    again; a login that sends no fingerprint is admitted too, the lock being
    tested only on a fingerprint that is sent; the reset removes the lock, and
    the login that follows binds the fingerprint it sends. *)
Definition file_lock_cycle (name pass h : string) (now : Timestamp)
    (users : list FileServer.User) : Prop :=
  let login := FileServer.api_login (Some name) (Some pass) in
  let users1 := (login (Some h) now users).2 in
  let users2 := (FileServer.api_reset_hwid (Some name) users1).2 in
  (exists u,
     List.find (FileServer.credentials (Some name) (Some pass)) users1 = Some u /\
     FileServer.hwid u = Some h) /\
  (forall h2 now2, h2 <> "" -> h2 <> h ->
     login (Some h2) now2 users1
     = (json 200 false "Hardware ID mismatch - This account is locked to another computer",
        users1)) /\
  (forall now2, login (Some h) now2 users1 = (json 200 true "Login successful", users1)) /\
  (forall h0 now2, truthy h0 = false ->
     login h0 now2 users1 = (json 200 true "Login successful", users1)) /\
  (FileServer.api_reset_hwid (Some name) users1).1
  = json 200 true "Hardware ID lock removed successfully" /\
  (forall h2 now2, h2 <> "" ->
     (login (Some h2) now2 users2).1
     = json 200 true "Login successful - Account locked to this computer" /\
     exists u,
       List.find (FileServer.credentials (Some name) (Some pass))
         (login (Some h2) now2 users2).2 = Some u /\
       FileServer.hwid u = Some h2 /\ FileServer.hwidLockedAt u = Some now2).

(** The course of the hardware lock in the server without subscriptions,
    after the client login of the account [u], stored under [id], has
    succeeded with the fingerprint [h]: as in the license-gated server,
    except that a login with the bound fingerprint writes nothing. *)
Definition hwid_lock_cycle (db : gmap string Schema.User) (id : string) (u : Schema.User)
    (pass h : option string) (now : Timestamp) : Prop :=
  let name := Some (Schema.username u) in
  let db1 := (HwidServer.api_login name pass h now db).2 in
  exists u1,
    db1 !! id = Some u1 /\ Schema.hwid u1 = h /\
    (forall h2 now2, truthy h2 = true -> h2 <> h ->
       HwidServer.api_login name pass h2 now2 db1
       = (json 403 false "Hardware mismatch. Contact administrator.", db1)) /\
    (forall now2,
       HwidServer.api_login name pass h now2 db1 = (json 200 true "Login successful", db1)) /\
    HwidServer.api_reset_hwid name db1
    = (json 200 true ("Hardware lock reset for " +:+ Schema.username u),
       <[id := Schema.set_hwid None None u1]> db1) /\
    (forall h2 now2, truthy h2 = true ->
       HwidServer.api_login name pass h2 now2 (HwidServer.api_reset_hwid name db1).2
       = (json 200 true "Login successful",
          <[id := Schema.set_hwid h2 (Some now2) (Schema.set_hwid None None u1)]>
            (HwidServer.api_reset_hwid name db1).2)).

(** * Properties *)

(** ** Helper lemmas on the JavaScript helpers and on collections *)

Lemma truthy_Some (s : string) : truthy (Some s) = true <-> s <> "".
Proof.
  unfold truthy. rewrite negb_true_iff. split.
  - intros H ->. discriminate.
  - intros H. apply String.eqb_neq. exact H.
Qed.

Lemma truthy_is_Some (x : option string) : truthy x = true -> is_Some x.
Proof. destruct x; [eauto | discriminate]. Qed.

Lemma truthy_default (x : option string) : truthy x = true -> x = Some (default "" x).
Proof. destruct x; [reflexivity | discriminate]. Qed.

Lemma strictEq_true (a : option string) (b : string) :
  strictEq a b = true <-> a = Some b.
Proof.
  destruct a as [s|]; simpl.
  - rewrite String.eqb_eq. split; congruence.
  - split; discriminate.
Qed.

Lemma strictEq_false (a : option string) (b : string) :
  strictEq a b = false <-> a <> Some b.
Proof.
  rewrite <- strictEq_true. destruct (strictEq a b); split; congruence.
Qed.

Lemma strictEqOpt_true (a b : option string) : strictEqOpt a b = true <-> a = b.
Proof.
  destruct a as [s|], b as [t|]; simpl; try (split; congruence).
  rewrite String.eqb_eq. split; congruence.
Qed.

Section CollectionFacts.
Context {Doc : Type}.
Implicit Types (c : gmap string Doc) (p : Doc -> bool).

Lemma where_limit1_Some p c id d :
  Firestore.where_limit1 p c = Some (id, d) -> c !! id = Some d /\ p d = true.
Proof.
  unfold Firestore.where_limit1. intros H.
  apply find_some in H as [Hin Hp]. split; [| exact Hp].
  apply elem_of_map_to_list, list_elem_of_In. exact Hin.
Qed.

Lemma where_limit1_None p c id d :
  Firestore.where_limit1 p c = None -> c !! id = Some d -> p d = false.
Proof.
  unfold Firestore.where_limit1. intros H Hd.
  apply (find_none _ _ H (id, d)).
  apply list_elem_of_In, elem_of_map_to_list. exact Hd.
Qed.

Lemma doc_update_Some id (f : Doc -> Doc) c d :
  c !! id = Some d -> Firestore.doc_update id f c = Ok (<[id := f d]> c).
Proof. unfold Firestore.doc_update. intros ->. reflexivity. Qed.

Lemma doc_update_Ok id (f : Doc -> Doc) c c' :
  Firestore.doc_update id f c = Ok c' ->
  exists d, c !! id = Some d /\ c' = <[id := f d]> c.
Proof.
  unfold Firestore.doc_update. destruct (c !! id) as [d|] eqn:E; [| discriminate].
  intros [= <-]. eauto.
Qed.

Lemma add_Ok id (d : Doc) c c' :
  Firestore.add id d c = Ok c' -> c !! id = None /\ c' = <[id := d]> c.
Proof.
  unfold Firestore.add. destruct (c !! id) eqn:E; [discriminate |].
  intros [= <-]. eauto.
Qed.

(** A property of documents that every write keeps is kept by the
    collection. *)
Lemma doc_update_Forall (P : Doc -> Prop) id (f : Doc -> Doc) c c' :
  map_Forall (fun _ => P) c -> (forall d, c !! id = Some d -> P d -> P (f d)) ->
  Firestore.doc_update id f c = Ok c' -> map_Forall (fun _ => P) c'.
Proof.
  intros Hc Hf Hup. apply doc_update_Ok in Hup as (d & Hd & ->).
  apply map_Forall_insert_2; [| exact Hc].
  apply Hf; [exact Hd |]. exact (Hc _ _ Hd).
Qed.

Lemma add_Forall (P : Doc -> Prop) id (d : Doc) c c' :
  map_Forall (fun _ => P) c -> P d ->
  Firestore.add id d c = Ok c' -> map_Forall (fun _ => P) c'.
Proof.
  intros Hc Hd Hadd. apply add_Ok in Hadd as (_ & ->).
  apply map_Forall_insert_2; assumption.
Qed.

End CollectionFacts.

Section ArrayFacts.
Context {A : Type}.
Implicit Types (p : A -> bool) (f : A -> A) (xs : list A).

Lemma modify_first_Forall (P : A -> Prop) p f xs :
  Forall P xs -> (forall x, p x = true -> P x -> P (f x)) ->
  Forall P (modify_first p f xs).
Proof.
  intros Hxs Hf. induction Hxs as [| x r Hx Hr IH]; simpl; [constructor |].
  destruct (p x) eqn:E; constructor; auto.
Qed.

Lemma modify_first_none p f xs : List.find p xs = None -> modify_first p f xs = xs.
Proof.
  induction xs as [| x r IH]; simpl; [reflexivity |].
  destruct (p x); [discriminate |]. intros H. rewrite IH by exact H. reflexivity.
Qed.

(** The element found is the element replaced, and it is found again when the
    write keeps the search key. *)
Lemma find_modify_first p f xs x :
  List.find p xs = Some x -> p (f x) = true ->
  List.find p (modify_first p f xs) = Some (f x).
Proof.
  induction xs as [| y r IH]; simpl; [discriminate |].
  destruct (p y) eqn:E.
  - intros [= ->] Hf. simpl. rewrite Hf. reflexivity.
  - intros H Hf. simpl. rewrite E. apply IH; assumption.
Qed.

End ArrayFacts.

(** ** Properties of documents kept by every request *)

Ltac bools :=
  repeat match goal with
    | H : _ || _ = false |- _ => apply orb_false_iff in H as [? ?]
    | H : _ && _ = true |- _ => apply andb_true_iff in H as [? ?]
    | H : negb _ = false |- _ => apply negb_false_iff in H
    | H : negb _ = true |- _ => apply negb_true_iff in H
    end.

Section StableWrites.
Import Schema.
Context (P : User -> Prop) (HP : Stable P).

Lemma stable_upd_subscription f u : P u -> P (upd_subscription f u).
Proof. apply stable_subscription, HP. Qed.

Lemma stable_upd_stats f u : P u -> P (upd_stats f u).
Proof. apply stable_stats, HP. Qed.

Ltac writes :=
  intros; bools;
  repeat first
    [ assumption
    | apply stable_upd_subscription
    | apply stable_upd_stats
    | apply (stable_lastLogin P HP)
    | apply (stable_reset P HP)
    | apply (stable_bind P HP); [solve [auto] |]
    | apply (stable_new P HP) ].

Ltac handler :=
  intros;
  repeat first [ progress simpl in * | case_match ]; simplify_eq;
  try assumption;
  try match goal with
      | H : Firestore.doc_update _ _ ?c = Ok _ |- _ =>
        eapply doc_update_Forall; [ | | exact H]; [eassumption |]; writes
      | H : Firestore.add _ _ ?c = Ok _ |- _ =>
        eapply add_Forall; [ | | exact H]; [eassumption |]; writes
      end.

Abbreviation Inv := (map_Forall (fun _ : string => P)).

Lemma license_dispatch_stable sdk now event db db' :
  Inv db -> LicenseServer.dispatch sdk now event db = Ok db' -> Inv db'.
Proof.
  unfold LicenseServer.dispatch, LicenseServer.handleCheckoutSessionCompleted,
    LicenseServer.handleSubscriptionUpdated, LicenseServer.handleSubscriptionDeleted,
    LicenseServer.handlePaymentSucceeded, LicenseServer.handlePaymentFailed,
    LicenseServer.updateUser.
  intros HI H. repeat case_match; simplify_eq; handler.
Qed.

Lemma license_step_stable sdk secret now op db :
  Inv db -> Inv (LicenseServer.step sdk secret now op db).2.
Proof.
  intros HI. destruct op; simpl.
  - unfold LicenseServer.api_login, LicenseServer.updateUser. handler.
    unfold LicenseServer.login_updates. case_match; writes.
  - unfold LicenseServer.api_web_login, LicenseServer.updateUser. handler.
  - unfold LicenseServer.api_signup, LicenseServer.createUser,
      LicenseServer.newUser. handler.
  - unfold LicenseServer.api_reset_hwid, LicenseServer.updateUser. handler.
  - unfold LicenseServer.api_stripe_create_checkout_session,
      LicenseServer.updateUser. handler.
  - unfold LicenseServer.api_stripe_webhook.
    repeat case_match; simpl; try assumption.
    eapply license_dispatch_stable; eassumption.
  - unfold LicenseServer.api_stripe_cancel_subscription,
      LicenseServer.updateUser. handler.
Qed.

Lemma vouch_dispatch_stable sdk now event db db' :
  Inv db -> VouchServer.dispatch sdk now event db = Ok db' -> Inv db'.
Proof.
  unfold VouchServer.dispatch, VouchServer.handleCheckoutSessionCompleted,
    VouchServer.update_metadata_user,
    VouchServer.handleSubscriptionUpdated, VouchServer.handleSubscriptionDeleted,
    VouchServer.handlePaymentSucceeded, VouchServer.handlePaymentFailed.
  intros HI H. repeat case_match; simplify_eq; handler.
Qed.

Lemma vouch_step_stable sdk secret now op db :
  Inv db -> Inv (VouchServer.step sdk secret now op db).2.
Proof.
  intros HI. destruct op; simpl.
  - unfold VouchServer.api_login. handler.
  - unfold VouchServer.api_signup, VouchServer.newUser. handler.
  - unfold VouchServer.api_reset_hwid. handler.
  - unfold VouchServer.api_stripe_create_checkout_session. handler.
  - unfold VouchServer.api_stripe_webhook.
    repeat case_match; simpl; try assumption.
    eapply vouch_dispatch_stable; eassumption.
  - unfold VouchServer.api_subscription_cancel. handler.
Qed.

Lemma hwid_step_stable now op db :
  Inv db -> Inv (HwidServer.step now op db).2.
Proof.
  intros HI. destruct op; simpl.
  - unfold HwidServer.api_login, HwidServer.updateUser. handler.
  - unfold HwidServer.api_web_login. handler.
  - unfold HwidServer.api_signup, HwidServer.createUser, HwidServer.newUser. handler.
  - unfold HwidServer.api_reset_hwid, HwidServer.updateUser. handler.
Qed.

End StableWrites.

Section FileStableWrites.
Import FileServer.
Context (P : User -> Prop) (HP : FileStable P).

Lemma file_step_stable sdk secret now op users :
  Forall P users -> Forall P (FileServer.step sdk secret now op users).2.
Proof.
  intros HI. destruct op; simpl.
  - unfold api_login. repeat case_match; simpl; try assumption.
    apply modify_first_Forall; [assumption |]. intros.
    apply (file_stable_bind P HP); assumption.
  - unfold api_web_login. repeat case_match; simpl; assumption.
  - unfold api_signup. repeat case_match; simpl; try assumption.
    apply Forall_app. split; [assumption |].
    constructor; [| constructor]. apply (file_stable_new P HP).
  - unfold api_reset_hwid. repeat case_match; simpl; try assumption.
    apply modify_first_Forall; [assumption |]. intros.
    apply (file_stable_reset P HP); assumption.
  - unfold api_stripe_webhook. repeat case_match; simpl; try assumption.
    + apply modify_first_Forall; [assumption |]. intros.
      apply (file_stable_subscription P HP); assumption.
    + apply modify_first_Forall; [assumption |]. intros.
      apply (file_stable_subscription P HP); assumption.
  - unfold api_stripe_cancel_subscription.
    repeat case_match; simpl; assumption.
Qed.

End FileStableWrites.

Lemma hwid_inv_stable : Stable hwid_inv.
Proof.
  unfold hwid_inv. split; intros; simpl; try assumption.
  - split; intros _; [eauto | apply truthy_is_Some; assumption].
  - split; intros [? [=]].
  - split; intros [? [=]].
Qed.

Lemma file_hwid_inv_stable : FileStable file_hwid_inv.
Proof.
  unfold file_hwid_inv. split; intros; simpl; try assumption.
  - split; intros _; [eauto | apply truthy_is_Some; assumption].
  - split; intros [? [=]].
  - split; intros [? [=]].
Qed.

Lemma hwid_nonempty_stable : Stable hwid_nonempty.
Proof.
  unfold hwid_nonempty. split; intros; simpl; try assumption; try discriminate.
  intros ->. discriminate.
Qed.

Lemma file_hwid_nonempty_stable : FileStable file_hwid_nonempty.
Proof.
  unfold file_hwid_nonempty. split; intros; simpl; try assumption; try discriminate.
  intros ->. discriminate.
Qed.

(** Every request keeps stored fingerprints non-empty: a login binds only a
    fingerprint that passed the test [if (hwid)], a reset stores null. *)
Lemma stored_fingerprints_nonempty :
  (forall sdk secret now op db,
     map_Forall (fun _ => hwid_nonempty) db ->
     map_Forall (fun _ => hwid_nonempty) (LicenseServer.step sdk secret now op db).2) /\
  (forall sdk secret now op db,
     map_Forall (fun _ => hwid_nonempty) db ->
     map_Forall (fun _ => hwid_nonempty) (VouchServer.step sdk secret now op db).2) /\
  (forall now op db,
     map_Forall (fun _ => hwid_nonempty) db ->
     map_Forall (fun _ => hwid_nonempty) (HwidServer.step now op db).2) /\
  (forall sdk secret now op users,
     Forall file_hwid_nonempty users ->
     Forall file_hwid_nonempty (FileServer.step sdk secret now op users).2).
Proof.
  split; [| split; [| split]]; intros.
  - apply license_step_stable; [exact hwid_nonempty_stable | assumption].
  - apply vouch_step_stable; [exact hwid_nonempty_stable | assumption].
  - apply hwid_step_stable; [exact hwid_nonempty_stable | assumption].
  - apply file_step_stable; [exact file_hwid_nonempty_stable | assumption].
Qed.

(** In particular every store the license-gated server reaches from the
    empty one has both properties. *)
Lemma reachable_store_well_formed trace :
  map_Forall (fun _ => hwid_inv) (run trace ∅) /\
  map_Forall (fun _ => hwid_nonempty) (run trace ∅).
Proof.
  unfold run.
  assert (forall db,
            map_Forall (fun _ => hwid_inv) db /\ map_Forall (fun _ => hwid_nonempty) db ->
            map_Forall (fun _ => hwid_inv) (fold_left (fun db q => serve q db) trace db) /\
            map_Forall (fun _ => hwid_nonempty)
              (fold_left (fun db q => serve q db) trace db)) as H.
  { induction trace as [| q trace IH]; intros db [H1 H2]; simpl; [auto |].
    apply IH. unfold serve. split.
    - apply license_step_stable; [exact hwid_inv_stable | exact H1].
    - apply license_step_stable; [exact hwid_nonempty_stable | exact H2]. }
  apply H. split; apply map_Forall_empty.
Qed.

(** ** C1: the HWID binding at client login *)

Lemma license_login_binding db name pass h now id user :
  name <> "" -> pass <> "" -> h <> "" ->
  LicenseServer.getUserByUsername name db = Some (id, user) ->
  Schema.password user = pass ->
  Schema.notActive user = false ->
  hwid_nonempty user ->
  let r := LicenseServer.api_login (Some name) (Some pass) (Some h) now db in
  exists user',
    r.2 !! id = Some user' /\
    (forall id', id' <> id -> r.2 !! id' = db !! id') /\
    ThreeCaseBinding (Schema.hwid user) (Schema.hwidLockedAt user) h now
      r.1 (json 403 false "Hardware mismatch. Contact administrator.")
      (Schema.hwid user') (Schema.hwidLockedAt user') (r.2 = db).
Proof.
  intros Hn Hp Hh Hget Hpass Hact Hne.
  apply truthy_Some in Hn, Hp, Hh.
  destruct (where_limit1_Some _ _ _ _ Hget) as [Hid _].
  unfold LicenseServer.api_login.
  rewrite Hn, Hp, Hh. cbn [negb orb]. change (default "" (Some name)) with name.
  rewrite Hget.
  assert (strictEq (Some pass) (Schema.password user) = true) as ->
    by (apply strictEq_true; congruence).
  rewrite Hact. cbn [negb].
  unfold LicenseServer.updateUser.
  rewrite (doc_update_Some _ _ _ _ Hid).
  unfold hwid_nonempty in Hne.
  destruct (Schema.hwid user) as [s|] eqn:Es.
  - assert (truthy (Some s) = true) as Ht by (apply truthy_Some; congruence).
    rewrite Ht. simpl.
    destruct (String.eqb_spec s h) as [-> | Hsh]; simpl.
    + eexists. split; [apply lookup_insert_eq |].
      split; [intros; apply lookup_insert_ne; congruence |].
      unfold LicenseServer.login_updates. rewrite Es, Ht. simpl.
      split; [discriminate |]. split; [auto |].
      intros other [= <-] Hne'. congruence.
    + exists user. split; [exact Hid |]. split; [reflexivity |].
      split; [discriminate |]. split; [congruence |]. auto.
  - simpl.
    eexists. split; [apply lookup_insert_eq |].
    split; [intros; apply lookup_insert_ne; congruence |].
    unfold LicenseServer.login_updates. rewrite Es. simpl.
    split; [auto |]. split; discriminate.
Qed.

Lemma hwid_login_binding db name pass h now id user :
  name <> "" -> pass <> "" -> h <> "" ->
  HwidServer.getUserByUsername name db = Some (id, user) ->
  Schema.password user = pass ->
  hwid_nonempty user ->
  let r := HwidServer.api_login (Some name) (Some pass) (Some h) now db in
  exists user',
    r.2 !! id = Some user' /\
    (forall id', id' <> id -> r.2 !! id' = db !! id') /\
    ThreeCaseBinding (Schema.hwid user) (Schema.hwidLockedAt user) h now
      r.1 (json 403 false "Hardware mismatch. Contact administrator.")
      (Schema.hwid user') (Schema.hwidLockedAt user') (r.2 = db).
Proof.
  intros Hn Hp Hh Hget Hpass Hne.
  apply truthy_Some in Hn, Hp, Hh.
  destruct (where_limit1_Some _ _ _ _ Hget) as [Hid _].
  unfold HwidServer.api_login.
  rewrite Hn, Hp, Hh. cbn [negb orb]. change (default "" (Some name)) with name.
  rewrite Hget.
  assert (strictEq (Some pass) (Schema.password user) = true) as ->
    by (apply strictEq_true; congruence).
  cbn [negb].
  unfold HwidServer.updateUser.
  rewrite (doc_update_Some _ _ _ _ Hid).
  unfold hwid_nonempty in Hne.
  destruct (Schema.hwid user) as [s|] eqn:Es.
  - assert (truthy (Some s) = true) as Ht by (apply truthy_Some; congruence).
    rewrite Ht. simpl.
    destruct (String.eqb_spec s h) as [-> | Hsh]; simpl.
    + exists user. split; [exact Hid |]. split; [reflexivity |].
      rewrite Es.
      split; [discriminate |]. split; [auto |].
      intros other [= <-] Hne'. congruence.
    + exists user. split; [exact Hid |]. split; [reflexivity |].
      split; [discriminate |]. split; [congruence |]. auto.
  - simpl.
    eexists. split; [apply lookup_insert_eq |].
    split; [intros; apply lookup_insert_ne; congruence |].
    simpl. split; [auto |]. split; discriminate.
Qed.

Lemma file_login_binding users name pass h now user :
  name <> "" -> pass <> "" -> h <> "" ->
  List.find (FileServer.credentials (Some name) (Some pass)) users = Some user ->
  file_hwid_nonempty user ->
  let r := FileServer.api_login (Some name) (Some pass) (Some h) now users in
  exists user',
    List.find (FileServer.credentials (Some name) (Some pass)) r.2 = Some user' /\
    ThreeCaseBinding (FileServer.hwid user) (FileServer.hwidLockedAt user) h now
      r.1
      (json 200 false
         "Hardware ID mismatch - This account is locked to another computer")
      (FileServer.hwid user') (FileServer.hwidLockedAt user') (r.2 = users).
Proof.
  intros Hn Hp Hh Hfind Hne.
  apply truthy_Some in Hn, Hp, Hh.
  unfold FileServer.api_login.
  rewrite Hn, Hp, Hh. cbn [negb orb]. rewrite Hfind.
  unfold file_hwid_nonempty in Hne.
  destruct (FileServer.hwid user) as [s|] eqn:Es.
  - assert (truthy (Some s) = true) as Ht by (apply truthy_Some; congruence).
    rewrite Ht. simpl.
    destruct (String.eqb_spec s h) as [-> | Hsh]; simpl.
    + exists user. split; [exact Hfind |]. rewrite Es.
      split; [discriminate |]. split; [auto |].
      intros other [= <-] Hne'. congruence.
    + exists user. split; [exact Hfind |].
      split; [discriminate |]. split; [congruence |]. auto.
  - simpl. eexists. split.
    + apply find_modify_first; [exact Hfind |].
      apply find_some in Hfind as [_ Hc]. exact Hc.
    + simpl. split; [auto |]. split; discriminate.
Qed.

(** C1: at a client login that passes the checks before the HWID stage
    (fields present, credentials valid and, in the license-gated revision, an
    active license), for an account whose stored fingerprint is not the empty
    string (no request stores one, [stored_fingerprints_nonempty]), the
    binding has three cases.  An account whose [hwid] is
    null is admitted and bound: [hwid] becomes the presented fingerprint and
    [hwidLockedAt] the instant of the request.  An account whose [hwid] equals
    the presented fingerprint, compared as strings, is admitted and keeps both
    fields.  Any other account is denied with the hardware-mismatch answer and
    no account changes.  This holds for the client login of the license-gated
    server, of the HWID-only server and of the flat-file server. *)
Theorem hwid_binding_three_cases :
  (forall db name pass h now id user,
     name <> "" -> pass <> "" -> h <> "" ->
     LicenseServer.getUserByUsername name db = Some (id, user) ->
     Schema.password user = pass ->
     Schema.notActive user = false ->
     hwid_nonempty user ->
     let r := LicenseServer.api_login (Some name) (Some pass) (Some h) now db in
     exists user',
       r.2 !! id = Some user' /\
       (forall id', id' <> id -> r.2 !! id' = db !! id') /\
       ThreeCaseBinding (Schema.hwid user) (Schema.hwidLockedAt user) h now
         r.1 (json 403 false "Hardware mismatch. Contact administrator.")
         (Schema.hwid user') (Schema.hwidLockedAt user') (r.2 = db)) /\
  (forall db name pass h now id user,
     name <> "" -> pass <> "" -> h <> "" ->
     HwidServer.getUserByUsername name db = Some (id, user) ->
     Schema.password user = pass ->
     hwid_nonempty user ->
     let r := HwidServer.api_login (Some name) (Some pass) (Some h) now db in
     exists user',
       r.2 !! id = Some user' /\
       (forall id', id' <> id -> r.2 !! id' = db !! id') /\
       ThreeCaseBinding (Schema.hwid user) (Schema.hwidLockedAt user) h now
         r.1 (json 403 false "Hardware mismatch. Contact administrator.")
         (Schema.hwid user') (Schema.hwidLockedAt user') (r.2 = db)) /\
  (forall users name pass h now user,
     name <> "" -> pass <> "" -> h <> "" ->
     List.find (FileServer.credentials (Some name) (Some pass)) users = Some user ->
     file_hwid_nonempty user ->
     let r := FileServer.api_login (Some name) (Some pass) (Some h) now users in
     exists user',
       List.find (FileServer.credentials (Some name) (Some pass)) r.2 = Some user' /\
       ThreeCaseBinding (FileServer.hwid user) (FileServer.hwidLockedAt user) h now
         r.1
         (json 200 false
            "Hardware ID mismatch - This account is locked to another computer")
         (FileServer.hwid user') (FileServer.hwidLockedAt user') (r.2 = users)).
Proof.
  split; [| split].
  - exact license_login_binding.
  - exact hwid_login_binding.
  - exact file_login_binding.
Qed.

(** The first login of the sample account with the fingerprint [HW-1]. *)
Lemma hwid_binding_three_cases_witness :
  exists user',
    (LicenseServer.api_login (Some "alice") (Some "secret1") (Some "HW-1") 100
       Examples.db_alice).2 !! "u1" = Some user' /\
    (forall id', id' <> "u1" ->
       (LicenseServer.api_login (Some "alice") (Some "secret1") (Some "HW-1") 100
          Examples.db_alice).2 !! id' = Examples.db_alice !! id') /\
    ThreeCaseBinding (Schema.hwid Examples.alice) (Schema.hwidLockedAt Examples.alice)
      "HW-1" 100
      (LicenseServer.api_login (Some "alice") (Some "secret1") (Some "HW-1") 100
         Examples.db_alice).1
      (json 403 false "Hardware mismatch. Contact administrator.")
      (Schema.hwid user') (Schema.hwidLockedAt user')
      ((LicenseServer.api_login (Some "alice") (Some "secret1") (Some "HW-1") 100
          Examples.db_alice).2 = Examples.db_alice).
Proof.
  apply (proj1 hwid_binding_three_cases Examples.db_alice "alice" "secret1" "HW-1"
           100 "u1" Examples.alice);
    try discriminate; try (vm_compute; reflexivity).
Defined.

(** ** C2: [hwid] is set exactly when [hwidLockedAt] is *)

(** C2: for every account, after every operation of the system (client login
    and binding, web login, signup, administrative and self-service HWID
    reset, checkout-session creation, cancellation, webhook handling), [hwid]
    is non-null if and only if [hwidLockedAt] is non-null: each request of
    each revision keeps the invariant on every account of the store, and the
    empty store has it. *)
Theorem hwid_iff_hwidLockedAt :
  (forall sdk secret now op db,
     map_Forall (fun _ => hwid_inv) db ->
     map_Forall (fun _ => hwid_inv) (LicenseServer.step sdk secret now op db).2) /\
  (forall sdk secret now op db,
     map_Forall (fun _ => hwid_inv) db ->
     map_Forall (fun _ => hwid_inv) (VouchServer.step sdk secret now op db).2) /\
  (forall now op db,
     map_Forall (fun _ => hwid_inv) db ->
     map_Forall (fun _ => hwid_inv) (HwidServer.step now op db).2) /\
  (forall sdk secret now op users,
     Forall file_hwid_inv users ->
     Forall file_hwid_inv (FileServer.step sdk secret now op users).2) /\
  map_Forall (fun _ => hwid_inv) (∅ : gmap string Schema.User) /\
  Forall file_hwid_inv [].
Proof.
  split; [| split; [| split; [| split; [| split]]]]; intros.
  - apply license_step_stable; [exact hwid_inv_stable | assumption].
  - apply vouch_step_stable; [exact hwid_inv_stable | assumption].
  - apply hwid_step_stable; [exact hwid_inv_stable | assumption].
  - apply file_step_stable; [exact file_hwid_inv_stable | assumption].
  - apply map_Forall_empty.
  - constructor.
Qed.

(** The invariant after the binding login of the sample account. *)
Lemma hwid_iff_hwidLockedAt_witness :
  map_Forall (fun _ => hwid_inv)
    (LicenseServer.step Examples.sdk None 100
       (LicenseServer.Login (Some "alice") (Some "secret1") (Some "HW-1"))
       Examples.db_alice).2.
Proof.
  apply (proj1 hwid_iff_hwidLockedAt).
  apply map_Forall_singleton. unfold hwid_inv. simpl.
  split; intros [? [=]].
Defined.

(** ** C3: replay of a checkout-completed event *)

Lemma doc_update_twice {Doc : Type} id (f g : Doc -> Doc) (c : gmap string Doc) :
  bind (Firestore.doc_update id g c) (Firestore.doc_update id f)
  = Firestore.doc_update id (fun d => f (g d)) c.
Proof.
  unfold Firestore.doc_update. destruct (c !! id) as [d|] eqn:E; simpl; [| reflexivity].
  rewrite lookup_insert_eq, insert_insert_eq. reflexivity.
Qed.

Lemma doc_update_ext {Doc : Type} id (f g : Doc -> Doc) (c : gmap string Doc) :
  (forall d, f d = g d) -> Firestore.doc_update id f c = Firestore.doc_update id g c.
Proof.
  intros H. unfold Firestore.doc_update. destruct (c !! id); [| reflexivity].
  rewrite H. reflexivity.
Qed.

Lemma upd_subscription_twice f g u :
  Schema.upd_subscription f (Schema.upd_subscription g u)
  = Schema.upd_subscription (fun s => f (g s)) u.
Proof. reflexivity. Qed.

Lemma upd_subscription_ext f g u :
  (forall s, f s = g s) -> Schema.upd_subscription f u = Schema.upd_subscription g u.
Proof. intros H. unfold Schema.upd_subscription. rewrite H. reflexivity. Qed.

Lemma license_checkout_updates_absorb t1 t2 pkg session pe s :
  LicenseServer.checkout_updates t2 pkg session pe
    (LicenseServer.checkout_updates t1 pkg session pe s)
  = LicenseServer.checkout_updates t2 pkg session pe s.
Proof.
  unfold LicenseServer.checkout_updates.
  destruct (String.eqb pkg "lifetime"), (truthy (Stripe.subscription session)), pe;
    reflexivity.
Qed.

(** A replay gives what one application at the instant of the replay gives. *)
Lemma license_replay sdk t1 t2 session db :
  bind (LicenseServer.handleCheckoutSessionCompleted sdk t1 session db)
       (LicenseServer.handleCheckoutSessionCompleted sdk t2 session)
  = LicenseServer.handleCheckoutSessionCompleted sdk t2 session db.
Proof.
  unfold LicenseServer.handleCheckoutSessionCompleted, LicenseServer.updateUser.
  cbv zeta.
  destruct (truthy (Stripe.userId (Stripe.metadata session))); cbn [negb bind];
    [| reflexivity].
  destruct (Stripe.packageType (Stripe.metadata session)) as [pkg|]; [| reflexivity].
  rewrite doc_update_twice. apply doc_update_ext. intros d.
  rewrite upd_subscription_twice. apply upd_subscription_ext. intros s.
  apply license_checkout_updates_absorb.
Qed.

Lemma vouch_replay sdk t1 t2 session db :
  bind (VouchServer.handleCheckoutSessionCompleted sdk t1 session db)
       (VouchServer.handleCheckoutSessionCompleted sdk t2 session)
  = VouchServer.handleCheckoutSessionCompleted sdk t2 session db.
Proof.
  unfold VouchServer.handleCheckoutSessionCompleted, VouchServer.update_metadata_user.
  cbv zeta.
  destruct (Stripe.packageType (Stripe.metadata session)) as [pkg|]; [| reflexivity].
  destruct (String.eqb pkg "lifetime").
  - destruct (truthy (Stripe.userId (Stripe.metadata session))); cbn [negb bind];
      [| reflexivity].
    rewrite doc_update_twice. apply doc_update_ext. intros d. reflexivity.
  - destruct (Stripe.subscriptions_retrieve sdk (Stripe.subscription session));
      [| reflexivity].
    destruct (truthy (Stripe.userId (Stripe.metadata session))); cbn [negb bind];
      [| reflexivity].
    rewrite doc_update_twice. apply doc_update_ext. intros d. reflexivity.
Qed.

(** The instant of the application shows in [activatedAt] only. *)
Lemma license_checkout_instant sdk t1 t2 session db :
  rmap (fmap forget_activatedAt)
    (LicenseServer.handleCheckoutSessionCompleted sdk t2 session db)
  = rmap (fmap forget_activatedAt)
      (LicenseServer.handleCheckoutSessionCompleted sdk t1 session db).
Proof.
  unfold LicenseServer.handleCheckoutSessionCompleted, LicenseServer.updateUser.
  cbv zeta.
  destruct (truthy (Stripe.userId (Stripe.metadata session))); cbn [negb bind];
    [| reflexivity].
  destruct (Stripe.packageType (Stripe.metadata session)) as [pkg|]; [| reflexivity].
  unfold Firestore.doc_update.
  destruct (db !! default "" (Stripe.userId (Stripe.metadata session)));
    [| reflexivity].
  cbn [rmap]. f_equal. rewrite !fmap_insert. f_equal.
  unfold forget_activatedAt, LicenseServer.checkout_updates. simpl.
  repeat case_match; reflexivity.
Qed.

Lemma vouch_checkout_instant sdk t1 t2 session db :
  rmap (fmap forget_activatedAt)
    (VouchServer.handleCheckoutSessionCompleted sdk t2 session db)
  = rmap (fmap forget_activatedAt)
      (VouchServer.handleCheckoutSessionCompleted sdk t1 session db).
Proof.
  unfold VouchServer.handleCheckoutSessionCompleted, VouchServer.update_metadata_user.
  cbv zeta.
  destruct (Stripe.packageType (Stripe.metadata session)) as [pkg|]; [| reflexivity].
  destruct (String.eqb pkg "lifetime").
  - destruct (truthy (Stripe.userId (Stripe.metadata session))); cbn [negb];
      [| reflexivity].
    unfold Firestore.doc_update.
    destruct (db !! default "" (Stripe.userId (Stripe.metadata session)));
      [| reflexivity].
    cbn [rmap]. f_equal. rewrite !fmap_insert. reflexivity.
  - destruct (Stripe.subscriptions_retrieve sdk (Stripe.subscription session));
      [| reflexivity].
    destruct (truthy (Stripe.userId (Stripe.metadata session))); cbn [negb];
      [| reflexivity].
    unfold Firestore.doc_update.
    destruct (db !! default "" (Stripe.userId (Stripe.metadata session)));
      [| reflexivity].
    cbn [rmap]. f_equal. rewrite !fmap_insert. reflexivity.
Qed.

(** C3 as stated fails: the handler stamps [subscription.activatedAt] with
    the instant at which it runs, so a replay at a later instant changes that
    field.  A lifetime checkout for a new account applied at 1000, and the same
    event applied again at 2000. *)
Lemma checkout_replay_changes_activatedAt :
  subscription_after "u2"
    (LicenseServer.handleCheckoutSessionCompleted Examples.sdk 1000
       (Examples.lifetime_checkout "u2") Examples.db_bob)
  = Ok (Some (Schema.mkSubscription (Some "active") (Some "lifetime") (Some "cus_1")
                None None (Some 1000) None None None None None None None))
  /\
  subscription_after "u2"
    (bind (LicenseServer.handleCheckoutSessionCompleted Examples.sdk 1000
             (Examples.lifetime_checkout "u2") Examples.db_bob)
          (LicenseServer.handleCheckoutSessionCompleted Examples.sdk 2000
             (Examples.lifetime_checkout "u2")))
  = Ok (Some (Schema.mkSubscription (Some "active") (Some "lifetime") (Some "cus_1")
                None None (Some 2000) None None None None None None None)).
Proof. split; vm_compute; reflexivity. Qed.

(** C3, amended: replaying a checkout-completed event, the payment processor
    answering the retrieval of the subscription as it did the first time,
    gives exactly the store that a single application at the instant of the
    replay gives (also when the handler throws), and that store differs from
    the one after the first application in [subscription.activatedAt] only,
    which is refreshed to the instant of the replay.  Nothing is activated
    twice and no other field moves.  This holds for the handler of the
    license-gated server and for the handler of the vouch server. *)
Theorem checkout_replay_refreshes_activatedAt_only :
  (forall sdk t1 t2 session db,
     bind (LicenseServer.handleCheckoutSessionCompleted sdk t1 session db)
          (LicenseServer.handleCheckoutSessionCompleted sdk t2 session)
     = LicenseServer.handleCheckoutSessionCompleted sdk t2 session db
     /\
     rmap (fmap forget_activatedAt)
       (bind (LicenseServer.handleCheckoutSessionCompleted sdk t1 session db)
             (LicenseServer.handleCheckoutSessionCompleted sdk t2 session))
     = rmap (fmap forget_activatedAt)
         (LicenseServer.handleCheckoutSessionCompleted sdk t1 session db))
  /\
  (forall sdk t1 t2 session db,
     bind (VouchServer.handleCheckoutSessionCompleted sdk t1 session db)
          (VouchServer.handleCheckoutSessionCompleted sdk t2 session)
     = VouchServer.handleCheckoutSessionCompleted sdk t2 session db
     /\
     rmap (fmap forget_activatedAt)
       (bind (VouchServer.handleCheckoutSessionCompleted sdk t1 session db)
             (VouchServer.handleCheckoutSessionCompleted sdk t2 session))
     = rmap (fmap forget_activatedAt)
         (VouchServer.handleCheckoutSessionCompleted sdk t1 session db)).
Proof.
  split; intros.
  - split; [apply license_replay |].
    rewrite license_replay. apply license_checkout_instant.
  - split; [apply vouch_replay |].
    rewrite vouch_replay. apply vouch_checkout_instant.
Qed.

(** ** C4: cancelling a subscription *)

Lemma file_cancel_never_writes sdk session users :
  (FileServer.api_stripe_cancel_subscription sdk session users).2 = users.
Proof.
  unfold FileServer.api_stripe_cancel_subscription. repeat case_match; reflexivity.
Qed.

Lemma file_cancel_lifetime sdk sessionId users user sub :
  List.find (fun u => String.eqb (FileServer.id u) sessionId) users = Some user ->
  FileServer.subscription user = Some sub ->
  FileServer.mode sub = Some "payment" \/ FileServer.package sub = Some "lifetime" ->
  FileServer.api_stripe_cancel_subscription sdk (Some sessionId) users
  = (json 200 false
       "Lifetime subscriptions cannot be cancelled. This is a one-time payment.",
     users).
Proof.
  intros Hfind Hsub Hlife. unfold FileServer.api_stripe_cancel_subscription.
  rewrite Hfind. simpl. rewrite Hsub.
  assert (strictEq (FileServer.mode sub) "payment"
          || strictEq (FileServer.package sub) "lifetime" = true) as ->; [| reflexivity].
  apply orb_true_iff. destruct Hlife as [H | H]; [left | right];
    apply strictEq_true; exact H.
Qed.

Lemma file_cancel_recurring sdk sessionId users user sub subId :
  List.find (fun u => String.eqb (FileServer.id u) sessionId) users = Some user ->
  FileServer.subscription user = Some sub ->
  FileServer.mode sub <> Some "payment" ->
  FileServer.package sub <> Some "lifetime" ->
  FileServer.subscriptionId sub = Some subId -> subId <> "" ->
  Stripe.subscriptions_cancel sdk subId = true ->
  FileServer.api_stripe_cancel_subscription sdk (Some sessionId) users
  = (json 200 true "Subscription cancelled successfully", users).
Proof.
  intros Hfind Hsub Hm Hp Hid Hne Hok. unfold FileServer.api_stripe_cancel_subscription.
  rewrite Hfind. simpl. rewrite Hsub.
  apply strictEq_false in Hm, Hp. rewrite Hm, Hp, Hid. simpl.
  apply truthy_Some in Hne. unfold truthy in Hne. rewrite Hne. simpl.
  rewrite Hok. reflexivity.
Qed.

Lemma license_cancel_without_id sdk sessionId now db user :
  sessionId <> "" ->
  db !! sessionId = Some user ->
  truthy (LicenseServer.subscriptionIdOf user) = false ->
  LicenseServer.api_stripe_cancel_subscription sdk (Some sessionId) now db
  = (json 400 false "No active subscription to cancel", db).
Proof.
  intros Hs Hu Hno. unfold LicenseServer.api_stripe_cancel_subscription,
    LicenseServer.requireAuth, LicenseServer.getUserById, Firestore.doc_get.
  apply truthy_Some in Hs. rewrite Hs. simpl. rewrite Hu, Hno. reflexivity.
Qed.

Lemma license_cancel_with_id sdk sessionId now db user subId :
  sessionId <> "" ->
  db !! sessionId = Some user ->
  (Schema.subscription user ≫= Schema.package) <> Some "lifetime" ->
  LicenseServer.subscriptionIdOf user = Some subId -> subId <> "" ->
  Stripe.subscriptions_update sdk subId = true ->
  let user' :=
    Schema.upd_subscription
      (fun s => Schema.set_cancelledAt (Some now) (Schema.set_status (Some "cancelled") s))
      user in
  LicenseServer.api_stripe_cancel_subscription sdk (Some sessionId) now db
  = (json 200 true
       "Subscription cancelled. Access will continue until the end of the billing period.",
     <[sessionId := user']> db) /\
  (Schema.subscription user' ≫= Schema.status) = Some "cancelled" /\
  (Schema.subscription user' ≫= Schema.cancelledAt) = Some now.
Proof.
  intros Hs Hu _ Hid Hne Hok user'.
  split; [| split; reflexivity].
  unfold LicenseServer.api_stripe_cancel_subscription,
    LicenseServer.requireAuth, LicenseServer.getUserById, Firestore.doc_get,
    LicenseServer.updateUser.
  apply truthy_Some in Hs, Hne. rewrite Hs. simpl. rewrite Hu, Hid, Hne. simpl.
  rewrite Hok. simpl. rewrite (doc_update_Some _ _ _ _ Hu). reflexivity.
Qed.

Lemma license_lifetime_not_cancellable sdk t now session db uid u :
  uid <> "" -> db !! uid = Some u ->
  LicenseServer.subscriptionIdOf u = None ->
  Stripe.userId (Stripe.metadata session) = Some uid ->
  Stripe.packageType (Stripe.metadata session) = Some "lifetime" ->
  exists db',
    LicenseServer.handleCheckoutSessionCompleted sdk t session db = Ok db' /\
    field_at Schema.package uid db' = Some "lifetime" /\
    field_at Schema.status uid db' = Some "active" /\
    field_at Schema.currentPeriodEnd uid db' = None /\
    LicenseServer.api_stripe_cancel_subscription sdk (Some uid) now db'
    = (json 400 false "No active subscription to cancel", db').
Proof.
  intros Hne Hu Hno Hid Hpkg.
  unfold LicenseServer.handleCheckoutSessionCompleted, LicenseServer.updateUser.
  rewrite Hid, Hpkg. pose proof Hne as Ht. apply truthy_Some in Ht. rewrite Ht. simpl.
  rewrite (doc_update_Some _ _ _ _ Hu).
  eexists. split; [reflexivity |].
  unfold field_at, subscription_at. rewrite lookup_insert_eq. simpl.
  repeat (split; [reflexivity |]).
  apply license_cancel_without_id with (user := Schema.upd_subscription
     (LicenseServer.checkout_updates t "lifetime" session
        (Stripe.subscriptions_retrieve sdk (Stripe.subscription session))) u);
    [exact Hne | apply lookup_insert_eq |].
  unfold LicenseServer.subscriptionIdOf in *. simpl.
  destruct (Schema.subscription u) as [s|]; simpl in *; [rewrite Hno |]; reflexivity.
Qed.

(** C4 as stated fails on both cancel routes.  In the license-gated server
    the route has no test on the package: the sample account buys a monthly
    subscription and then a lifetime license, which leaves the subscription id
    in place, and its cancel succeeds and sets [status] to [cancelled].  In the
    flat-file server the cancel of a monthly subscription succeeds and writes
    nothing: [status] stays [active] and [cancelledAt] stays unset. *)
Lemma cancel_lifetime_and_monthly_counterexample :
  rmap (fun db =>
          (field_at Schema.package "u2" db,
           (LicenseServer.api_stripe_cancel_subscription Examples.sdk (Some "u2") 3000 db).1,
           field_at Schema.status "u2"
             (LicenseServer.api_stripe_cancel_subscription Examples.sdk (Some "u2") 3000 db).2))
    (bind (LicenseServer.handleCheckoutSessionCompleted Examples.sdk 1000
             (Examples.monthly_checkout "u2") Examples.db_bob)
          (LicenseServer.handleCheckoutSessionCompleted Examples.sdk 2000
             (Examples.lifetime_checkout "u2")))
  = Ok (Some "lifetime",
        json 200 true
          "Subscription cancelled. Access will continue until the end of the billing period.",
        Some "cancelled")
  /\
  FileServer.api_stripe_cancel_subscription Examples.sdk (Some "3") [Examples.file_carol]
  = (json 200 true "Subscription cancelled successfully", [Examples.file_carol])
  /\ FileServer.status <$> FileServer.subscription Examples.file_carol = Some "active"
  /\ FileServer.subscription Examples.file_carol ≫= FileServer.cancelledAt = None.
Proof. repeat split; vm_compute; reflexivity. Qed.

(** C4, amended.  Flat-file server: the cancel of a one-time purchase (mode
    [payment] or package [lifetime]) fails with the answer that lifetime
    subscriptions cannot be cancelled, and no cancel request writes the
    store; for a recurring subscription with an id that Stripe agrees to
    cancel the answer is a success, [status] and [cancelledAt] being left to
    the subscription-deleted webhook.  License-gated server: an account
    without external subscription id that completes a lifetime checkout is
    active with [currentPeriodEnd] null and its cancel fails with 400,
    writing nothing; cancel fails so for every account without subscription
    id; for an account with a subscription id and a package other than
    [lifetime], when Stripe accepts the cancellation, cancel succeeds and sets
    [status] to [cancelled] and [cancelledAt] to now. *)
Theorem cancel_by_revision :
  (forall sdk sessionId users user sub,
     List.find (fun u => String.eqb (FileServer.id u) sessionId) users = Some user ->
     FileServer.subscription user = Some sub ->
     FileServer.mode sub = Some "payment" \/ FileServer.package sub = Some "lifetime" ->
     FileServer.api_stripe_cancel_subscription sdk (Some sessionId) users
     = (json 200 false
          "Lifetime subscriptions cannot be cancelled. This is a one-time payment.",
        users)) /\
  (forall sdk session users,
     (FileServer.api_stripe_cancel_subscription sdk session users).2 = users) /\
  (forall sdk sessionId users user sub subId,
     List.find (fun u => String.eqb (FileServer.id u) sessionId) users = Some user ->
     FileServer.subscription user = Some sub ->
     FileServer.mode sub <> Some "payment" ->
     FileServer.package sub <> Some "lifetime" ->
     FileServer.subscriptionId sub = Some subId -> subId <> "" ->
     Stripe.subscriptions_cancel sdk subId = true ->
     FileServer.api_stripe_cancel_subscription sdk (Some sessionId) users
     = (json 200 true "Subscription cancelled successfully", users)) /\
  (forall sdk t now session db uid u,
     uid <> "" -> db !! uid = Some u ->
     LicenseServer.subscriptionIdOf u = None ->
     Stripe.userId (Stripe.metadata session) = Some uid ->
     Stripe.packageType (Stripe.metadata session) = Some "lifetime" ->
     exists db',
       LicenseServer.handleCheckoutSessionCompleted sdk t session db = Ok db' /\
       field_at Schema.package uid db' = Some "lifetime" /\
       field_at Schema.status uid db' = Some "active" /\
       field_at Schema.currentPeriodEnd uid db' = None /\
       LicenseServer.api_stripe_cancel_subscription sdk (Some uid) now db'
       = (json 400 false "No active subscription to cancel", db')) /\
  (forall sdk sessionId now db user,
     sessionId <> "" ->
     db !! sessionId = Some user ->
     truthy (LicenseServer.subscriptionIdOf user) = false ->
     LicenseServer.api_stripe_cancel_subscription sdk (Some sessionId) now db
     = (json 400 false "No active subscription to cancel", db)) /\
  (forall sdk sessionId now db user subId,
     sessionId <> "" ->
     db !! sessionId = Some user ->
     (Schema.subscription user ≫= Schema.package) <> Some "lifetime" ->
     LicenseServer.subscriptionIdOf user = Some subId -> subId <> "" ->
     Stripe.subscriptions_update sdk subId = true ->
     let user' :=
       Schema.upd_subscription
         (fun s =>
            Schema.set_cancelledAt (Some now) (Schema.set_status (Some "cancelled") s))
         user in
     LicenseServer.api_stripe_cancel_subscription sdk (Some sessionId) now db
     = (json 200 true
          "Subscription cancelled. Access will continue until the end of the billing period.",
        <[sessionId := user']> db) /\
     (Schema.subscription user' ≫= Schema.status) = Some "cancelled" /\
     (Schema.subscription user' ≫= Schema.cancelledAt) = Some now).
Proof.
  split; [exact file_cancel_lifetime |].
  split; [exact file_cancel_never_writes |].
  split; [exact file_cancel_recurring |].
  split; [exact license_lifetime_not_cancellable |].
  split; [exact license_cancel_without_id |].
  exact license_cancel_with_id.
Qed.

(** The sample monthly account cancels at 3000. *)
Lemma cancel_by_revision_witness :
  let user' :=
    Schema.upd_subscription
      (fun s =>
         Schema.set_cancelledAt (Some 3000) (Schema.set_status (Some "cancelled") s))
      Examples.alice in
  LicenseServer.api_stripe_cancel_subscription Examples.sdk (Some "u1") 3000
    Examples.db_alice
  = (json 200 true
       "Subscription cancelled. Access will continue until the end of the billing period.",
     <["u1" := user']> Examples.db_alice) /\
  (Schema.subscription user' ≫= Schema.status) = Some "cancelled" /\
  (Schema.subscription user' ≫= Schema.cancelledAt) = Some 3000.
Proof.
  apply (proj2 (proj2 (proj2 (proj2 (proj2 cancel_by_revision))))
           Examples.sdk "u1" 3000 Examples.db_alice Examples.alice "sub_1");
    try discriminate; reflexivity.
Defined.

(** ** C5: a webhook whose signature does not verify *)

(** C5: when [stripe.webhooks.constructEvent], given the raw body, the
    signature header and the shared secret, rejects the request, each webhook
    route answers 400 and leaves the store as it was.  The verification is the
    first thing the route does: the answer is fixed before any event exists
    to parse or dispatch. *)
Theorem webhook_bad_signature sdk now rawBody sig secret :
  Stripe.constructEvent sdk rawBody sig secret = None ->
  (forall db,
     LicenseServer.api_stripe_webhook sdk now rawBody sig secret db
     = (mkResponse 400 None "Webhook Error", db)) /\
  (forall db,
     VouchServer.api_stripe_webhook sdk now rawBody sig secret db
     = (mkResponse 400 None "Webhook Error", db)) /\
  (forall users,
     FileServer.api_stripe_webhook sdk now rawBody sig secret users
     = (mkResponse 400 None "Bad Request", users)).
Proof.
  intros H. unfold LicenseServer.api_stripe_webhook, VouchServer.api_stripe_webhook,
    FileServer.api_stripe_webhook. rewrite H. auto.
Qed.

(** A forged body against the sample SDK, which accepts no signature. *)
Lemma webhook_bad_signature_witness :
  (forall db,
     LicenseServer.api_stripe_webhook Examples.sdk 100 "{}" (Some "t=1,v1=00")
       (Some "whsec") db
     = (mkResponse 400 None "Webhook Error", db)) /\
  (forall db,
     VouchServer.api_stripe_webhook Examples.sdk 100 "{}" (Some "t=1,v1=00")
       (Some "whsec") db
     = (mkResponse 400 None "Webhook Error", db)) /\
  (forall users,
     FileServer.api_stripe_webhook Examples.sdk 100 "{}" (Some "t=1,v1=00")
       (Some "whsec") users
     = (mkResponse 400 None "Bad Request", users)).
Proof.
  apply (webhook_bad_signature Examples.sdk 100 "{}" (Some "t=1,v1=00") (Some "whsec")).
  reflexivity.
Defined.

(** ** C6: the license gate of the client login *)

Lemma notActive_spec u :
  Schema.notActive u = true <->
  Schema.subscription u = None \/
  exists s, Schema.subscription u = Some s /\ Schema.status s <> Some "active".
Proof.
  unfold Schema.notActive. destruct (Schema.subscription u) as [s|].
  - rewrite negb_true_iff, strictEq_false. split.
    + intros H. right. eauto.
    + intros [H | (s' & [= <-] & H)]; [discriminate | exact H].
  - split; auto.
Qed.

Lemma license_gate db name pass h now id user :
  name <> "" -> pass <> "" -> h <> "" ->
  LicenseServer.getUserByUsername name db = Some (id, user) ->
  Schema.password user = pass ->
  Schema.notActive user = true ->
  LicenseServer.api_login (Some name) (Some pass) (Some h) now db
  = (json 403 false "No active license. Please purchase a subscription.", db).
Proof.
  intros Hn Hp Hh Hget Hpass Hact.
  apply truthy_Some in Hn, Hp, Hh.
  unfold LicenseServer.api_login.
  rewrite Hn, Hp, Hh. cbn [negb orb]. change (default "" (Some name)) with name.
  rewrite Hget.
  assert (strictEq (Some pass) (Schema.password user) = true) as ->
    by (apply strictEq_true; congruence).
  rewrite Hact. reflexivity.
Qed.

(** C6 as stated fails on the client login of the flat-file server and of
    the HWID-only server, which never look at the subscription: an account
    with no subscription logs in with valid credentials and is bound. *)
Lemma login_without_license_counterexample :
  FileServer.subscription Examples.file_alice = None /\
  FileServer.api_login (Some "alice") (Some "secret1") (Some "HW-1") 100
    [Examples.file_alice]
  = (json 200 true "Login successful - Account locked to this computer",
     [FileServer.set_hwid (Some "HW-1") (Some 100) Examples.file_alice]) /\
  Schema.subscription (HwidServer.newUser 10 "alice" "secret1") = None /\
  (HwidServer.api_login (Some "alice") (Some "secret1") (Some "HW-1") 100
     {[ "u1" := HwidServer.newUser 10 "alice" "secret1" ]}).1
  = json 200 true "Login successful".
Proof. repeat split; vm_compute; reflexivity. Qed.

(** C6, amended: in the license-gated server, a client login with valid
    credentials for an account whose subscription is absent, or whose status
    is anything but [active] (a cancelled subscription with a period end in
    the future included, the period end is not read), is answered 403 "No
    active license" and writes nothing: no HWID is bound. *)
Theorem license_gate_requires_active db name pass h now id user :
  name <> "" -> pass <> "" -> h <> "" ->
  LicenseServer.getUserByUsername name db = Some (id, user) ->
  Schema.password user = pass ->
  (Schema.subscription user = None \/
   exists s, Schema.subscription user = Some s /\ Schema.status s <> Some "active") ->
  LicenseServer.api_login (Some name) (Some pass) (Some h) now db
  = (json 403 false "No active license. Please purchase a subscription.", db).
Proof.
  intros Hn Hp Hh Hget Hpass Hsub.
  apply license_gate with (id := id) (user := user); try assumption.
  apply notActive_spec. exact Hsub.
Qed.

(** A new account, whose status is [inactive], presents a fingerprint. *)
Lemma license_gate_requires_active_witness :
  LicenseServer.api_login (Some "bob") (Some "secret2") (Some "HW-2") 100
    Examples.db_bob
  = (json 403 false "No active license. Please purchase a subscription.",
     Examples.db_bob).
Proof.
  apply (license_gate_requires_active Examples.db_bob "bob" "secret2" "HW-2" 100
           "u2" Examples.bob);
    try discriminate; try (vm_compute; reflexivity).
  right. eexists. split; [reflexivity | discriminate].
Defined.

(** ** C7: lookups by username *)

Lemma where_limit1_None_iff {Doc : Type} (p : Doc -> bool) (c : gmap string Doc) :
  Firestore.where_limit1 p c = None <-> forall id d, c !! id = Some d -> p d = false.
Proof.
  split.
  - intros H id d. apply where_limit1_None. exact H.
  - intros H. destruct (Firestore.where_limit1 p c) as [[id d]|] eqn:E; [| reflexivity].
    apply where_limit1_Some in E as [Hd Hp]. rewrite (H _ _ Hd) in Hp. discriminate.
Qed.

Lemma license_lookup_exact name db id u :
  LicenseServer.getUserByUsername name db = Some (id, u) ->
  db !! id = Some u /\ Schema.username u = name.
Proof.
  intros H. apply where_limit1_Some in H as [Hd Hp].
  split; [exact Hd |]. apply String.eqb_eq. exact Hp.
Qed.

Lemma license_lookup_none name db :
  LicenseServer.getUserByUsername name db = None <->
  forall id u, db !! id = Some u -> Schema.username u <> name.
Proof.
  unfold LicenseServer.getUserByUsername. rewrite where_limit1_None_iff.
  split; intros H id u Hu; specialize (H id u Hu); apply String.eqb_neq; exact H.
Qed.

Lemma license_customer_lookup_exact customerId db id u :
  LicenseServer.getUserByCustomerId customerId db = Some (id, u) ->
  db !! id = Some u /\ LicenseServer.customerIdOf u = Some customerId.
Proof.
  intros H. apply where_limit1_Some in H as [Hd Hp].
  split; [exact Hd |]. apply strictEq_true. exact Hp.
Qed.

Lemma file_login_lookup_exact name pass users u :
  List.find (FileServer.credentials (Some name) (Some pass)) users = Some u ->
  In u users /\ FileServer.username u = name /\ FileServer.password u = pass.
Proof.
  intros H. apply find_some in H as [Hin Hc]. split; [exact Hin |].
  unfold FileServer.credentials in Hc. apply andb_true_iff in Hc as [H1 H2].
  apply strictEq_true in H1, H2. split; congruence.
Qed.

(** The duplicate check of the flat-file signup compares lowered names. *)
Lemma file_signup_ignores_case name pass now users u :
  In u users -> toLowerCase (FileServer.username u) = toLowerCase name ->
  name <> "" -> pass <> "" -> 3 <= str_length name -> 6 <= str_length pass ->
  FileServer.api_signup (Some name) (Some pass) now users
  = (json 200 false "Username already taken", users).
Proof.
  intros Hin Hlow Hn Hp Hl3 Hl6. unfold FileServer.api_signup.
  apply truthy_Some in Hn, Hp. rewrite Hn, Hp. cbn [negb orb]. cbv zeta.
  change (default "" (Some name)) with name. change (default "" (Some pass)) with pass.
  apply Z.ltb_ge in Hl3, Hl6. rewrite Hl3, Hl6.
  assert (FileServer.usernameExists name users = true) as ->; [| reflexivity].
  unfold FileServer.usernameExists. apply existsb_exists. exists u.
  split; [exact Hin | apply String.eqb_eq; exact Hlow].
Qed.

(** C7 as stated fails: the lookup by username compares with [==] (Firestore)
    or [===] (flat file), so two spellings that differ in letter case do not
    find the same account. *)
Lemma username_lookup_case_counterexample :
  toLowerCase "ALICE" = toLowerCase "alice" /\
  LicenseServer.getUserByUsername "alice" Examples.db_alice = Some ("u1", Examples.alice) /\
  LicenseServer.getUserByUsername "ALICE" Examples.db_alice = None /\
  List.find (FileServer.credentials (Some "alice") (Some "secret1")) [Examples.file_alice]
  = Some Examples.file_alice /\
  List.find (FileServer.credentials (Some "ALICE") (Some "secret1")) [Examples.file_alice]
  = None.
Proof. repeat split; vm_compute; reflexivity. Qed.

(** C7, amended: the lookup by username is exact-match, like the lookups by
    id and by external customer id.  [getUserByUsername] answers an account of
    the store whose username is the queried string, character for character,
    and answers none exactly when no account has that very username; the
    flat-file login finds an account whose username and password are the
    strings sent; [getUserById] is the lookup of the key; the lookup by
    customer id answers an account whose stored customer id is the queried
    one.  Letter case is ignored by the duplicate check of the flat-file
    signup: a signup that passes the length checks under a name that some
    account has, but for the case of the letters A to Z, is answered
    [Username already taken] and writes nothing. *)
Theorem username_lookup_exact :
  (forall name db id u,
     LicenseServer.getUserByUsername name db = Some (id, u) ->
     db !! id = Some u /\ Schema.username u = name) /\
  (forall name db,
     LicenseServer.getUserByUsername name db = None <->
     forall id u, db !! id = Some u -> Schema.username u <> name) /\
  (forall name pass users u,
     List.find (FileServer.credentials (Some name) (Some pass)) users = Some u ->
     In u users /\ FileServer.username u = name /\ FileServer.password u = pass) /\
  (forall userId db, LicenseServer.getUserById userId db = db !! userId) /\
  (forall customerId db id u,
     LicenseServer.getUserByCustomerId customerId db = Some (id, u) ->
     db !! id = Some u /\ LicenseServer.customerIdOf u = Some customerId) /\
  (forall name pass now users u,
     In u users -> toLowerCase (FileServer.username u) = toLowerCase name ->
     name <> "" -> pass <> "" -> 3 <= str_length name -> 6 <= str_length pass ->
     FileServer.api_signup (Some name) (Some pass) now users
     = (json 200 false "Username already taken", users)).
Proof.
  split; [exact license_lookup_exact |].
  split; [exact license_lookup_none |].
  split; [exact file_login_lookup_exact |].
  split; [reflexivity |].
  split; [exact license_customer_lookup_exact |].
  exact file_signup_ignores_case.
Qed.

(** The sample account is found under its own spelling; a signup as [ALICE]
    in the file that holds [alice] is refused as taken. *)
Lemma username_lookup_exact_witness :
  (Examples.db_alice !! "u1" = Some Examples.alice /\
   Schema.username Examples.alice = "alice") /\
  FileServer.api_signup (Some "ALICE") (Some "secret9") 100 [Examples.file_alice]
  = (json 200 false "Username already taken", [Examples.file_alice]).
Proof.
  split.
  - apply (proj1 username_lookup_exact "alice" Examples.db_alice "u1" Examples.alice).
    vm_compute. reflexivity.
  - apply (proj2 (proj2 (proj2 (proj2 (proj2 username_lookup_exact))))
             "ALICE" "secret9" 100 [Examples.file_alice] Examples.file_alice);
      try discriminate; try (vm_compute; reflexivity); try (vm_compute; discriminate).
    left. reflexivity.
Defined.

(** ** C8: featuring a vouch *)

(** C8: [!feature] by a moderator on an existing vouch.  When the vouch is
    not approved the command answers that the vouch must be approved first and
    the collection is unchanged, whatever [featured] was.  When it is approved
    the command reports the negation of [featured] as the new state, and the
    collection afterwards holds, under the same id, a vouch whose [featured]
    is that negation and whose other fields are those of the vouch before;
    the other vouches are as they were. *)
Theorem feature_requires_approval msg vouches vouchId v :
  DiscordBot.canManageMessages msg = true ->
  head (DiscordBot.args msg) = Some vouchId -> vouchId <> "" ->
  vouches !! vouchId = Some v ->
  (DiscordBot.approved v = false ->
   DiscordBot.feature msg vouches = (DiscordBot.NotApproved, vouches)) /\
  (DiscordBot.approved v = true ->
   exists v',
     DiscordBot.feature msg vouches
     = (DiscordBot.Featured (negb (DiscordBot.featured v)), <[vouchId := v']> vouches) /\
     DiscordBot.featured v' = negb (DiscordBot.featured v) /\
     same_but_featured v v').
Proof.
  intros Hperm Hid Hne Hv. apply truthy_Some in Hne.
  unfold DiscordBot.feature, Firestore.doc_get.
  rewrite Hperm, Hid, Hne. simpl. rewrite Hv.
  split; intros ->; simpl; [reflexivity |].
  rewrite (doc_update_Some _ _ _ _ Hv).
  eexists. split; [reflexivity |]. split; [reflexivity |].
  repeat split.
Qed.

(** A pending vouch that carries [featured = true] is refused; an approved
    vouch that is not featured becomes featured, and featured only. *)
Lemma feature_requires_approval_witness :
  let pending := DiscordBot.mkVouch "a1" "t1" 5 "Great service, very fast!" 10
                   false true None None (Some true) (Some "m1") (Some 20) (Some "spam") in
  let shown := DiscordBot.mkVouch "a2" "t1" 4 "Quick delivery, thanks." 30
                 true false (Some "m1") (Some 40) None None None None in
  let store : gmap string DiscordBot.Vouch := {[ "v1" := pending; "v2" := shown ]} in
  DiscordBot.feature (DiscordBot.mkMessage "m1" true ["v1"]) store
  = (DiscordBot.NotApproved, store) /\
  exists v',
    DiscordBot.feature (DiscordBot.mkMessage "m1" true ["v2"]) store
    = (DiscordBot.Featured true, <["v2" := v']> store) /\
    DiscordBot.featured v' = true /\
    same_but_featured shown v'.
Proof.
  intros pending shown store. split.
  - apply (proj1 (feature_requires_approval (DiscordBot.mkMessage "m1" true ["v1"])
                    store "v1" pending eq_refl eq_refl
                    ltac:(discriminate) ltac:(vm_compute; reflexivity))).
    reflexivity.
  - apply (proj2 (feature_requires_approval (DiscordBot.mkMessage "m1" true ["v2"])
                    store "v2" shown eq_refl eq_refl
                    ltac:(discriminate) ltac:(vm_compute; reflexivity))).
    reflexivity.
Defined.

(** ** C9: the self-service HWID reset *)

(** C9: a self-service reset by a session whose account has no subscription,
    or a subscription whose status is not [active], fails and writes nothing:
    the test comes before the seven-day cooldown.  (A request without session
    or for a missing account fails as well.) *)
Theorem self_service_reset_requires_active session now db :
  (forall userId u,
     session = Some userId -> db !! userId = Some u -> Schema.notActive u = true) ->
  success (VouchServer.api_reset_hwid session now db).1 = Some false /\
  (VouchServer.api_reset_hwid session now db).2 = db.
Proof.
  intros H. unfold VouchServer.api_reset_hwid, Firestore.doc_get.
  destruct (truthy session) eqn:Hs; simpl; [| auto].
  destruct session as [userId|]; [| discriminate]. simpl.
  destruct (db !! userId) as [u|] eqn:Hu; simpl; [| auto].
  rewrite (H userId u eq_refl Hu). auto.
Qed.

(** A session of an account whose subscription was cancelled. *)
Lemma self_service_reset_requires_active_witness :
  let u := Schema.mkUser "dave" (Some "d@x.io") "secret4" 10 None (Some "HW-4") (Some 20)
             (Some (Schema.mkSubscription (Some "cancelled") (Some "pro") (Some "cus_4")
                      (Some "sub_4") (Some 999999) (Some 30) (Some 40)
                      None None None None None None)) None in
  success (VouchServer.api_reset_hwid (Some "u4") 100 {[ "u4" := u ]}).1 = Some false /\
  (VouchServer.api_reset_hwid (Some "u4") 100 {[ "u4" := u ]}).2 = {[ "u4" := u ]}.
Proof.
  apply (self_service_reset_requires_active (Some "u4") 100).
  intros userId u [= <-] Hu.
  rewrite lookup_singleton_eq in Hu. injection Hu as <-. reflexivity.
Defined.

(** ** C10: a new account is not admitted before its license is activated *)

Lemma unlicensed_at_update id id' f db db' :
  Firestore.doc_update id' f db = Ok db' ->
  (forall u, db !! id = Some u -> id' = id -> unlicensed u -> unlicensed (f u)) ->
  unlicensed_at id db -> unlicensed_at id db'.
Proof.
  intros Hup Hf (u & Hu & Hun). apply doc_update_Ok in Hup as (d & Hd & ->).
  destruct (decide (id' = id)) as [-> | Hne].
  - rewrite Hu in Hd. injection Hd as <-.
    exists (f u). split; [apply lookup_insert_eq | auto].
  - exists u. split; [| exact Hun]. rewrite lookup_insert_ne by exact Hne. exact Hu.
Qed.

Lemma unlicensed_at_add id id' d db db' :
  Firestore.add id' d db = Ok db' -> unlicensed_at id db -> unlicensed_at id db'.
Proof.
  intros Hadd (u & Hu & Hun). apply add_Ok in Hadd as (Hnone & ->).
  exists u. split; [| exact Hun]. rewrite lookup_insert_ne; [exact Hu | congruence].
Qed.

(** A write to the subscription that keeps the status, or sets it to a value
    other than [active], keeps the account unlicensed. *)
Lemma unlicensed_subscription f u :
  (forall s, Schema.status (f s) = Schema.status s
             \/ strictEq (Schema.status (f s)) "active" = false) ->
  unlicensed u -> unlicensed (Schema.upd_subscription f u).
Proof.
  intros Hf (Hact & Hh & Hl). split; [| split; assumption].
  unfold Schema.notActive, Schema.upd_subscription in *. simpl.
  destruct (Schema.subscription u) as [s|]; simpl.
  - destruct (Hf s) as [-> | ->]; [exact Hact | reflexivity].
  - destruct (Hf Schema.noSubscription) as [-> | ->]; reflexivity.
Qed.

Ltac found :=
  repeat match goal with
    | H : LicenseServer.getUserByUsername _ _ = Some _ |- _ =>
      apply where_limit1_Some in H as [? ?]
    | H : LicenseServer.getUserByCustomerId _ _ = Some _ |- _ =>
      apply where_limit1_Some in H as [? ?]
    end.

(** The checkout-completed event of another account leaves the account as it
    is. *)
Lemma checkout_keeps_unlicensed sdk now o id db db' :
  strictEq (Stripe.userId (Stripe.metadata o)) id = false ->
  LicenseServer.handleCheckoutSessionCompleted sdk now o db = Ok db' ->
  unlicensed_at id db -> unlicensed_at id db'.
Proof.
  intros Hq. unfold LicenseServer.handleCheckoutSessionCompleted, LicenseServer.updateUser.
  destruct (truthy (Stripe.userId (Stripe.metadata o))) eqn:Ht; simpl;
    [| intros [= <-]; auto].
  destruct (Stripe.packageType (Stripe.metadata o)) as [pkg|]; [| discriminate].
  intros Hup Hid. eapply unlicensed_at_update; [exact Hup | | exact Hid].
  intros u Hu Heq _. exfalso.
  rewrite (truthy_default _ Ht) in Hq. simpl in Hq. rewrite Heq in Hq.
  rewrite String.eqb_refl in Hq. discriminate.
Qed.

(** The subscription-updated event of another customer, or with a status
    other than [active], leaves the account without license. *)
Lemma updated_keeps_unlicensed o id db db' :
  strictEq (Stripe.status o) "active"
  && match db !! id ≫= LicenseServer.customerIdOf with
     | Some c => strictEq (Stripe.customer o) c
     | None => false
     end = false ->
  LicenseServer.handleSubscriptionUpdated o db = Ok db' ->
  unlicensed_at id db -> unlicensed_at id db'.
Proof.
  intros Hq. unfold LicenseServer.handleSubscriptionUpdated, LicenseServer.updateUser.
  destruct (Stripe.customer o) as [c|] eqn:Hc; [| discriminate].
  destruct (LicenseServer.getUserByCustomerId c db) as [[userId u']|] eqn:Hget;
    [| intros [= <-]; auto].
  destruct (Stripe.status o) as [st|] eqn:Hst; [| discriminate].
  destruct (Stripe.current_period_end o) as [t|]; [| discriminate].
  intros Hup Hid. eapply unlicensed_at_update; [exact Hup | | exact Hid].
  intros u Hu Heq Hun. subst userId.
  apply where_limit1_Some in Hget as [Hu' Hp]. rewrite Hu in Hu'. injection Hu' as <-.
  apply strictEq_true in Hp.
  rewrite Hu in Hq. simpl in Hq. rewrite Hp in Hq. simpl in Hq.
  rewrite String.eqb_refl, andb_true_r in Hq.
  apply unlicensed_subscription; [| exact Hun].
  intros s. right. destruct s; exact Hq.
Qed.

Lemma serve_keeps_unlicensed q id db :
  activating_for id q db = false -> unlicensed_at id db -> unlicensed_at id (serve q db).
Proof.
  destruct q as [sdk secret now op]. unfold serve, activating_for. simpl.
  intros Hq Hid. destruct op; simpl in *.
  - unfold LicenseServer.api_login, LicenseServer.updateUser.
    repeat case_match; simpl; try assumption.
    eapply unlicensed_at_update; [eassumption | | assumption].
    intros doc Hdoc Heq (Hact & _). subst. found. bools. congruence.
  - unfold LicenseServer.api_web_login, LicenseServer.updateUser.
    repeat case_match; simpl; try assumption.
    all: eapply unlicensed_at_update; [eassumption | | assumption].
    all: intros doc Hdoc _ Hun; exact Hun.
  - unfold LicenseServer.api_signup, LicenseServer.createUser.
    repeat case_match; simpl; try assumption.
    all: eapply unlicensed_at_add; eassumption.
  - unfold LicenseServer.api_reset_hwid, LicenseServer.updateUser.
    repeat case_match; simpl; try assumption.
    eapply unlicensed_at_update; [eassumption | | assumption].
    intros doc Hdoc _ (Hact & Hh & Hl). repeat split; assumption.
  - unfold LicenseServer.api_stripe_create_checkout_session, LicenseServer.updateUser.
    repeat case_match; simplify_eq; simpl; try assumption;
    (eapply unlicensed_at_update; [eassumption | | assumption];
     intros doc Hdoc _ Hun; apply unlicensed_subscription; [| exact Hun];
     intros ?; left; reflexivity).
  - unfold LicenseServer.api_stripe_webhook.
    destruct (Stripe.constructEvent sdk rawBody sig secret) as [event|];
      [| exact Hid].
    apply orb_false_iff in Hq as [Hq1 Hq2].
    destruct (LicenseServer.dispatch sdk now event db) as [db'|] eqn:Hd;
      [| exact Hid].
    simpl. revert Hd. unfold LicenseServer.dispatch.
    destruct (String.eqb (Stripe.type event) "checkout.session.completed") eqn:E1.
    { try rewrite E1 in Hq1. simpl in Hq1.
      intros Hd. eapply checkout_keeps_unlicensed; [exact Hq1 | exact Hd | exact Hid]. }
    destruct (String.eqb (Stripe.type event) "customer.subscription.updated") eqn:E2.
    { try rewrite E2 in Hq2. simpl in Hq2.
      intros Hd. eapply updated_keeps_unlicensed; [exact Hq2 | exact Hd | exact Hid]. }
    unfold LicenseServer.handleSubscriptionDeleted, LicenseServer.handlePaymentSucceeded,
      LicenseServer.handlePaymentFailed, LicenseServer.updateUser.
    clear Hq1 Hq2.
    intros Hd. repeat case_match; simplify_eq; simpl; try assumption.
    eapply unlicensed_at_update; [eassumption | | assumption].
    intros doc Hdoc _ Hun. apply unlicensed_subscription; [| exact Hun].
    intros ?; right; reflexivity.
  - unfold LicenseServer.api_stripe_cancel_subscription, LicenseServer.updateUser.
    repeat case_match; simplify_eq; simpl; try assumption.
    eapply unlicensed_at_update; [eassumption | | assumption].
    intros doc Hdoc _ Hun. apply unlicensed_subscription; [| exact Hun].
    intros ?; right; reflexivity.
Qed.

Lemma run_keeps_unlicensed trace id db :
  quiet_for id trace db = true ->
  unlicensed_at id db -> unlicensed_at id (run trace db).
Proof.
  unfold run. revert db. induction trace as [| q trace IH]; intros db Htr Hid;
    simpl in *; [exact Hid |].
  apply andb_true_iff in Htr as [Hq Htr]. apply negb_true_iff in Hq.
  apply IH; [exact Htr |]. apply serve_keeps_unlicensed; assumption.
Qed.

Lemma license_signup_unlicensed username password newId saved now db :
  success (LicenseServer.api_signup username password newId saved now db).1 = Some true ->
  (LicenseServer.api_signup username password newId saved now db).2 !! newId
  = Some (LicenseServer.newUser now (default "" username) (default "" password)).
Proof.
  unfold LicenseServer.api_signup, LicenseServer.createUser.
  repeat case_match; simpl; try discriminate. intros _.
  match goal with H : Firestore.add _ _ _ = Ok _ |- _ => apply add_Ok in H as [_ ->] end.
  apply lookup_insert_eq.
Qed.

Lemma vouch_signup_unlicensed username email password newId now db :
  success (VouchServer.api_signup username email password newId now db).1 = Some true ->
  (VouchServer.api_signup username email password newId now db).2 !! newId
  = Some (VouchServer.newUser now (default "" username) (default "" email)
            (default "" password)).
Proof.
  unfold VouchServer.api_signup.
  repeat case_match; simpl; try discriminate. intros _.
  match goal with H : Firestore.add _ _ _ = Ok _ |- _ => apply add_Ok in H as [_ ->] end.
  apply lookup_insert_eq.
Qed.

Lemma license_gate_unlicensed db name pass h now id user :
  name <> "" -> pass <> "" -> h <> "" ->
  LicenseServer.getUserByUsername name db = Some (id, user) ->
  Schema.password user = pass ->
  unlicensed_at id db ->
  LicenseServer.api_login (Some name) (Some pass) (Some h) now db
  = (json 403 false "No active license. Please purchase a subscription.", db).
Proof.
  intros Hn Hp Hh Hget Hpass (u & Hu & Hact & _).
  apply license_gate with (id := id) (user := user); try assumption.
  apply where_limit1_Some in Hget as [Hid _]. congruence.
Qed.

(** C10 as stated fails in its last part: the status is also set by the
    subscription-updated event, which stores the status Stripe sends.  [bob]
    signs up and opens a checkout, which saves his customer id; Stripe then
    delivers [customer.subscription.updated] with status [active] before any
    checkout-completed event; his client login is admitted. *)
Lemma activation_without_checkout_counterexample :
  let db1 := (LicenseServer.api_signup (Some "bob") (Some "secret2") "u2" true 10 ∅).2 in
  let db2 :=
    (LicenseServer.api_stripe_create_checkout_session Examples.sdk (Some "u2")
       (Some "price_1") (Some "monthly") db1).2 in
  let db3 :=
    (LicenseServer.api_stripe_webhook (Examples.delivering Examples.subscription_updated)
       30 "{}" (Some "t=1,v1=00") (Some "whsec") db2).2 in
  field_at Schema.status "u2" db1 = Some "inactive" /\
  field_at Schema.status "u2" db2 = Some "inactive" /\
  field_at Schema.status "u2" db3 = Some "active" /\
  (LicenseServer.api_login (Some "bob") (Some "secret2") (Some "HW-2") 40 db3).1
  = json 200 true "Login successful".
Proof. repeat split; vm_compute; reflexivity. Qed.

(** C10, amended: the document a signup creates has a subscription status
    that is not [active] ([inactive] in the license-gated server, [none] in
    the vouch server) and no HWID; a successful signup stores it under the
    new id; the account stays without license and without lock along every
    sequence of requests to the license-gated server, whoever sends them and
    whatever Stripe delivers for other accounts, in which no authentic
    delivery is a checkout-completed event that names the account or a
    subscription-updated event with the status [active] for the customer the
    account holds; and a client login with valid credentials that resolves to
    such an account is answered 403 and writes nothing. *)
Theorem new_account_not_admitted :
  (forall now name pass,
     (Schema.subscription (LicenseServer.newUser now name pass) ≫= Schema.status)
     = Some "inactive" /\
     unlicensed (LicenseServer.newUser now name pass)) /\
  (forall now name mail pass,
     (Schema.subscription (VouchServer.newUser now name mail pass) ≫= Schema.status)
     = Some "none" /\
     unlicensed (VouchServer.newUser now name mail pass)) /\
  (forall username password newId saved now db,
     success (LicenseServer.api_signup username password newId saved now db).1
     = Some true ->
     unlicensed_at newId
       (LicenseServer.api_signup username password newId saved now db).2) /\
  (forall username email password newId now db,
     success (VouchServer.api_signup username email password newId now db).1
     = Some true ->
     unlicensed_at newId (VouchServer.api_signup username email password newId now db).2) /\
  (forall trace id db name pass h now user,
     unlicensed_at id db ->
     quiet_for id trace db = true ->
     name <> "" -> pass <> "" -> h <> "" ->
     LicenseServer.getUserByUsername name (run trace db) = Some (id, user) ->
     Schema.password user = pass ->
     unlicensed_at id (run trace db) /\
     LicenseServer.api_login (Some name) (Some pass) (Some h) now (run trace db)
     = (json 403 false "No active license. Please purchase a subscription.",
        run trace db)).
Proof.
  split; [intros; repeat split |].
  split; [intros; repeat split |].
  split.
  { intros * Hok. eexists. split; [apply license_signup_unlicensed; exact Hok |].
    repeat split. }
  split.
  { intros * Hok. eexists. split; [apply vouch_signup_unlicensed; exact Hok |].
    repeat split. }
  intros trace id db name pass h now user Hid Htr Hn Hp Hh Hget Hpass.
  assert (unlicensed_at id (run trace db)) as Hrun
    by (apply run_keeps_unlicensed; assumption).
  split; [exact Hrun |].
  apply license_gate_unlicensed with (id := id) (user := user); assumption.
Qed.

(** [bob] signs up beside [alice], tries to log in, logs in on the web and
    opens a checkout that he does not complete, which saves his customer
    [cus_1]; meanwhile Stripe delivers the completed checkout of [alice] and
    a subscription-updated event, with the status [active], for the customer
    [cus_7] of someone else.  His next client login is refused. *)
Lemma new_account_not_admitted_witness :
  let trace :=
    [ mkServed Examples.sdk None 20
        (LicenseServer.Login (Some "bob") (Some "secret2") (Some "HW-2"));
      mkServed Examples.sdk None 30
        (LicenseServer.WebLogin (Some "bob") (Some "secret2") true);
      mkServed (Examples.delivering
                  (Stripe.mkEvent "checkout.session.completed"
                     (Examples.lifetime_checkout "u1")))
        (Some "whsec") 35 (LicenseServer.Webhook "{}" (Some "t=1,v1=00"));
      mkServed Examples.sdk None 40
        (LicenseServer.CreateCheckoutSession (Some "u2") (Some "price_1") (Some "monthly"));
      mkServed (Examples.delivering
                  (Stripe.mkEvent "customer.subscription.updated"
                     (Stripe.mkObject (Some "sub_7") (Some "cus_7") None None None
                        (Stripe.mkMetadata None None) (Some "active") (Some 2000)
                        None None)))
        (Some "whsec") 45 (LicenseServer.Webhook "{}" (Some "t=1,v1=00")) ] in
  let db :=
    (LicenseServer.api_signup (Some "bob") (Some "secret2") "u2" true 10
       Examples.db_alice).2 in
  unlicensed_at "u2" (run trace db) /\
  LicenseServer.api_login (Some "bob") (Some "secret2") (Some "HW-2") 50 (run trace db)
  = (json 403 false "No active license. Please purchase a subscription.",
     run trace db).
Proof.
  intros trace db.
  eapply (proj2 (proj2 (proj2 (proj2 new_account_not_admitted)))
            trace "u2" db "bob" "secret2" "HW-2" 50);
    try discriminate; try (vm_compute; reflexivity).
  apply (proj1 (proj2 (proj2 new_account_not_admitted))). reflexivity.
Defined.

(** * Further properties of the code *)

(** ** What a request does to the store *)

Lemma doc_update_Effect R id f db db' :
  Firestore.doc_update id f db = Ok db' ->
  (forall d, db !! id = Some d -> same_identity d (f d) /\ R d (f d)) ->
  Effect R db db'.
Proof.
  intros H Hf. apply doc_update_Ok in H as (d & Hd & ->).
  destruct (Hf d Hd). eapply Updated; eauto.
Qed.

Lemma add_Effect R id d db db' :
  Firestore.add id d db = Ok db' ->
  username_free (Schema.username d) db -> email_free (Schema.email d) db ->
  Schema.hwid d = None ->
  Effect R db db'.
Proof.
  intros H Hn He Hh. apply add_Ok in H as [Hid ->]. eapply Added; eauto.
Qed.

Lemma username_query_free name db :
  Firestore.where_limit1 (fun u => String.eqb (Schema.username u) name) db = None ->
  username_free name db.
Proof.
  intros H id u Hu. apply (where_limit1_None _ _ _ _ H) in Hu.
  apply String.eqb_neq. exact Hu.
Qed.

Lemma email_query_free mail db :
  Firestore.where_limit1 (fun u => strictEq (Schema.email u) mail) db = None ->
  email_free (Some mail) db.
Proof.
  intros H id u e Hu [= <-]. apply (where_limit1_None _ _ _ _ H) in Hu.
  apply strictEq_false. exact Hu.
Qed.

Lemma no_email_free db : email_free None db.
Proof. intros id u e _ [=]. Qed.

Ltac identity :=
  intros; split; [repeat split | repeat split];
  repeat (simpl; try case_match); try reflexivity.

Ltac effect R :=
  intros;
  repeat first [ progress simpl in * | case_match ]; simplify_eq;
  try (apply Unchanged; reflexivity);
  try match goal with
      | H : Firestore.doc_update _ _ ?c = Ok _ |- _ =>
        apply (doc_update_Effect R _ _ _ _ H); identity
      | H : Firestore.add _ _ ?c = Ok _ |- _ =>
        apply (add_Effect R _ _ _ _ H);
        [ apply username_query_free; assumption
        | first [ apply no_email_free | apply email_query_free; assumption ]
        | reflexivity ]
      end.

Lemma license_dispatch_effect sdk now event db db' :
  LicenseServer.dispatch sdk now event db = Ok db' -> Effect (fun _ _ => True) db db'.
Proof.
  unfold LicenseServer.dispatch, LicenseServer.handleCheckoutSessionCompleted,
    LicenseServer.handleSubscriptionUpdated, LicenseServer.handleSubscriptionDeleted,
    LicenseServer.handlePaymentSucceeded, LicenseServer.handlePaymentFailed,
    LicenseServer.updateUser.
  intros H. repeat case_match; simplify_eq; effect (fun _ _ : Schema.User => True).
Qed.

Lemma license_step_effect sdk secret now op db :
  Effect (fun _ _ => True) db (LicenseServer.step sdk secret now op db).2.
Proof.
  destruct op; simpl.
  - unfold LicenseServer.api_login, LicenseServer.updateUser, LicenseServer.login_updates.
    effect (fun _ _ : Schema.User => True).
  - unfold LicenseServer.api_web_login, LicenseServer.updateUser.
    effect (fun _ _ : Schema.User => True).
  - unfold LicenseServer.api_signup, LicenseServer.createUser,
      LicenseServer.getUserByUsername.
    effect (fun _ _ : Schema.User => True).
  - unfold LicenseServer.api_reset_hwid, LicenseServer.updateUser.
    effect (fun _ _ : Schema.User => True).
  - unfold LicenseServer.api_stripe_create_checkout_session, LicenseServer.updateUser.
    effect (fun _ _ : Schema.User => True).
  - unfold LicenseServer.api_stripe_webhook.
    repeat case_match; simpl; try (apply Unchanged; reflexivity).
    eapply license_dispatch_effect; eassumption.
  - unfold LicenseServer.api_stripe_cancel_subscription, LicenseServer.updateUser.
    effect (fun _ _ : Schema.User => True).
Qed.

Lemma vouch_dispatch_effect sdk now event db db' :
  VouchServer.dispatch sdk now event db = Ok db' -> Effect same_lock db db'.
Proof.
  unfold VouchServer.dispatch, VouchServer.handleCheckoutSessionCompleted,
    VouchServer.update_metadata_user,
    VouchServer.handleSubscriptionUpdated, VouchServer.handleSubscriptionDeleted,
    VouchServer.handlePaymentSucceeded, VouchServer.handlePaymentFailed.
  intros H. repeat case_match; simplify_eq; effect same_lock.
Qed.

Lemma vouch_step_effect sdk secret now op db :
  Effect same_lock db (VouchServer.step sdk secret now op db).2.
Proof.
  destruct op; simpl.
  - unfold VouchServer.api_login. effect same_lock.
  - unfold VouchServer.api_signup. effect same_lock.
  - unfold VouchServer.api_reset_hwid. effect same_lock.
  - unfold VouchServer.api_stripe_create_checkout_session. effect same_lock.
  - unfold VouchServer.api_stripe_webhook.
    repeat case_match; simpl; try (apply Unchanged; reflexivity).
    eapply vouch_dispatch_effect; eassumption.
  - unfold VouchServer.api_subscription_cancel. effect same_lock.
Qed.

Lemma hwid_step_effect now op db :
  Effect (fun _ _ => True) db (HwidServer.step now op db).2.
Proof.
  destruct op; simpl.
  - unfold HwidServer.api_login, HwidServer.updateUser.
    effect (fun _ _ : Schema.User => True).
  - unfold HwidServer.api_web_login. effect (fun _ _ : Schema.User => True).
  - unfold HwidServer.api_signup, HwidServer.createUser, HwidServer.getUserByUsername.
    effect (fun _ _ : Schema.User => True).
  - unfold HwidServer.api_reset_hwid, HwidServer.updateUser.
    effect (fun _ _ : Schema.User => True).
Qed.

Lemma same_identity_refl d : same_identity d d.
Proof. repeat split. Qed.

(** Consequences of an effect. *)
Lemma Effect_kept R db db' id d :
  Effect R db db' -> db !! id = Some d ->
  exists d', db' !! id = Some d' /\ same_identity d d' /\ (d' = d \/ R d d').
Proof.
  intros [-> | i e e' He -> Hs Hr | i e Hnone -> _ _ _] Hd.
  - exists d. auto using same_identity_refl.
  - destruct (decide (i = id)) as [-> | Hne].
    + rewrite He in Hd. injection Hd as <-. exists e'.
      rewrite lookup_insert_eq. auto.
    + exists d. rewrite lookup_insert_ne by exact Hne. auto using same_identity_refl.
  - exists d. rewrite lookup_insert_ne by congruence. auto using same_identity_refl.
Qed.

Lemma Effect_one R db db' :
  Effect R db db' -> exists id0, forall id, id <> id0 -> db' !! id = db !! id.
Proof.
  intros [-> | i e e' He -> Hs Hr | i e Hnone -> _ _ _].
  - exists "". reflexivity.
  - exists i. intros id Hne. apply lookup_insert_ne. congruence.
  - exists i. intros id Hne. apply lookup_insert_ne. congruence.
Qed.

Lemma Effect_unique_usernames R db db' :
  Effect R db db' -> unique_usernames db -> unique_usernames db'.
Proof.
  intros [-> | i e e' He -> (Hn & _) Hr | i e Hnone -> Hfree _ _] Hu; [exact Hu | |].
  - intros id1 id2 u1 u2 H1 H2 Heq.
    rewrite lookup_insert in H1, H2.
    repeat case_decide; simplify_eq; try reflexivity.
    + rewrite Hn in Heq. eapply Hu; eauto.
    + rewrite Hn in Heq. eapply Hu; eauto.
    + eapply Hu; eauto.
  - intros id1 id2 u1 u2 H1 H2 Heq.
    rewrite lookup_insert in H1, H2.
    repeat case_decide; simplify_eq; try reflexivity.
    + exfalso. eapply Hfree; eauto.
    + exfalso. eapply Hfree; eauto.
    + eapply Hu; eauto.
Qed.

Lemma Effect_unique_emails R db db' :
  Effect R db db' -> unique_emails db -> unique_emails db'.
Proof.
  intros [-> | i e e' He -> (_ & _ & Hm & _) Hr | i e Hnone -> _ Hfree _] Hu;
    [exact Hu | |].
  - intros id1 id2 u1 u2 m H1 H2 E1 E2.
    rewrite lookup_insert in H1, H2.
    repeat case_decide; simplify_eq; try reflexivity;
      try rewrite Hm in E1; try rewrite Hm in E2; eapply Hu; eauto.
  - intros id1 id2 u1 u2 m H1 H2 E1 E2.
    rewrite lookup_insert in H1, H2.
    repeat case_decide; simplify_eq; try reflexivity.
    + exfalso. eapply Hfree; eauto.
    + exfalso. eapply Hfree; eauto.
    + eapply Hu; eauto.
Qed.

(** ** X1, X2, X3: accounts are kept, usernames stay unique *)

Section ArrayIdentity.
Import FileServer.

Lemma map_modify_first {B : Type} (g : User -> B) p f users :
  (forall u, g (f u) = g u) -> List.map g (modify_first p f users) = List.map g users.
Proof.
  intros Hg. induction users as [| x r IH]; simpl; [reflexivity |].
  destruct (p x); simpl; [rewrite Hg | rewrite IH]; reflexivity.
Qed.

(** What a request keeps of the array: the identity of every record, in
    place; a signup adds one record at the end. *)
Lemma file_step_identity {B : Type} (g : User -> B) sdk secret now op users :
  (forall h t u, g (set_hwid h t u) = g u) ->
  (forall s u, g (set_subscription s u) = g u) ->
  List.map g (step sdk secret now op users).2 = List.map g users \/
  exists name pass,
    op = Signup (Some name) (Some pass) /\
    usernameExists name users = false /\
    (step sdk secret now op users).2
    = (users ++ [mkUser (toString now) name pass now None None None])%list.
Proof.
  intros Hh Hs. destruct op; simpl.
  - left. unfold api_login. repeat case_match; simpl; try reflexivity.
    apply map_modify_first. intros; apply Hh.
  - left. unfold api_web_login. repeat case_match; reflexivity.
  - unfold api_signup. repeat case_match; simpl; auto.
    right. bools.
    destruct username0 as [name|]; [| discriminate].
    destruct password0 as [pass|]; [| discriminate].
    exists name, pass. auto.
  - left. unfold api_reset_hwid. repeat case_match; simpl; try reflexivity.
    apply map_modify_first. intros; apply Hh.
  - left. unfold api_stripe_webhook. repeat case_match; simpl; try reflexivity;
      apply map_modify_first; intros; apply Hs.
  - left. unfold api_stripe_cancel_subscription. repeat case_match; reflexivity.
Qed.

(** The signup that appends a record answers with success. *)
Lemma file_signup_answer sdk secret now name pass users x :
  (step sdk secret now (Signup (Some name) (Some pass)) users).2 = (users ++ [x])%list ->
  (step sdk secret now (Signup (Some name) (Some pass)) users).1
  = json 200 true "Account created successfully!".
Proof.
  simpl. unfold api_signup.
  repeat case_match; simpl; intros Happ; try reflexivity; exfalso;
    apply (f_equal (@List.length _)) in Happ; rewrite length_app in Happ;
    simpl in Happ; lia.
Qed.

Lemma usernameExists_false name users :
  usernameExists name users = false ->
  toLowerCase name ∉ List.map file_key users.
Proof.
  unfold usernameExists, file_key.
  induction users as [| x r IH]; simpl; intros H Hin.
  - inversion Hin.
  - apply orb_false_iff in H as [Hx Hr]. apply String.eqb_neq in Hx.
    apply elem_of_cons in Hin as [Heq | Hin]; [congruence |].
    exact (IH Hr Hin).
Qed.

End ArrayIdentity.

(** X1: no request of any revision deletes an account or changes its
    username, password, email or creation instant.  In the Firestore
    revisions at most one document differs after a request; in the flat file
    the records keep their place, and the array grows only by the one record
    of a signup that is answered with success. *)
Theorem accounts_are_kept :
  (forall sdk secret now op db,
     keeps_accounts db (LicenseServer.step sdk secret now op db).2) /\
  (forall sdk secret now op db,
     keeps_accounts db (VouchServer.step sdk secret now op db).2) /\
  (forall now op db, keeps_accounts db (HwidServer.step now op db).2) /\
  (forall sdk secret now op users,
     let r := FileServer.step sdk secret now op users in
     List.map file_identity r.2 = List.map file_identity users \/
     exists name pass,
       op = FileServer.Signup (Some name) (Some pass) /\
       r.1 = json 200 true "Account created successfully!" /\
       r.2 = (users ++ [FileServer.mkUser (toString now) name pass now None None None])%list).
Proof.
  assert (forall R db db', Effect R db db' -> keeps_accounts db db') as H.
  { intros R db db' He. split.
    - intros id d Hd. destruct (Effect_kept _ _ _ _ _ He Hd) as (d' & ? & ? & _). eauto.
    - eapply Effect_one; eassumption. }
  split; [| split; [| split]]; intros.
  - eapply H, license_step_effect.
  - eapply H, vouch_step_effect.
  - eapply H, hwid_step_effect.
  - subst r.
    destruct (file_step_identity file_identity sdk secret now op users)
      as [Heq | (name & pass & -> & _ & Heq)]; try reflexivity.
    + left. exact Heq.
    + right. exists name, pass. split; [reflexivity |]. split; [| exact Heq].
      eapply file_signup_answer. exact Heq.
Qed.

Lemma Effect_unique_accounts R db db' :
  Effect R db db' -> unique_accounts db -> unique_accounts db'.
Proof.
  intros He [Hu Hm]. split.
  - eapply Effect_unique_usernames; eassumption.
  - eapply Effect_unique_emails; eassumption.
Qed.

(** X2: in the Firestore revisions, a store in which no two accounts share a
    username, and no two an email, stays so under every request of every
    revision: each signup queries the username (the vouch server the email as
    well) before it adds the document, and no route rewrites either field.
    The empty store is such a store. *)
Theorem usernames_stay_unique :
  (forall sdk secret now op db,
     unique_accounts db -> unique_accounts (LicenseServer.step sdk secret now op db).2) /\
  (forall sdk secret now op db,
     unique_accounts db -> unique_accounts (VouchServer.step sdk secret now op db).2) /\
  (forall now op db,
     unique_accounts db -> unique_accounts (HwidServer.step now op db).2) /\
  unique_accounts ∅.
Proof.
  split; [| split; [| split]]; intros.
  - eapply Effect_unique_accounts; [apply license_step_effect | assumption].
  - eapply Effect_unique_accounts; [apply vouch_step_effect | assumption].
  - eapply Effect_unique_accounts; [apply hwid_step_effect | assumption].
  - split; intros ? ? ? ? *; rewrite lookup_empty; discriminate.
Qed.

(** The store that holds the sample account, after a second account signs
    up. *)
Lemma usernames_stay_unique_witness :
  unique_accounts
    (LicenseServer.step Examples.sdk None 100
       (LicenseServer.Signup (Some "carol") (Some "secret3") "u3" true) Examples.db_alice).2.
Proof.
  apply (proj1 usernames_stay_unique).
  split.
  - intros id1 id2 u1 u2 H1 H2 _. unfold Examples.db_alice in *.
    apply lookup_singleton_Some in H1 as [<- _].
    apply lookup_singleton_Some in H2 as [<- _]. reflexivity.
  - intros id1 id2 u1 u2 e H1 H2 _ _. unfold Examples.db_alice in *.
    apply lookup_singleton_Some in H1 as [<- _].
    apply lookup_singleton_Some in H2 as [<- _]. reflexivity.
Defined.

(** X3: in the flat file, usernames that are pairwise different up to letter
    case stay so under every request: the signup refuses a name that some
    record has up to case, and no route rewrites a username. *)
Theorem file_usernames_stay_unique sdk secret now op users :
  NoDup (List.map file_key users) ->
  NoDup (List.map file_key (FileServer.step sdk secret now op users).2).
Proof.
  intros Hnd.
  destruct (file_step_identity file_key sdk secret now op users)
    as [Heq | (name & pass & -> & Hfree & Heq)]; try reflexivity.
  - rewrite Heq. exact Hnd.
  - rewrite Heq, map_app. apply NoDup_app. split; [exact Hnd |].
    split; [| apply NoDup_singleton].
    intros k Hk Hin. apply list_elem_of_singleton in Hin. subst k.
    apply usernameExists_false in Hfree. exact (Hfree Hk).
Qed.

(** [Alice] signs up in a file that holds [alice]: the file is unchanged. *)
Lemma file_usernames_stay_unique_witness :
  NoDup (List.map file_key
           (FileServer.step Examples.sdk None 100
              (FileServer.Signup (Some "Alice") (Some "secret9"))
              [Examples.file_alice]).2).
Proof.
  apply file_usernames_stay_unique. apply NoDup_singleton.
Defined.

(** ** X4: a second signup under a taken username *)

Lemma license_signup_stores username password newId saved now db :
  success (LicenseServer.api_signup username password newId saved now db).1 = Some true ->
  exists name pass,
    username = Some name /\ password = Some pass /\
    truthy (Some name) = true /\ (str_length name <? 3)%Z = false /\
    (LicenseServer.api_signup username password newId saved now db).2
    = <[newId := LicenseServer.newUser now name pass]> db.
Proof.
  unfold LicenseServer.api_signup, LicenseServer.createUser.
  repeat case_match; simpl; try discriminate. intros _. bools.
  destruct username as [name|]; [| discriminate].
  destruct password as [pass|]; [| discriminate].
  match goal with H : Firestore.add _ _ _ = Ok _ |- _ => apply add_Ok in H as [_ ->] end.
  exists name, pass. auto.
Qed.

Lemma file_signup_stores username password now users :
  success (FileServer.api_signup username password now users).1 = Some true ->
  exists name pass,
    username = Some name /\ password = Some pass /\
    (FileServer.api_signup username password now users).2
    = (users ++ [FileServer.mkUser (toString now) name pass now None None None])%list.
Proof.
  unfold FileServer.api_signup.
  repeat case_match; simpl; try discriminate. intros _. bools.
  destruct username as [name|]; [| discriminate].
  destruct password as [pass|]; [| discriminate]. eauto.
Qed.

(** An account stays under its username along every sequence of requests. *)
Lemma run_keeps_username trace id d db :
  db !! id = Some d ->
  exists d', run trace db !! id = Some d' /\ Schema.username d' = Schema.username d.
Proof.
  unfold run. revert d db. induction trace as [| q trace IH]; intros d db Hd; simpl.
  - eauto.
  - destruct (Effect_kept _ _ _ _ _
                (license_step_effect (sdk_of q) (secret_of q) (instant_of q) (op_of q) db)
                Hd) as (d1 & Hd1 & (Hn & _) & _).
    destruct (IH d1 (serve q db) Hd1) as (d' & Hd' & Hn').
    exists d'. split; [exact Hd' | congruence].
Qed.

(** A username in the file stays in the file, up to letter case, along every
    sequence of requests. *)
Lemma file_run_keeps_key trace k users :
  In k (List.map file_key users) -> In k (List.map file_key (file_run trace users)).
Proof.
  unfold file_run. revert users. induction trace as [| q trace IH]; intros users Hk; simpl.
  - exact Hk.
  - apply IH. unfold file_serve.
    destruct (file_step_identity file_key (file_sdk_of q) (file_secret_of q)
                (file_instant_of q) (file_op_of q) users)
      as [Heq | (name & pass & _ & _ & Heq)]; try reflexivity.
    + rewrite Heq. exact Hk.
    + rewrite Heq, map_app. apply in_or_app. left. exact Hk.
Qed.

Lemma usernameExists_true name users :
  In (toLowerCase name) (List.map file_key users) ->
  FileServer.usernameExists name users = true.
Proof.
  unfold FileServer.usernameExists, file_key.
  induction users as [| x r IH]; simpl; intros Hin; [contradiction |].
  apply orb_true_iff. destruct Hin as [Heq | Hin].
  - left. apply String.eqb_eq. exact Heq.
  - right. exact (IH Hin).
Qed.

(** X4: once a signup has succeeded, every later signup under the same
    username is refused and writes nothing, whatever requests were served in
    between and whether or not the session of the later signup can be saved;
    when the later password has six UTF-16 code units or more the
    license-gated server answers 409 [Username already exists] and the
    flat-file server [Username already taken].  In the flat file the same
    holds for every username that equals the taken one but for the case of
    the letters A to Z. *)
Theorem signup_twice_is_refused :
  (forall username password newId saved now db trace password' newId' saved' now',
     success (LicenseServer.api_signup username password newId saved now db).1
     = Some true ->
     let db2 :=
       run trace (LicenseServer.api_signup username password newId saved now db).2 in
     let r := LicenseServer.api_signup username password' newId' saved' now' db2 in
     success r.1 = Some false /\ r.2 = db2 /\
     (truthy password' = true -> (6 <= str_length (default "" password'))%Z ->
      r.1 = json 409 false "Username already exists")) /\
  (forall username password now users trace name' password' now',
     success (FileServer.api_signup username password now users).1 = Some true ->
     toLowerCase name' = toLowerCase (default "" username) ->
     let users2 :=
       file_run trace (FileServer.api_signup username password now users).2 in
     let r := FileServer.api_signup (Some name') password' now' users2 in
     success r.1 = Some false /\ r.2 = users2 /\
     (truthy (Some name') = true -> (3 <= str_length name')%Z ->
      truthy password' = true -> (6 <= str_length (default "" password'))%Z ->
      r.1 = json 200 false "Username already taken")).
Proof.
  split.
  - intros username password newId saved now db trace password' newId' saved' now'
      Hok db2 r.
    destruct (license_signup_stores _ _ _ _ _ _ Hok)
      as (name & pass & -> & -> & Htn & Hlen3 & Hdb).
    subst r db2. rewrite Hdb.
    destruct (run_keeps_username trace newId (LicenseServer.newUser now name pass)
                (<[newId := LicenseServer.newUser now name pass]> db)
                (lookup_insert_eq _ _ _)) as (d' & Hd' & Hn').
    set (db2 := run trace (<[newId := LicenseServer.newUser now name pass]> db)) in *.
    assert (LicenseServer.getUserByUsername name db2 <> None) as Hfound.
    { intros Hnone.
      pose proof (where_limit1_None _ _ newId _ Hnone Hd') as Hf.
      simpl in Hf. rewrite Hn' in Hf. simpl in Hf.
      rewrite String.eqb_refl in Hf. discriminate. }
    split; [| split].
    + unfold LicenseServer.api_signup.
      repeat case_match; simpl in *; try reflexivity; congruence.
    + unfold LicenseServer.api_signup.
      repeat case_match; simpl in *; try reflexivity; congruence.
    + intros Ht Hlen. unfold LicenseServer.api_signup.
      rewrite Htn, Ht. simpl. rewrite Hlen3.
      apply Z.ltb_ge in Hlen. rewrite Hlen.
      destruct (LicenseServer.getUserByUsername name db2); [reflexivity | congruence].
  - intros username password now users trace name' password' now' Hok Hcase users2 r.
    destruct (file_signup_stores _ _ _ _ Hok)
      as (name & pass & -> & -> & Husers).
    subst r users2. rewrite Husers. simpl in Hcase.
    set (users2 := file_run trace _).
    assert (FileServer.usernameExists name' users2 = true) as Hex.
    { apply usernameExists_true. apply file_run_keeps_key.
      rewrite map_app. apply in_or_app. right. left. unfold file_key. simpl.
      symmetry. exact Hcase. }
    unfold FileServer.api_signup. cbv zeta.
    change (default "" (Some name')) with name'. rewrite Hex.
    split; [| split].
    + repeat case_match; reflexivity.
    + repeat case_match; reflexivity.
    + intros Ht Hl3 Htp Hl6. rewrite Ht, Htp. simpl.
      apply Z.ltb_ge in Hl3, Hl6. rewrite Hl3, Hl6. reflexivity.
Qed.

(** [bob] signs up beside [alice]; [alice] then logs in from her machine and
    [bob] on the web; a second [bob], whose password has six characters of
    two bytes each, is answered 409. *)
Lemma signup_twice_is_refused_witness :
  let trace :=
    [ mkServed Examples.sdk None 20
        (LicenseServer.Login (Some "alice") (Some "secret1") (Some "HW-1"));
      mkServed Examples.sdk None 30
        (LicenseServer.WebLogin (Some "bob") (Some "secret2") true) ] in
  let db2 :=
    run trace
      (LicenseServer.api_signup (Some "bob") (Some "secret2") "u2" true 10
         Examples.db_alice).2 in
  let r := LicenseServer.api_signup (Some "bob") (Some "éééééé") "u9" false 40 db2 in
  success r.1 = Some false /\ r.2 = db2 /\
  r.1 = json 409 false "Username already exists".
Proof.
  intros trace db2 r.
  pose proof (proj1 signup_twice_is_refused (Some "bob") (Some "secret2") "u2" true 10
                Examples.db_alice trace (Some "éééééé") "u9" false 40 eq_refl)
    as (H1 & H2 & H3).
  split; [exact H1 |]. split; [exact H2 |].
  apply H3; [reflexivity | vm_compute; discriminate].
Defined.

(** ** X5: a refused request writes nothing *)



(** ** X6: which fields a request writes *)

Lemma license_dispatch_frame sdk now event db db' :
  LicenseServer.dispatch sdk now event db = Ok db' -> Effect only_subscription db db'.
Proof.
  unfold LicenseServer.dispatch, LicenseServer.handleCheckoutSessionCompleted,
    LicenseServer.handleSubscriptionUpdated, LicenseServer.handleSubscriptionDeleted,
    LicenseServer.handlePaymentSucceeded, LicenseServer.handlePaymentFailed,
    LicenseServer.updateUser.
  intros H. repeat case_match; simplify_eq; effect only_subscription.
Qed.

Lemma license_step_frame sdk secret now op db :
  Effect (license_frame op) db (LicenseServer.step sdk secret now op db).2.
Proof.
  destruct op; simpl.
  - unfold LicenseServer.api_login, LicenseServer.updateUser, LicenseServer.login_updates.
    effect (fun d d' => same_subscription d d' /\ login_count d' = login_count d + 1).
    all: unfold login_count; simpl; destruct (Schema.stats d); reflexivity.
  - unfold LicenseServer.api_web_login, LicenseServer.updateUser.
    effect (fun d d' => same_subscription d d' /\ same_lock d d' /\
                        login_count d' = login_count d).
    all: try (unfold login_count; simpl; destruct (Schema.stats d); reflexivity).
  - unfold LicenseServer.api_signup, LicenseServer.createUser,
      LicenseServer.getUserByUsername.
    effect (fun _ _ : Schema.User => False).
  - unfold LicenseServer.api_reset_hwid, LicenseServer.updateUser.
    effect (fun d d' => d' = Schema.set_hwid None None d).
  - unfold LicenseServer.api_stripe_create_checkout_session, LicenseServer.updateUser.
    effect only_subscription.
  - unfold LicenseServer.api_stripe_webhook.
    repeat case_match; simpl; try (apply Unchanged; reflexivity).
    eapply license_dispatch_frame; eassumption.
  - unfold LicenseServer.api_stripe_cancel_subscription, LicenseServer.updateUser.
    effect only_subscription.
Qed.

Lemma vouch_dispatch_frame sdk now event db db' :
  VouchServer.dispatch sdk now event db = Ok db' -> Effect only_subscription db db'.
Proof.
  unfold VouchServer.dispatch, VouchServer.handleCheckoutSessionCompleted,
    VouchServer.update_metadata_user,
    VouchServer.handleSubscriptionUpdated, VouchServer.handleSubscriptionDeleted,
    VouchServer.handlePaymentSucceeded, VouchServer.handlePaymentFailed.
  intros H. repeat case_match; simplify_eq; effect only_subscription.
Qed.

Lemma vouch_step_frame sdk secret now op db :
  Effect only_subscription db (VouchServer.step sdk secret now op db).2.
Proof.
  destruct op; simpl.
  - unfold VouchServer.api_login. effect only_subscription.
  - unfold VouchServer.api_signup. effect only_subscription.
  - unfold VouchServer.api_reset_hwid. effect only_subscription.
  - unfold VouchServer.api_stripe_create_checkout_session. effect only_subscription.
  - unfold VouchServer.api_stripe_webhook.
    repeat case_match; simpl; try (apply Unchanged; reflexivity).
    eapply vouch_dispatch_frame; eassumption.
  - unfold VouchServer.api_subscription_cancel. effect only_subscription.
Qed.

(** X6: each request writes its own fields.  In the license-gated server an
    account that exists stays, and a request either leaves it as it was or
    changes what [license_frame] allows: the payment routes (checkout
    session, webhook, cancellation) write [subscription] and nothing else, the
    two logins never write [subscription], the web login touches neither the
    hardware lock nor the login counter, and the administrative reset clears
    [hwid] and [hwidLockedAt] only.  In the server with the vouch API no request at all
    writes a field other than [subscription]: its self-service reset clears
    [subscription.hwid], and the fields [hwid] and [hwidLockedAt] of an
    account are never written. *)
Theorem requests_write_their_own_fields :
  (forall sdk secret now op db id d,
     db !! id = Some d ->
     exists d', (LicenseServer.step sdk secret now op db).2 !! id = Some d' /\
                (d' = d \/ license_frame op d d')) /\
  (forall sdk secret now op db id d,
     db !! id = Some d ->
     exists d', (VouchServer.step sdk secret now op db).2 !! id = Some d' /\
                d' = Schema.set_subscription (Schema.subscription d') d).
Proof.
  split.
  - intros sdk secret now op db id d Hd.
    destruct (Effect_kept _ _ _ _ _ (license_step_frame sdk secret now op db) Hd)
      as (d' & Hd' & _ & Hr).
    exists d'. auto.
  - intros sdk secret now op db id d Hd.
    destruct (Effect_kept _ _ _ _ _ (vouch_step_frame sdk secret now op db) Hd)
      as (d' & Hd' & _ & [-> | Hr]).
    + exists d. split; [exact Hd' |]. destruct d; reflexivity.
    + exists d'. auto.
Qed.

(** ** X7: events that concern no account *)

Lemma customer_query_unknown c (db : gmap string Schema.User) :
  (forall id u, db !! id = Some u ->
     Schema.subscription u ≫= Schema.stripeCustomerId <> Some c) ->
  Firestore.where_limit1
    (fun u => strictEq (Schema.subscription u ≫= Schema.stripeCustomerId) c) db = None.
Proof.
  intros H. apply where_limit1_None_iff. intros id u Hu.
  apply strictEq_false. eauto.
Qed.

Lemma find_none_modify_first {A : Type} (p : A -> bool) f xs :
  (forall x, In x xs -> p x = false) -> modify_first p f xs = xs.
Proof.
  intros H. apply modify_first_none.
  destruct (List.find p xs) as [x|] eqn:E; [| reflexivity].
  apply find_some in E as [Hin Hp]. rewrite (H _ Hin) in Hp. discriminate.
Qed.

Ltac outside :=
  intros Hnot; exfalso; apply Hnot; unfold firestore_event_types; simpl;
  repeat match goal with H : String.eqb _ _ = true |- _ =>
    apply String.eqb_eq in H end; auto 10.

Lemma license_dispatch_unknown sdk now event db c :
  Stripe.type event <> "checkout.session.completed" ->
  Stripe.customer (Stripe.object event) = Some c ->
  (forall id u, db !! id = Some u ->
     Schema.subscription u ≫= Schema.stripeCustomerId <> Some c) ->
  LicenseServer.dispatch sdk now event db = Ok db.
Proof.
  intros Hty Ec Hun. apply String.eqb_neq in Hty.
  unfold LicenseServer.dispatch. rewrite Hty.
  unfold LicenseServer.handleSubscriptionUpdated, LicenseServer.handleSubscriptionDeleted,
    LicenseServer.handlePaymentSucceeded, LicenseServer.handlePaymentFailed,
    LicenseServer.getUserByCustomerId, LicenseServer.customerIdOf.
  rewrite Ec, (customer_query_unknown c db Hun).
  repeat case_match; reflexivity.
Qed.

Lemma license_dispatch_anonymous sdk now event db :
  Stripe.type event <> "checkout.session.completed" ->
  Stripe.customer (Stripe.object event) = None ->
  (LicenseServer.dispatch sdk now event db = Ok db \/
   LicenseServer.dispatch sdk now event db = Throw) /\
  (~ In (Stripe.type event) firestore_event_types ->
   LicenseServer.dispatch sdk now event db = Ok db).
Proof.
  intros Hty Ec. apply String.eqb_neq in Hty.
  unfold LicenseServer.dispatch. rewrite Hty.
  unfold LicenseServer.handleSubscriptionUpdated, LicenseServer.handleSubscriptionDeleted,
    LicenseServer.handlePaymentSucceeded, LicenseServer.handlePaymentFailed.
  rewrite Ec.
  repeat case_match; (split; [auto |]); try reflexivity; outside.
Qed.

Lemma vouch_dispatch_unknown sdk now event db c :
  Stripe.type event <> "checkout.session.completed" ->
  Stripe.customer (Stripe.object event) = Some c ->
  (forall id u, db !! id = Some u ->
     Schema.subscription u ≫= Schema.stripeCustomerId <> Some c) ->
  VouchServer.dispatch sdk now event db = Ok db.
Proof.
  intros Hty Ec Hun. apply String.eqb_neq in Hty.
  unfold VouchServer.dispatch. rewrite Hty.
  unfold VouchServer.handleSubscriptionUpdated, VouchServer.handleSubscriptionDeleted,
    VouchServer.handlePaymentSucceeded, VouchServer.handlePaymentFailed,
    VouchServer.getUserByCustomerId.
  rewrite Ec, (customer_query_unknown c db Hun).
  repeat case_match; reflexivity.
Qed.

Lemma vouch_dispatch_anonymous sdk now event db :
  Stripe.type event <> "checkout.session.completed" ->
  Stripe.customer (Stripe.object event) = None ->
  (VouchServer.dispatch sdk now event db = Ok db \/
   VouchServer.dispatch sdk now event db = Throw) /\
  (~ In (Stripe.type event) firestore_event_types ->
   VouchServer.dispatch sdk now event db = Ok db).
Proof.
  intros Hty Ec. apply String.eqb_neq in Hty.
  unfold VouchServer.dispatch. rewrite Hty.
  unfold VouchServer.handleSubscriptionUpdated, VouchServer.handleSubscriptionDeleted,
    VouchServer.handlePaymentSucceeded, VouchServer.handlePaymentFailed.
  rewrite Ec.
  repeat case_match; (split; [auto |]); try reflexivity; outside.
Qed.

(** X7: an authentic event that concerns no account is acknowledged and
    changes nothing.  In the two Firestore servers an event other than
    [checkout.session.completed] whose customer no account holds leaves the
    collection as it is, and the answer is [{received: true}] when the event
    names a customer or has a type outside the five that are handled.  In the
    flat-file server an event is acknowledged without a write when its type is
    not one of the two it handles, when it is a completed checkout for a user
    id that no account has, or a deleted subscription whose id no account
    has. *)
Theorem events_without_account_are_acknowledged :
  (forall sdk now body sig secret db event,
     Stripe.constructEvent sdk body sig secret = Some event ->
     Stripe.type event <> "checkout.session.completed" ->
     customer_unknown event db ->
     let r := LicenseServer.api_stripe_webhook sdk now body sig secret db in
     r.2 = db /\
     (is_Some (Stripe.customer (Stripe.object event)) \/
      ~ In (Stripe.type event) firestore_event_types -> r.1 = received)) /\
  (forall sdk now body sig secret db event,
     Stripe.constructEvent sdk body sig secret = Some event ->
     Stripe.type event <> "checkout.session.completed" ->
     customer_unknown event db ->
     let r := VouchServer.api_stripe_webhook sdk now body sig secret db in
     r.2 = db /\
     (is_Some (Stripe.customer (Stripe.object event)) \/
      ~ In (Stripe.type event) firestore_event_types -> r.1 = received)) /\
  (forall sdk now body sig secret users event,
     Stripe.constructEvent sdk body sig secret = Some event ->
     (~ In (Stripe.type event) file_event_types \/
      (Stripe.type event = "checkout.session.completed" /\
       forall u, In u users ->
         Stripe.userId (Stripe.metadata (Stripe.object event)) <> Some (FileServer.id u)) \/
      (Stripe.type event = "customer.subscription.deleted" /\
       forall u, In u users ->
         FileServer.hasSubscriptionId (Stripe.id (Stripe.object event)) u = false)) ->
     FileServer.api_stripe_webhook sdk now body sig secret users = (received, users)).
Proof.
  split; [| split].
  - intros sdk now body sig secret db event Hev Hty Hun. cbv zeta.
    unfold LicenseServer.api_stripe_webhook. rewrite Hev.
    destruct (Stripe.customer (Stripe.object event)) as [c|] eqn:Ec.
    + rewrite (license_dispatch_unknown sdk now event db c Hty Ec)
        by (intros id u Hu; eapply Hun; eauto).
      auto.
    + destruct (license_dispatch_anonymous sdk now event db Hty Ec) as [[-> | ->] Hout];
        simpl; (split; [reflexivity |]); intros [[x [=]] | Hnot]; try reflexivity.
      discriminate (Hout Hnot).
  - intros sdk now body sig secret db event Hev Hty Hun. cbv zeta.
    unfold VouchServer.api_stripe_webhook. rewrite Hev.
    destruct (Stripe.customer (Stripe.object event)) as [c|] eqn:Ec.
    + rewrite (vouch_dispatch_unknown sdk now event db c Hty Ec)
        by (intros id u Hu; eapply Hun; eauto).
      auto.
    + destruct (vouch_dispatch_anonymous sdk now event db Hty Ec) as [[-> | ->] Hout];
        simpl; (split; [reflexivity |]); intros [[x [=]] | Hnot]; try reflexivity.
      discriminate (Hout Hnot).
  - intros sdk now body sig secret users event Hev Hcase.
    unfold FileServer.api_stripe_webhook. rewrite Hev. cbv zeta.
    unfold file_event_types in Hcase.
    destruct Hcase as [Hnot | [[Hty Hid] | [Hty Hid]]].
    + destruct (String.eqb (Stripe.type event) "checkout.session.completed") eqn:E1.
      { exfalso. apply Hnot. apply String.eqb_eq in E1. simpl. auto. }
      destruct (String.eqb (Stripe.type event) "customer.subscription.deleted") eqn:E2.
      { exfalso. apply Hnot. apply String.eqb_eq in E2. simpl. auto. }
      reflexivity.
    + rewrite Hty. simpl. f_equal. apply find_none_modify_first.
      intros u Hu. apply strictEq_false. auto.
    + rewrite Hty. simpl.
      destruct (List.find _ users) as [x|] eqn:E; [| reflexivity].
      apply find_some in E as [Hin Hp]. rewrite (Hid _ Hin) in Hp. discriminate.
Qed.

(** ** X8 to X12: requests in sequence *)

(** A query that only one document satisfies returns that document. *)
Lemma where_limit1_unique {Doc : Type} (p : Doc -> bool) (c : gmap string Doc) id d :
  c !! id = Some d -> p d = true ->
  (forall id2 d2, c !! id2 = Some d2 -> p d2 = true -> id2 = id) ->
  Firestore.where_limit1 p c = Some (id, d).
Proof.
  intros Hd Hp Hu.
  destruct (Firestore.where_limit1 p c) as [[i e]|] eqn:E.
  - apply where_limit1_Some in E as [He Hpe].
    pose proof (Hu _ _ He Hpe) as ->. congruence.
  - rewrite (where_limit1_None _ _ _ _ E Hd) in Hp. discriminate.
Qed.

Lemma username_lookup_unique db id u :
  unique_usernames db -> db !! id = Some u ->
  LicenseServer.getUserByUsername (Schema.username u) db = Some (id, u).
Proof.
  intros Hu Hd. apply where_limit1_unique; [exact Hd | apply String.eqb_refl |].
  intros id2 d2 H2 Hp. apply String.eqb_eq in Hp. eapply Hu; eauto.
Qed.

Lemma unique_usernames_update db id u u' :
  unique_usernames db -> db !! id = Some u -> Schema.username u' = Schema.username u ->
  unique_usernames (<[id := u']> db).
Proof.
  intros Hu Hd Hn id1 id2 u1 u2 H1 H2 Heq.
  rewrite lookup_insert in H1, H2.
  repeat case_decide; simplify_eq; try reflexivity.
  - rewrite Hn in Heq. eapply Hu; eauto.
  - rewrite Hn in Heq. eapply Hu; eauto.
  - eapply Hu; eauto.
Qed.

(** The client login of the license-gated server, once the account that
    carries the username is known. *)
Lemma license_login_resolved db id u pass h now :
  unique_usernames db -> db !! id = Some u ->
  LicenseServer.api_login (Some (Schema.username u)) pass h now db
  = if negb (truthy (Some (Schema.username u))) || negb (truthy pass) || negb (truthy h)
    then (json 400 false "Missing required fields", db)
    else if negb (strictEq pass (Schema.password u))
    then (json 401 false "Invalid credentials", db)
    else if Schema.notActive u
    then (json 403 false "No active license. Please purchase a subscription.", db)
    else if truthy (Schema.hwid u) && negb (strictEqOpt (Schema.hwid u) h)
    then (json 403 false "Hardware mismatch. Contact administrator.", db)
    else (json 200 true "Login successful",
          <[id := LicenseServer.login_updates u h now u]> db).
Proof.
  intros Hu Hd. unfold LicenseServer.api_login.
  change (default "" (Some (Schema.username u))) with (Schema.username u).
  rewrite (username_lookup_unique db id u Hu Hd).
  unfold LicenseServer.updateUser. rewrite (doc_update_Some _ _ _ _ Hd).
  reflexivity.
Qed.

(** X12: the cooldown of the self-service reset, across two requests.  After
    a reset that succeeded at the instant [now], a second reset of the same
    session is refused without a write while fewer than seven days of
    milliseconds have passed, with the message that names the days left to
    wait, a number from one to seven when the clock has not run backwards;
    from seven days on the second reset succeeds, clears the fingerprint
    again and records its own instant. *)
Theorem reset_cooldown_runs_from_last_reset (session : option string)
    (now : Timestamp) (db : gmap string Schema.User) :
  let r := VouchServer.api_reset_hwid session now db in
  success r.1 = Some true ->
  forall now2,
    (now2 - now < VouchServer.cooldown ->
     VouchServer.api_reset_hwid session now2 r.2
     = (json 200 false
          ("HWID can only be reset once every 7 days. Please wait "
           +:+ toString (VouchServer.daysRemaining now2 now) +:+ " more day(s)."),
        r.2) /\
     (0 <= now2 - now -> 1 <= VouchServer.daysRemaining now2 now <= 7)) /\
    (VouchServer.cooldown <= now2 - now ->
     exists u,
       r.2 !! default "" session = Some u /\
       VouchServer.api_reset_hwid session now2 r.2
       = (json 200 true "HWID reset successfully",
          <[default "" session :=
              Schema.upd_subscription
                (fun s => Schema.set_lastHwidReset (Some now2)
                            (Schema.set_sub_hwid None s)) u]> r.2)).
Proof.
  cbv zeta. intros Hok.
  assert (exists u,
            db !! default "" session = Some u /\ negb (truthy session) = false /\
            Schema.notActive u = false /\
            VouchServer.api_reset_hwid session now db
            = (json 200 true "HWID reset successfully",
               <[default "" session :=
                   Schema.upd_subscription
                     (fun s => Schema.set_lastHwidReset (Some now)
                                 (Schema.set_sub_hwid None s)) u]> db))
    as (u & Eu & Es & Ea & ->).
  { revert Hok. unfold VouchServer.api_reset_hwid, Firestore.doc_get.
    destruct (negb (truthy session)) eqn:Es; [discriminate |].
    destruct (db !! default "" session) as [u|] eqn:Eu; [| discriminate].
    destruct (Schema.notActive u) eqn:Ea; [discriminate |].
    rewrite (doc_update_Some _ _ _ _ Eu). cbv zeta.
    match goal with
    | |- context [match ?x with Some _ => _ | None => _ end] => destruct x as [l|]
    end;
      [destruct (now - l <? VouchServer.cooldown)%Z; [simpl; discriminate |] |];
      eauto 10. }
  simpl. intros now2.
  unfold VouchServer.api_reset_hwid. rewrite Es. unfold Firestore.doc_get.
  rewrite lookup_insert_eq.
  assert (Schema.notActive
            (Schema.upd_subscription
               (fun s => Schema.set_lastHwidReset (Some now) (Schema.set_sub_hwid None s)) u)
          = false) as ->.
  { revert Ea. unfold Schema.notActive.
    destruct (Schema.subscription u) as [s|] eqn:E; [| discriminate].
    simpl. rewrite E. destruct s; simpl. auto. }
  cbv zeta.
  match goal with
  | |- context [match ?x with Some _ => _ | None => _ end] =>
    assert (x = Some now) as ->
  end.
  { reflexivity. }
  split; intros Hlt.
  - split.
    + apply Z.ltb_lt in Hlt. rewrite Hlt. reflexivity.
    + intros H0. unfold VouchServer.daysRemaining.
      unfold VouchServer.cooldown in Hlt.
      assert (0 <= (now2 - now) / (1000 * 60 * 60 * 24)) by (apply Z.div_pos; lia).
      assert ((now2 - now) / (1000 * 60 * 60 * 24) < 7)
        by (apply Z.div_lt_upper_bound; lia).
      lia.
  - apply Z.ltb_ge in Hlt. rewrite Hlt.
    unfold Firestore.doc_update. rewrite lookup_insert_eq. eauto.
Qed.

(** An account resets at the instant 1000; the next reset is refused six
    days later, with one more day to wait, and accepted after eight. *)
Lemma reset_cooldown_runs_from_last_reset_witness :
  let r := VouchServer.api_reset_hwid (Some "u1") 1000 Examples.db_alice in
  VouchServer.api_reset_hwid (Some "u1") (6 * 86400000 + 1000) r.2
  = (json 200 false
       "HWID can only be reset once every 7 days. Please wait 1 more day(s).",
     r.2) /\
  (exists u,
     r.2 !! "u1" = Some u /\
     VouchServer.api_reset_hwid (Some "u1") (8 * 86400000 + 1000) r.2
     = (json 200 true "HWID reset successfully",
        <["u1" :=
            Schema.upd_subscription
              (fun s => Schema.set_lastHwidReset (Some (8 * 86400000 + 1000))
                          (Schema.set_sub_hwid None s)) u]> r.2)).
Proof.
  cbv zeta.
  pose proof (reset_cooldown_runs_from_last_reset (Some "u1") 1000
                Examples.db_alice) as H.
  cbv zeta in H.
  assert (success (VouchServer.api_reset_hwid (Some "u1") 1000 Examples.db_alice).1
          = Some true) as Hok by (vm_compute; reflexivity).
  split.
  - destruct (H Hok (6 * 86400000 + 1000)) as [Hl _].
    destruct Hl as [Hl _]; [vm_compute; reflexivity |].
    rewrite Hl. reflexivity.
  - destruct (H Hok (8 * 86400000 + 1000)) as [_ Hr].
    apply Hr. vm_compute. discriminate.
Defined.

Lemma customer_lookup_unique db id u c :
  unique_customers db -> db !! id = Some u ->
  Schema.subscription u ≫= Schema.stripeCustomerId = Some c ->
  Firestore.where_limit1
    (fun u => strictEq (Schema.subscription u ≫= Schema.stripeCustomerId) c) db
  = Some (id, u).
Proof.
  intros Hu Hd Hc. apply where_limit1_unique; [exact Hd | apply strictEq_true; exact Hc |].
  intros id2 d2 H2 Hp. apply strictEq_true in Hp. eapply Hu; eauto.
Qed.

Lemma unique_customers_update db id u u' :
  unique_customers db -> db !! id = Some u ->
  Schema.subscription u' ≫= Schema.stripeCustomerId
  = Schema.subscription u ≫= Schema.stripeCustomerId ->
  unique_customers (<[id := u']> db).
Proof.
  intros Hu Hd Hn id1 id2 u1 u2 c H1 H2 E1 E2.
  rewrite lookup_insert in H1, H2.
  repeat case_decide; simplify_eq; try reflexivity.
  all: try rewrite Hn in E1; try rewrite Hn in E2; eapply Hu; eauto.
Qed.

Lemma status_update_keeps_customer st t u c :
  Schema.subscription u ≫= Schema.stripeCustomerId = Some c ->
  Schema.subscription
    (Schema.upd_subscription
       (fun s => Schema.set_currentPeriodEnd (Some t) (Schema.set_status (Some st) s)) u)
    ≫= Schema.stripeCustomerId = Some c.
Proof.
  destruct (Schema.subscription u) as [s|] eqn:E; [| discriminate].
  unfold Schema.upd_subscription. simpl. rewrite E. destruct s; simpl. auto.
Qed.

Lemma subscription_updated_twice (db : gmap string Schema.User) c st t :
  unique_customers db ->
  let handler :=
    fun db =>
      match Firestore.where_limit1
              (fun u => strictEq (Schema.subscription u ≫= Schema.stripeCustomerId) c) db with
      | None => Ok db
      | Some (userId, _) =>
        Firestore.doc_update userId
          (Schema.upd_subscription
             (fun s => Schema.set_currentPeriodEnd (Some t)
                         (Schema.set_status (Some st) s))) db
      end in
  bind (handler db) handler = handler db.
Proof.
  intros Hu handler. unfold handler.
  destruct (Firestore.where_limit1 _ db) as [[id u]|] eqn:E; simpl.
  - apply where_limit1_Some in E as [Hd Hp]. apply strictEq_true in Hp.
    rewrite (doc_update_Some _ _ _ _ Hd). simpl.
    rewrite (customer_lookup_unique _ id
               (Schema.upd_subscription
                  (fun s => Schema.set_currentPeriodEnd (Some t)
                              (Schema.set_status (Some st) s)) u) c).
    + unfold Firestore.doc_update. rewrite lookup_insert_eq, insert_insert_eq.
      reflexivity.
    + eapply unique_customers_update; eauto.
      rewrite Hp. apply status_update_keeps_customer. exact Hp.
    + apply lookup_insert_eq.
    + apply status_update_keeps_customer. exact Hp.
  - rewrite E. reflexivity.
Qed.

(** X9: a [customer.subscription.updated] event delivered twice has the
    effect of one delivery, in both Firestore servers, when at most one
    account holds each customer id: the second run finds the same account
    and stores the same status and period end, and a delivery that fails
    fails again without a write. *)
Theorem subscription_updated_replay_is_idempotent sdk now now' event
    (db : gmap string Schema.User) :
  Stripe.type event = "customer.subscription.updated" ->
  unique_customers db ->
  bind (LicenseServer.dispatch sdk now event db) (LicenseServer.dispatch sdk now' event)
  = LicenseServer.dispatch sdk now event db /\
  bind (VouchServer.dispatch sdk now event db) (VouchServer.dispatch sdk now' event)
  = VouchServer.dispatch sdk now event db.
Proof.
  intros Hty Hu.
  unfold LicenseServer.dispatch, VouchServer.dispatch. rewrite Hty. simpl.
  unfold LicenseServer.handleSubscriptionUpdated, VouchServer.handleSubscriptionUpdated,
    LicenseServer.getUserByCustomerId, VouchServer.getUserByCustomerId,
    LicenseServer.customerIdOf, LicenseServer.updateUser.
  destruct (Stripe.customer (Stripe.object event)) as [c|]; [| split; reflexivity].
  destruct (Stripe.status (Stripe.object event)) as [st|],
           (Stripe.current_period_end (Stripe.object event)) as [t|].
  - split; apply (subscription_updated_twice db c st (t * 1000) Hu).
  - split; destruct (Firestore.where_limit1 _ db) as [[id u]|] eqn:E; simpl;
      try rewrite E; reflexivity.
  - split; destruct (Firestore.where_limit1 _ db) as [[id u]|] eqn:E; simpl;
      try rewrite E; reflexivity.
  - split; destruct (Firestore.where_limit1 _ db) as [[id u]|] eqn:E; simpl;
      try rewrite E; reflexivity.
Qed.

Lemma unique_usernames_singleton id (u : Schema.User) : unique_usernames {[ id := u ]}.
Proof.
  intros id1 id2 u1 u2 H1 H2 _.
  apply lookup_singleton_Some in H1 as [<- _].
  apply lookup_singleton_Some in H2 as [<- _]. reflexivity.
Qed.

Lemma unique_customers_singleton id (u : Schema.User) : unique_customers {[ id := u ]}.
Proof.
  intros id1 id2 u1 u2 c H1 H2 _ _.
  apply lookup_singleton_Some in H1 as [<- _].
  apply lookup_singleton_Some in H2 as [<- _]. reflexivity.
Qed.

(** The customer [cus_1] is held by one account; its update is delivered
    twice. *)
Lemma subscription_updated_replay_is_idempotent_witness :
  bind (LicenseServer.dispatch Examples.sdk 100 Examples.subscription_updated
          Examples.db_alice)
       (LicenseServer.dispatch Examples.sdk 200 Examples.subscription_updated)
  = LicenseServer.dispatch Examples.sdk 100 Examples.subscription_updated
      Examples.db_alice /\
  bind (VouchServer.dispatch Examples.sdk 100 Examples.subscription_updated
          Examples.db_alice)
       (VouchServer.dispatch Examples.sdk 200 Examples.subscription_updated)
  = VouchServer.dispatch Examples.sdk 100 Examples.subscription_updated
      Examples.db_alice.
Proof.
  apply (subscription_updated_replay_is_idempotent Examples.sdk 100 200
           Examples.subscription_updated Examples.db_alice).
  - reflexivity.
  - apply unique_customers_singleton.
Defined.

(** ** X8: the end of a license *)

Lemma not_active_turned_away db id u u' :
  unique_usernames db -> db !! id = Some u' ->
  Schema.username u' = Schema.username u -> Schema.password u' = Schema.password u ->
  Schema.notActive u' = true ->
  turned_away u db.
Proof.
  intros Hu Hd Hn Hp Ha pass h now. cbv zeta.
  rewrite <- Hn, <- Hp.
  rewrite (license_login_resolved db id u' pass h now Hu Hd), Ha.
  unfold refused.
  destruct (negb (truthy (Some (Schema.username u'))) || negb (truthy pass)
            || negb (truthy h)) eqn:E1.
  - split; [reflexivity |]. split; [reflexivity |].
    intros H1 H2 H3 _. rewrite H1, H2, H3 in E1. discriminate.
  - destruct (negb (strictEq pass (Schema.password u'))) eqn:E2.
    + split; [reflexivity |]. split; [reflexivity |].
      intros _ _ _ ->. simpl in E2. rewrite String.eqb_refl in E2. discriminate.
    + auto.
Qed.

Lemma cancelled_notActive now u :
  Schema.notActive
    (Schema.upd_subscription
       (fun s => Schema.set_cancelledAt (Some now) (Schema.set_status (Some "cancelled") s))
       u) = true.
Proof. reflexivity. Qed.

(** X8: a cancellation ends the access at once.  In the license-gated
    server, with usernames unique, once the cancel route has answered success
    for the session of an account, or a [customer.subscription.deleted] event
    has been handled for the account that holds its customer, the client
    login of that account is refused without a write whatever it sends, with
    the 403 of the license gate when the password is right, although the
    cancel route answers that access continues to the end of the period. *)
Theorem cancellation_ends_access :
  (forall sdk id now db,
     unique_usernames db ->
     success (LicenseServer.api_stripe_cancel_subscription sdk (Some id) now db).1
     = Some true ->
     exists u, db !! id = Some u /\
       turned_away u (LicenseServer.api_stripe_cancel_subscription sdk (Some id) now db).2) /\
  (forall sdk now body sig secret db event c id u,
     unique_usernames db ->
     Stripe.constructEvent sdk body sig secret = Some event ->
     Stripe.type event = "customer.subscription.deleted" ->
     Stripe.customer (Stripe.object event) = Some c ->
     LicenseServer.getUserByCustomerId c db = Some (id, u) ->
     (LicenseServer.api_stripe_webhook sdk now body sig secret db).1 = received /\
     turned_away u (LicenseServer.api_stripe_webhook sdk now body sig secret db).2).
Proof.
  split.
  - intros sdk id now db Hu.
    unfold LicenseServer.api_stripe_cancel_subscription, LicenseServer.getUserById,
      LicenseServer.updateUser, Firestore.doc_get.
    change (default "" (Some id)) with id.
    destruct (negb (LicenseServer.requireAuth (Some id))); [discriminate |].
    destruct (db !! id) as [u|] eqn:Eu; [| discriminate].
    destruct (negb (truthy (LicenseServer.subscriptionIdOf u))); [discriminate |].
    destruct (negb (Stripe.subscriptions_update sdk _)); [discriminate |].
    rewrite (doc_update_Some _ _ _ _ Eu). simpl. intros _.
    exists u. split; [reflexivity |].
    eapply not_active_turned_away.
    + eapply unique_usernames_update; eauto; reflexivity.
    + apply lookup_insert_eq.
    + reflexivity.
    + reflexivity.
    + apply cancelled_notActive.
  - intros sdk now body sig secret db event c id u Hu Hev Hty Hc Hget.
    unfold LicenseServer.api_stripe_webhook, LicenseServer.dispatch. rewrite Hev, Hty.
    simpl. unfold LicenseServer.handleSubscriptionDeleted. rewrite Hc, Hget.
    apply where_limit1_Some in Hget as [Hd _].
    unfold LicenseServer.updateUser. rewrite (doc_update_Some _ _ _ _ Hd). simpl.
    split; [reflexivity |].
    eapply not_active_turned_away.
    + eapply unique_usernames_update; eauto; reflexivity.
    + apply lookup_insert_eq.
    + reflexivity.
    + reflexivity.
    + apply cancelled_notActive.
Qed.

(** [alice], whose monthly license is active, cancels; her next login is
    turned away. *)
Lemma cancellation_ends_access_witness :
  exists u, Examples.db_alice !! "u1" = Some u /\
    turned_away u
      (LicenseServer.api_stripe_cancel_subscription Examples.sdk (Some "u1") 100
         Examples.db_alice).2.
Proof.
  apply (proj1 cancellation_ends_access Examples.sdk "u1" 100 Examples.db_alice).
  - apply unique_usernames_singleton.
  - vm_compute. reflexivity.
Defined.

(** ** X10 and X11: the hardware lock across requests *)

Lemma license_reset_resolved db id u :
  unique_usernames db -> db !! id = Some u ->
  LicenseServer.api_reset_hwid (Some (Schema.username u)) db
  = if negb (truthy (Some (Schema.username u)))
    then (json 400 false "Username required", db)
    else if negb (truthy (Schema.hwid u))
    then (json 400 false "User is not hardware locked", db)
    else (json 200 true ("Hardware lock reset for " +:+ Schema.username u),
          <[id := Schema.set_hwid None None u]> db).
Proof.
  intros Hu Hd. unfold LicenseServer.api_reset_hwid.
  change (default "" (Some (Schema.username u))) with (Schema.username u).
  rewrite (username_lookup_unique db id u Hu Hd).
  unfold LicenseServer.updateUser. rewrite (doc_update_Some _ _ _ _ Hd).
  reflexivity.
Qed.

Lemma login_updates_fields user h now d :
  Schema.username (LicenseServer.login_updates user h now d) = Schema.username d /\
  Schema.password (LicenseServer.login_updates user h now d) = Schema.password d /\
  Schema.subscription (LicenseServer.login_updates user h now d) = Schema.subscription d /\
  Schema.hwid (LicenseServer.login_updates user h now d)
  = (if negb (truthy (Schema.hwid user)) then h else Schema.hwid d) /\
  Schema.hwidLockedAt (LicenseServer.login_updates user h now d)
  = (if negb (truthy (Schema.hwid user)) then Some now else Schema.hwidLockedAt d).
Proof.
  unfold LicenseServer.login_updates.
  destruct (negb (truthy (Schema.hwid user))); simpl; auto.
Qed.

Lemma notActive_subscription u u' :
  Schema.subscription u' = Schema.subscription u ->
  Schema.notActive u' = Schema.notActive u.
Proof. unfold Schema.notActive. intros ->. reflexivity. Qed.

(** What a successful client login says of the request and of the account. *)
Lemma license_login_success db id u pass h now :
  unique_usernames db -> db !! id = Some u ->
  success (LicenseServer.api_login (Some (Schema.username u)) pass h now db).1
  = Some true ->
  truthy (Some (Schema.username u)) = true /\ truthy h = true /\
  pass = Some (Schema.password u) /\ Schema.password u <> "" /\
  Schema.notActive u = false /\
  (truthy (Schema.hwid u) = true -> Schema.hwid u = h) /\
  LicenseServer.api_login (Some (Schema.username u)) pass h now db
  = (json 200 true "Login successful",
     <[id := LicenseServer.login_updates u h now u]> db).
Proof.
  intros Hu Hd. rewrite (license_login_resolved db id u pass h now Hu Hd).
  destruct (truthy (Some (Schema.username u))) eqn:E1; [| discriminate].
  destruct (truthy pass) eqn:E2; [| discriminate].
  destruct (truthy h) eqn:E3; [| discriminate].
  cbn [negb orb].
  destruct (strictEq pass (Schema.password u)) eqn:E4; [| discriminate].
  cbn [negb].
  destruct (Schema.notActive u) eqn:E5; [discriminate |].
  destruct (truthy (Schema.hwid u)) eqn:E6; cbn [andb].
  - destruct (strictEqOpt (Schema.hwid u) h) eqn:E7; [| discriminate].
    cbn [negb]. intros _. apply strictEq_true in E4. apply strictEqOpt_true in E7.
    repeat split; auto. subst pass. apply truthy_Some. exact E2.
  - intros _. apply strictEq_true in E4.
    repeat split; auto; try discriminate. subst pass. apply truthy_Some. exact E2.
Qed.

(** X10: the hardware lock of the license-gated server across requests, with
    usernames unique.  After a client login that succeeded with the
    fingerprint [h], the account carries [h]; a later login of the same
    account with another fingerprint is answered 403 without a write, one with
    [h] succeeds and keeps the instant of the lock; the administrative reset
    then clears the lock, after which a login with any fingerprint succeeds and
    binds the account to it at the instant of that login. *)
Theorem lock_life_cycle db id u pass h now :
  unique_usernames db -> db !! id = Some u ->
  success (LicenseServer.api_login (Some (Schema.username u)) pass h now db).1
  = Some true ->
  lock_cycle db id u pass h now.
Proof.
  intros Hu Hd Hok. unfold lock_cycle. cbv zeta.
  destruct (license_login_success db id u pass h now Hu Hd Hok)
    as (Hname & Hh & -> & Hpass & Hact & Hlock & Heq).
  rewrite Heq. cbn [snd].
  destruct (login_updates_fields u h now u) as (Fn & Fp & Fs & Fh & Fl).
  remember (LicenseServer.login_updates u h now u) as u1 eqn:Eu1.
  assert (Schema.hwid u1 = h) as Hh1.
  { rewrite Fh. destruct (truthy (Schema.hwid u)) eqn:E; simpl; auto. }
  assert (unique_usernames (<[id := u1]> db)) as Hu1
    by (eapply unique_usernames_update; eauto).
  assert ((<[id := u1]> db) !! id = Some u1) as Hd1 by apply lookup_insert_eq.
  assert (Schema.notActive u1 = false) as Hact1
    by (rewrite (notActive_subscription u u1 Fs); exact Hact).
  assert (strictEq (Some (Schema.password u)) (Schema.password u1) = true) as Hpw
    by (rewrite Fp; simpl; apply String.eqb_refl).
  assert (truthy (Some (Schema.password u)) = true) as Hpt
    by (apply truthy_Some; exact Hpass).
  exists u1. split; [reflexivity |]. split; [exact Hh1 |].
  split; [| split; [| split]].
  - intros h2 now2 Hh2 Hne.
    pose proof (license_login_resolved _ id u1 (Some (Schema.password u)) h2 now2 Hu1 Hd1)
      as H.
    rewrite Fn in H. rewrite H, Hname, Hpt, Hh2, Hpw, Hact1, Hh1, Hh. simpl.
    assert (strictEqOpt h h2 = false) as ->; [| reflexivity].
    destruct (strictEqOpt h h2) eqn:E; [| reflexivity].
    apply strictEqOpt_true in E. congruence.
  - intros now2.
    pose proof (license_login_resolved _ id u1 (Some (Schema.password u)) h now2 Hu1 Hd1)
      as H.
    rewrite Fn in H. rewrite H, Hname, Hpt, Hh, Hpw, Hact1, Hh1, Hh. simpl.
    assert (strictEqOpt h h = true) as -> by (apply strictEqOpt_true; reflexivity).
    simpl. eexists. split; [reflexivity |].
    destruct (login_updates_fields u1 h now2 u1) as (_ & _ & _ & Gh & Gl).
    rewrite Gh, Gl, Hh1, Hh. simpl. auto.
  - pose proof (license_reset_resolved _ id u1 Hu1 Hd1) as H.
    rewrite Fn in H. rewrite H, Hname, Hh1, Hh. reflexivity.
  - intros h2 now2 Hh2.
    pose proof (license_reset_resolved _ id u1 Hu1 Hd1) as H.
    rewrite Fn in H. rewrite H, Hname, Hh1, Hh. cbn [negb snd].
    rewrite insert_insert_eq.
    set (u0 := Schema.set_hwid None None u1).
    assert (unique_usernames (<[id := u0]> db)) as Hu0
      by (eapply unique_usernames_update; eauto).
    pose proof (license_login_resolved _ id u0 (Some (Schema.password u)) h2 now2 Hu0
                  (lookup_insert_eq _ _ _)) as H0.
    change (Schema.username u0) with (Schema.username u1) in H0.
    rewrite Fn in H0. rewrite H0, Hname, Hpt, Hh2.
    change (Schema.password u0) with (Schema.password u1). rewrite Hpw.
    rewrite (notActive_subscription u1 u0 eq_refl), Hact1. simpl.
    eexists. split; [reflexivity |].
    destruct (login_updates_fields u0 h2 now2 u0) as (_ & _ & _ & Gh & Gl).
    rewrite Gh, Gl. simpl. auto.
Qed.

(** [alice] logs in from [HW-1]. *)
Lemma lock_life_cycle_witness :
  lock_cycle Examples.db_alice "u1" Examples.alice (Some "secret1") (Some "HW-1") 100.
Proof.
  apply lock_life_cycle.
  - apply unique_usernames_singleton.
  - reflexivity.
  - vm_compute. reflexivity.
Defined.

(** ** X11: a completed checkout opens the license gate *)

Lemma checkout_updates_active now pkg session pe u :
  Schema.notActive
    (Schema.upd_subscription (LicenseServer.checkout_updates now pkg session pe) u)
  = false.
Proof.
  unfold Schema.upd_subscription, LicenseServer.checkout_updates, Schema.notActive.
  simpl. repeat case_match; reflexivity.
Qed.

(** X11: a completed checkout opens the license gate.  In the license-gated
    server, with usernames unique, an authentic [checkout.session.completed]
    event whose metadata names an existing account and a package is
    acknowledged and writes that account only; afterwards the account is
    active, and its client login with the right password succeeds for every
    fingerprint the hardware lock allows. *)
Theorem checkout_opens_access sdk now body sig secret db event id u pkg h now' :
  unique_usernames db ->
  Stripe.constructEvent sdk body sig secret = Some event ->
  Stripe.type event = "checkout.session.completed" ->
  Stripe.userId (Stripe.metadata (Stripe.object event)) = Some id -> id <> "" ->
  Stripe.packageType (Stripe.metadata (Stripe.object event)) = Some pkg ->
  db !! id = Some u ->
  Schema.username u <> "" -> Schema.password u <> "" -> truthy h = true ->
  truthy (Schema.hwid u) && negb (strictEqOpt (Schema.hwid u) h) = false ->
  let w := LicenseServer.api_stripe_webhook sdk now body sig secret db in
  w.1 = received /\
  (exists u1, w.2 = <[id := u1]> db /\ Schema.notActive u1 = false) /\
  success (LicenseServer.api_login (Some (Schema.username u))
             (Some (Schema.password u)) h now' w.2).1 = Some true.
Proof.
  intros Hu Hev Hty Hid Hne Hpkg Hd Hname Hpass Hh Hlock. cbv zeta.
  unfold LicenseServer.api_stripe_webhook, LicenseServer.dispatch. rewrite Hev, Hty.
  simpl. unfold LicenseServer.handleCheckoutSessionCompleted. rewrite Hid, Hpkg.
  apply truthy_Some in Hne. rewrite Hne. cbn [negb].
  change (default "" (Some id)) with id.
  unfold LicenseServer.updateUser. rewrite (doc_update_Some _ _ _ _ Hd). cbn [fst snd].
  set (u1 := Schema.upd_subscription _ u).
  assert (Schema.notActive u1 = false) as Hact by apply checkout_updates_active.
  split; [reflexivity |]. split; [eauto |].
  assert (unique_usernames (<[id := u1]> db)) as Hu1
    by (eapply unique_usernames_update; eauto; reflexivity).
  pose proof (license_login_resolved _ id u1 (Some (Schema.password u)) h now' Hu1
                (lookup_insert_eq _ _ _)) as H.
  change (Schema.username u1) with (Schema.username u) in H.
  change (Schema.password u1) with (Schema.password u) in H.
  change (Schema.hwid u1) with (Schema.hwid u) in H.
  rewrite H, Hact, Hlock, Hh.
  apply truthy_Some in Hname, Hpass. rewrite Hname, Hpass.
  simpl. rewrite String.eqb_refl. reflexivity.
Qed.

(** [bob], a new account, pays for a month; his login is then admitted. *)
Lemma checkout_opens_access_witness :
  let event := Stripe.mkEvent "checkout.session.completed" (Examples.monthly_checkout "u2") in
  let w := LicenseServer.api_stripe_webhook (Examples.delivering event) 50 "body" None None
             Examples.db_bob in
  w.1 = received /\
  (exists u1, w.2 = <[ "u2" := u1 ]> Examples.db_bob /\ Schema.notActive u1 = false) /\
  success (LicenseServer.api_login (Some (Schema.username Examples.bob))
             (Some (Schema.password Examples.bob)) (Some "HW-2") 60 w.2).1 = Some true.
Proof.
  apply (checkout_opens_access (Examples.delivering _) 50 "body" None None Examples.db_bob
           (Stripe.mkEvent "checkout.session.completed" (Examples.monthly_checkout "u2"))
           "u2" Examples.bob "monthly" (Some "HW-2") 60);
    try reflexivity; try discriminate.
  apply unique_usernames_singleton.
Defined.

(** ** X13 to X16: the vouches *)

Lemma reasonOf_nonempty msg : DiscordBot.reasonOf msg <> "".
Proof.
  unfold DiscordBot.reasonOf.
  destruct (String.eqb (String.concat " " (tail (DiscordBot.args msg))) "") eqn:E.
  - discriminate.
  - apply String.eqb_neq. exact E.
Qed.

Lemma messageCreate_effect cfg m newId now store :
  BotEffect m now store (VouchBot.messageCreate cfg m newId now store).1
    (VouchBot.messageCreate cfg m newId now store).2.
Proof.
  unfold VouchBot.messageCreate.
  destruct (VouchBot.bot m || negb (String.prefix "!" (VouchBot.content m)));
    [apply NoWrite |].
  destruct (VouchBot.command_of (VouchBot.content m)) as [command args] eqn:Ec.
  destruct (String.eqb command "vouch").
  { unfold VouchBot.vouch.
    destruct (truthy cfg && _); [apply NoWrite |].
    destruct (VouchBot.firstMention m) as [target|] eqn:Em; [| apply NoWrite].
    destruct (String.eqb target (VouchBot.sender m)) eqn:Es; [apply NoWrite |].
    cbv zeta.
    destruct (negb (truthy (nth_error args 1))); [apply NoWrite |]. cbn [orb].
    destruct (nth_error args 1 ≫= VouchBot.parseInt) as [n|] eqn:En; [| apply NoWrite].
    destruct ((n <? 1)%Z || (5 <? n)%Z) eqn:Er; [apply NoWrite |].
    destruct (String.eqb _ "" || (str_length _ <? 10)%Z) eqn:El; [apply NoWrite |].
    destruct (500 <? str_length _)%Z eqn:Eh; [apply NoWrite |].
    destruct (Firestore.add _ _ store) as [store'|] eqn:Ea; [| apply NoWrite].
    apply add_Ok in Ea as [Hnone ->]. simpl.
    apply orb_false_iff in Er as [Hr1 Hr2]. apply orb_false_iff in El as [_ Hl].
    apply Z.ltb_ge in Hr1, Hr2, Hl, Eh. apply String.eqb_neq in Es.
    apply (Submit m now store newId target n _ args); auto.
    rewrite Ec. reflexivity. }
  destruct (String.eqb command "approve").
  { unfold DiscordBot.approve, Firestore.doc_get, Firestore.doc_update. simpl.
    destruct (VouchBot.manageMessages m) eqn:Ep; [| apply NoWrite]. simpl.
    destruct (negb (truthy (head args))); [apply NoWrite |].
    destruct (store !! default "" (head args)) as [v|] eqn:Ev; [| apply NoWrite].
    simpl. apply Approve; assumption. }
  destruct (String.eqb command "reject").
  { unfold DiscordBot.reject, Firestore.doc_get, Firestore.doc_update. simpl.
    destruct (VouchBot.manageMessages m) eqn:Ep; [| apply NoWrite]. simpl.
    destruct (negb (truthy (head args))); [apply NoWrite |].
    destruct (store !! default "" (head args)) as [v|] eqn:Ev; [| apply NoWrite].
    simpl. apply Reject; try assumption. apply reasonOf_nonempty. }
  destruct (String.eqb command "feature").
  { unfold DiscordBot.feature, Firestore.doc_get, Firestore.doc_update. simpl.
    destruct (VouchBot.manageMessages m) eqn:Ep; [| apply NoWrite]. simpl.
    destruct (negb (truthy (head args))); [apply NoWrite |].
    destruct (store !! default "" (head args)) as [v|] eqn:Ev; [| apply NoWrite].
    destruct (DiscordBot.approved v) eqn:Ea; [| apply NoWrite].
    simpl. apply Feature; assumption. }
  repeat case_match; apply NoWrite.
Qed.

(** X13: the bot keeps every vouch well formed.  If every vouch of the
    collection has a rating from 1 to 5, a message of 10 to 500 characters, an
    author other than its target, an approver when it is approved or
    featured, and a moderator, an instant and a non-empty reason when it is
    rejected, then the same holds after any message, whatever its author,
    text and permissions; the empty collection is such a collection. *)
Theorem bot_keeps_vouches_valid cfg m newId now store :
  map_Forall (fun _ => valid_vouch) store ->
  map_Forall (fun _ => valid_vouch) (VouchBot.messageCreate cfg m newId now store).2.
Proof.
  intros Hv.
  destruct (messageCreate_effect cfg m newId now store)
    as [o | id target n text args Hnone Hm Hne Hargs Hn Hr -> Hl
        | id v Hp Hd | id v reason Hp Hd Hreason | id v Hp Hd Ha];
    [exact Hv | | | |]; apply map_Forall_insert_2; try exact Hv.
  - unfold valid_vouch. simpl. repeat split; try tauto; try discriminate.
    congruence.
  - destruct (Hv _ _ Hd) as (H1 & H2 & H3 & H4 & H5 & H6).
    unfold valid_vouch. simpl. repeat split; try tauto; eauto.
  - destruct (Hv _ _ Hd) as (H1 & H2 & H3 & H4 & H5 & H6).
    unfold valid_vouch. simpl. repeat split; try tauto; try discriminate; eauto.
  - destruct (Hv _ _ Hd) as (H1 & H2 & H3 & H4 & H5 & H6).
    unfold valid_vouch. simpl. repeat split; try tauto; intros; apply H4; exact Ha.
Qed.

(** A first vouch, sent to the empty collection. *)
Lemma bot_keeps_vouches_valid_witness :
  map_Forall (fun _ => valid_vouch)
    (VouchBot.messageCreate None
       (VouchBot.mkIncoming false "!vouch @bob 5 always a pleasure" "1001" "c1"
          (Some "1002") false)
       "v1" 100 ∅).2.
Proof.
  apply bot_keeps_vouches_valid. apply map_Forall_empty.
Defined.

(** X14: what a message can do to the vouches.  A vouch that is stored stays
    stored under its id and keeps the author, target, rating, message and
    creation instant it was submitted with; a message from a member without
    the permission to manage messages leaves every stored vouch exactly as it
    was; and a document appears only as the answer to an accepted [!vouch]:
    its id is the one reported, its author is the sender, its target the user
    mentioned, its rating what [parseInt] reads in the second argument, and it
    is neither approved nor featured. *)
Theorem vouches_change_by_moderation_only cfg m newId now store :
  let r := VouchBot.messageCreate cfg m newId now store in
  (forall id v, store !! id = Some v ->
     exists v', r.2 !! id = Some v' /\ submission v' = submission v /\
                (VouchBot.manageMessages m = false -> v' = v)) /\
  (forall id v', store !! id = None -> r.2 !! id = Some v' ->
     r.1 = VouchBot.VouchCommand (VouchBot.Submitted id) /\
     DiscordBot.authorId v' = VouchBot.sender m /\
     VouchBot.firstMention m = Some (DiscordBot.targetUserId v') /\
     nth_error (VouchBot.command_of (VouchBot.content m)).2 1 ≫= VouchBot.parseInt
     = Some (DiscordBot.rating v') /\
     DiscordBot.approved v' = false /\ DiscordBot.featured v' = false).
Proof.
  cbv zeta.
  destruct (messageCreate_effect cfg m newId now store)
    as [o | i target n text args Hnone Hm Hne Hargs Hn Hr -> Hl
        | i v0 Hp Hd | i v0 reason Hp Hd Hreason | i v0 Hp Hd Ha].
  - split.
    + intros id v Hv. exists v. auto.
    + intros id v' Hnone Hsome. congruence.
  - split.
    + intros id v Hv. exists v. rewrite lookup_insert_ne by congruence. auto.
    + intros id v' Hn' Hs. rewrite lookup_insert in Hs. case_decide; [| congruence].
      simplify_eq. simpl. auto 10.
  - split.
    + intros id v Hv. rewrite lookup_insert. case_decide.
      * simplify_eq. eexists. split; [reflexivity |]. split; [reflexivity |]. congruence.
      * exists v. auto.
    + intros id v' Hn' Hs. rewrite lookup_insert in Hs. case_decide; congruence.
  - split.
    + intros id v Hv. rewrite lookup_insert. case_decide.
      * simplify_eq. eexists. split; [reflexivity |]. split; [reflexivity |]. congruence.
      * exists v. auto.
    + intros id v' Hn' Hs. rewrite lookup_insert in Hs. case_decide; congruence.
  - split.
    + intros id v Hv. rewrite lookup_insert. case_decide.
      * simplify_eq. eexists. split; [reflexivity |]. split; [reflexivity |]. congruence.
      * exists v. auto.
    + intros id v' Hn' Hs. rewrite lookup_insert in Hs. case_decide; congruence.
Qed.

Lemma set_featured_same v : DiscordBot.set_featured (DiscordBot.featured v) v = v.
Proof. destruct v; reflexivity. Qed.

(** X15: [!feature] sent twice restores the collection.  Whatever the
    message and the collection, handling the same [!feature] message a second
    time gives back the collection as it was before the first: a refusal is
    refused again, and a toggle is undone by the next one. *)
Theorem feature_twice_restores msg (vouches : gmap string DiscordBot.Vouch) :
  (DiscordBot.feature msg (DiscordBot.feature msg vouches).2).2 = vouches.
Proof.
  unfold DiscordBot.feature at 2.
  destruct (negb (DiscordBot.canManageMessages msg)) eqn:Ep.
  { simpl. unfold DiscordBot.feature. rewrite Ep. reflexivity. }
  cbv zeta.
  destruct (negb (truthy (head (DiscordBot.args msg)))) eqn:Eh.
  { simpl. unfold DiscordBot.feature. rewrite Ep, Eh. reflexivity. }
  unfold Firestore.doc_get.
  destruct (vouches !! default "" (head (DiscordBot.args msg))) as [v|] eqn:Ev.
  2: { simpl. unfold DiscordBot.feature, Firestore.doc_get. rewrite Ep, Eh, Ev.
       reflexivity. }
  destruct (negb (DiscordBot.approved v)) eqn:Ea.
  { simpl. unfold DiscordBot.feature, Firestore.doc_get. rewrite Ep, Eh, Ev, Ea.
    reflexivity. }
  rewrite (doc_update_Some _ _ _ _ Ev). simpl.
  unfold DiscordBot.feature, Firestore.doc_get, Firestore.doc_update.
  rewrite Ep, Eh. cbv zeta. rewrite lookup_insert_eq. simpl. rewrite Ea.
  simpl. rewrite insert_insert_eq, negb_involutive.
  change (DiscordBot.set_featured (DiscordBot.featured v)
            (DiscordBot.set_featured (negb (DiscordBot.featured v)) v))
    with (DiscordBot.set_featured (DiscordBot.featured v) v).
  rewrite set_featured_same. apply insert_id. exact Ev.
Qed.

Lemma ratingSum_cons v vs :
  VouchBot.ratingSum (v :: vs) = DiscordBot.rating v + VouchBot.ratingSum vs.
Proof.
  unfold VouchBot.ratingSum. simpl.
  assert (forall l a, fold_left (fun sum v => sum + DiscordBot.rating v) l a
                      = a + fold_left (fun sum v => sum + DiscordBot.rating v) l 0) as H.
  { induction l as [| x l IH]; intros a; simpl; [lia |].
    rewrite (IH (a + DiscordBot.rating x)), (IH (0 + DiscordBot.rating x)). lia. }
  apply H.
Qed.

(** On well formed vouches the five counts add up to the number of vouches,
    and the sum of the ratings lies between that number and its fivefold. *)
Lemma ratings_add_up vs :
  Forall valid_vouch vs ->
  fold_right Z.add 0 (VouchBot.ratingDistribution vs) = Z.of_nat (List.length vs) /\
  Z.of_nat (List.length vs) <= VouchBot.ratingSum vs <= 5 * Z.of_nat (List.length vs).
Proof.
  induction 1 as [| v vs Hv _ IH].
  - split; [reflexivity |]. unfold VouchBot.ratingSum. simpl. lia.
  - destruct IH as [IHd IHs]. destruct Hv as (Hr & _).
    rewrite ratingSum_cons. split; [| simpl List.length; lia].
    revert IHd. unfold VouchBot.ratingDistribution. simpl.
    destruct (Z.eqb_spec (DiscordBot.rating v) 1), (Z.eqb_spec (DiscordBot.rating v) 2),
      (Z.eqb_spec (DiscordBot.rating v) 3), (Z.eqb_spec (DiscordBot.rating v) 4),
      (Z.eqb_spec (DiscordBot.rating v) 5); simpl List.length; lia.
Qed.

Lemma stored_vouches_valid (p : DiscordBot.Vouch -> bool)
    (store : gmap string DiscordBot.Vouch) :
  map_Forall (fun _ => valid_vouch) store ->
  Forall valid_vouch (List.filter p (List.map snd (map_to_list store))).
Proof.
  intros Hv. apply List.Forall_forall. intros v Hin.
  apply filter_In in Hin as [Hin _]. apply in_map_iff in Hin as ([id w] & <- & Hin).
  apply list_elem_of_In, elem_of_map_to_list in Hin. exact (Hv _ _ Hin).
Qed.

Lemma filter_map_snd {A B : Type} (p : B -> bool) (l : list (A * B)) :
  List.filter p (List.map snd l) = List.map snd (List.filter (fun d => p (snd d)) l).
Proof.
  induction l as [| x l IH]; simpl; [reflexivity |].
  destruct (p (snd x)); simpl; rewrite IH; reflexivity.
Qed.

Lemma NoDup_fst_filter {A B : Type} (p : A * B -> bool) (l : list (A * B)) :
  NoDup (List.map fst l) -> NoDup (List.map fst (List.filter p l)).
Proof.
  induction l as [| x l IH]; simpl; intros Hnd; [exact Hnd |].
  apply NoDup_cons in Hnd as [Hx Hnd].
  destruct (p x); simpl; [| exact (IH Hnd)].
  apply NoDup_cons. split; [| exact (IH Hnd)].
  intros Hin. apply Hx.
  apply list_elem_of_In, in_map_iff in Hin as (y & Hy & Hin).
  apply filter_In in Hin as [Hin _].
  apply list_elem_of_In, in_map_iff. exists y. split; assumption.
Qed.

(** The vouches that a query with the filter [p] returns, with their ids. *)
Lemma query_lists_exactly (p : DiscordBot.Vouch -> bool) (P : DiscordBot.Vouch -> Prop)
    (store : gmap string DiscordBot.Vouch) :
  (forall v, p v = true <-> P v) ->
  lists_exactly P store (List.filter (fun d => p (snd d)) (map_to_list store)) /\
  List.map snd (List.filter (fun d => p (snd d)) (map_to_list store))
  = List.filter p (List.map snd (map_to_list store)).
Proof.
  intros Hp. split; [split |].
  - apply NoDup_fst_filter. apply NoDup_fst_map_to_list.
  - intros id v. rewrite filter_In. simpl. rewrite Hp.
    rewrite <- list_elem_of_In, elem_of_map_to_list. reflexivity.
  - symmetry. apply filter_map_snd.
Qed.

Lemma ratingSum_fold vs :
  VouchBot.ratingSum vs = fold_right Z.add 0 (List.map DiscordBot.rating vs).
Proof.
  induction vs as [| v vs IH]; [reflexivity |].
  rewrite ratingSum_cons, IH. reflexivity.
Qed.

(** The numbers that [!vouches] and the statistics route compute are the
    tallies of the vouches they read. *)
Lemma tallies_of docs :
  tallies docs (Z.of_nat (List.length (List.map snd docs)))
    (VouchBot.ratingSum (List.map snd docs))
    (VouchBot.ratingDistribution (List.map snd docs)).
Proof.
  split; [rewrite length_map; reflexivity |].
  split; [rewrite ratingSum_fold, List.map_map; reflexivity |].
  split; [reflexivity |].
  intros r Hr. unfold VouchBot.ratingDistribution.
  assert (forall k,
            List.length (List.filter (fun v => (DiscordBot.rating v =? k)%Z)
                           (List.map snd docs))
            = List.length (List.filter (fun d => (DiscordBot.rating (snd d) =? k)%Z) docs))
    as Hc.
  { intros k. rewrite filter_map_snd, length_map. reflexivity. }
  assert (r = 1 \/ r = 2 \/ r = 3 \/ r = 4 \/ r = 5) as Hcase by lia.
  destruct Hcase as [-> | [-> | [-> | [-> | ->]]]]; simpl; rewrite Hc; reflexivity.
Qed.

(** X16: the statistics count the right vouches and add up.  [!vouches]
    answers that there is no approved vouch exactly when the collection holds
    no approved vouch for the user, who is the first user mentioned or else
    the sender.  Otherwise its numbers are the tallies of the approved
    vouches for that user, each counted once: the total is their number, the
    sum is the sum of their ratings, and the five counts are the numbers of
    those vouches with the ratings 1 to 5.  On a collection of well formed
    vouches the total is positive, the five counts add up to it and the sum
    lies between the total and its fivefold.  The statistics of the web site
    are the tallies of all approved vouches and add up in the same way. *)
Theorem vouch_statistics_add_up m store :
  map_Forall (fun _ => valid_vouch) store ->
  let user := default (VouchBot.sender m) (VouchBot.firstMention m) in
  let st := VouchApi.api_vouches_stats store in
  (VouchBot.vouches m store = VouchBot.NoApprovedVouches <->
   forall id v, store !! id = Some v -> DiscordBot.targetUserId v = user ->
     DiscordBot.approved v = false) /\
  (forall total sum dist,
     VouchBot.vouches m store = VouchBot.Statistics total sum dist ->
     exists docs,
       lists_exactly
         (fun v => DiscordBot.targetUserId v = user /\ DiscordBot.approved v = true)
         store docs /\
       tallies docs total sum dist /\
       0 < total /\ fold_right Z.add 0 dist = total /\ total <= sum <= 5 * total) /\
  (exists docs,
     lists_exactly (fun v => DiscordBot.approved v = true) store docs /\
     tallies docs (VouchApi.totalVouches st) (VouchApi.sum st) (VouchApi.distribution st) /\
     fold_right Z.add 0 (VouchApi.distribution st) = VouchApi.totalVouches st /\
     VouchApi.totalVouches st <= VouchApi.sum st <= 5 * VouchApi.totalVouches st).
Proof.
  intros Hv user st.
  set (p := fun v => String.eqb (DiscordBot.targetUserId v) user && DiscordBot.approved v).
  assert (forall v, p v = true
                    <-> DiscordBot.targetUserId v = user /\ DiscordBot.approved v = true)
    as Hp.
  { intros v. unfold p. rewrite andb_true_iff, String.eqb_eq. reflexivity. }
  destruct (query_lists_exactly p _ store Hp) as [Hex Hsnd].
  pose proof (stored_vouches_valid p store Hv) as Hf.
  assert (VouchBot.vouches m store
          = match List.filter p (List.map snd (map_to_list store)) with
            | [] => VouchBot.NoApprovedVouches
            | _ => VouchBot.Statistics
                     (Z.of_nat (List.length (List.filter p (List.map snd (map_to_list store)))))
                     (VouchBot.ratingSum (List.filter p (List.map snd (map_to_list store))))
                     (VouchBot.ratingDistribution
                        (List.filter p (List.map snd (map_to_list store))))
            end) as Hcode by reflexivity.
  rewrite Hcode. clear Hcode. rewrite <- Hsnd in Hf |- *. clear Hsnd.
  remember (List.filter (fun d => p (snd d)) (map_to_list store)) as docs eqn:Edocs.
  clear Edocs.
  split; [| split].
  - split.
    + intros Hnone id v Hid Ht.
      destruct (DiscordBot.approved v) eqn:Ea; [| reflexivity].
      assert (In (id, v) docs) as Hin by (apply Hex; auto).
      destruct docs; [destruct Hin | discriminate Hnone].
    + intros Hall. destruct docs as [| [id v] rest]; [reflexivity |].
      exfalso.
      assert (In (id, v) ((id, v) :: rest)) as Hin by (left; reflexivity).
      apply Hex in Hin as (Hid & Ht & Ha).
      rewrite (Hall id v Hid Ht) in Ha. discriminate.
  - intros total sum dist Hst. exists docs.
    destruct (ratings_add_up _ Hf) as [Hd Hs].
    destruct docs as [| d rest]; [discriminate Hst |].
    injection Hst as <- <- <-.
    split; [exact Hex |]. split; [apply tallies_of |].
    split; [simpl List.length; lia |]. split; [exact Hd | exact Hs].
  - clear dependent docs.
    destruct (query_lists_exactly DiscordBot.approved
                (fun v => DiscordBot.approved v = true) store
                (fun v => iff_refl _)) as [Hex Hsnd].
    pose proof (stored_vouches_valid DiscordBot.approved store Hv) as Hf.
    subst st. unfold VouchApi.api_vouches_stats. cbv zeta.
    cbn [VouchApi.totalVouches VouchApi.sum VouchApi.distribution].
    rewrite <- Hsnd in Hf |- *.
    eexists. split; [exact Hex |]. split; [apply tallies_of |].
    apply ratings_add_up. exact Hf.
Qed.

(** The user [1002] has one approved vouch and one that is pending; the
    collection also holds an approved vouch for someone else. *)
Lemma vouch_statistics_add_up_witness :
  let store : gmap string DiscordBot.Vouch :=
    {[ "v1" := DiscordBot.set_approved "9001" 200
                 (VouchBot.vouchData "1001" "1002" 5 "always a pleasure" 100);
       "v2" := VouchBot.vouchData "1003" "1002" 1 "never again, sorry" 110;
       "v3" := DiscordBot.set_approved "9001" 210
                 (VouchBot.vouchData "1002" "1001" 4 "fine, as agreed" 120) ]} in
  let m := VouchBot.mkIncoming false "!vouches" "1002" "c1" None false in
  VouchBot.vouches m store = VouchBot.Statistics 1 5 [0; 0; 0; 0; 1] /\
  exists docs,
    lists_exactly
      (fun v => DiscordBot.targetUserId v = "1002" /\ DiscordBot.approved v = true)
      store docs /\
    tallies docs 1 5 [0; 0; 0; 0; 1].
Proof.
  intros store m.
  assert (VouchBot.vouches m store = VouchBot.Statistics 1 5 [0; 0; 0; 0; 1]) as Hst
    by (vm_compute; reflexivity).
  split; [exact Hst |].
  assert (map_Forall (fun _ => valid_vouch) store) as Hv.
  { subst store.
    apply map_Forall_insert_2; [| apply map_Forall_insert_2; [| apply map_Forall_singleton]];
      unfold valid_vouch; simpl; unfold str_length; simpl;
      repeat split; try lia; try discriminate; eauto. }
  destruct (proj1 (proj2 (vouch_statistics_add_up m store Hv)) 1 5 [0; 0; 0; 0; 1] Hst)
    as (docs & Hex & Ht & _).
  exists docs. split; [exact Hex | exact Ht].
Defined.

(** ** X17: the featured vouches of the web site *)

Section OrderedFacts.
Context {Doc : Type} (key : Doc -> Z).

Lemma insert_perm x l : Query.insert key x l ≡ₚ x :: l.
Proof.
  induction l as [| y r IH]; simpl; [reflexivity |].
  destruct (Query.precedes key x y); [reflexivity |].
  rewrite IH. apply perm_swap.
Qed.

Lemma orderBy_desc_perm l : Query.orderBy_desc key l ≡ₚ l.
Proof.
  induction l as [| x r IH]; simpl; [reflexivity |].
  rewrite insert_perm, IH. reflexivity.
Qed.

Lemma precedes_newer x y : Query.precedes key x y = true -> newer_first key x y.
Proof.
  unfold Query.precedes, newer_first. intros H.
  apply orb_true_iff in H as [H | H].
  - apply Z.ltb_lt in H. lia.
  - apply andb_true_iff in H as [H _]. apply Z.eqb_eq in H. lia.
Qed.

Lemma not_precedes_newer x y : Query.precedes key x y = false -> newer_first key y x.
Proof.
  unfold Query.precedes, newer_first. intros H.
  apply orb_false_iff in H as [H _]. apply Z.ltb_ge in H. exact H.
Qed.

Lemma insert_sorted x l :
  StronglySorted (newer_first key) l -> StronglySorted (newer_first key) (Query.insert key x l).
Proof.
  induction 1 as [| y r Hr IH Hy]; simpl.
  - constructor; constructor.
  - destruct (Query.precedes key x y) eqn:E.
    + apply precedes_newer in E. constructor; [constructor; assumption |].
      constructor; [exact E |].
      eapply Forall_impl; [exact Hy |]. unfold newer_first in *. intros z Hz. lia.
    + apply not_precedes_newer in E. constructor; [exact IH |].
      rewrite insert_perm. constructor; assumption.
Qed.

Lemma orderBy_desc_sorted l : StronglySorted (newer_first key) (Query.orderBy_desc key l).
Proof.
  induction l as [| x r IH]; simpl; [constructor |].
  apply insert_sorted. exact IH.
Qed.

Lemma sorted_take n l :
  StronglySorted (newer_first key) l -> StronglySorted (newer_first key) (take n l).
Proof.
  intros H. revert n. induction H as [| y r Hr IH Hy]; intros [| n]; simpl;
    try constructor.
  - apply IH.
  - apply Forall_take. exact Hy.
Qed.

(** What a limit leaves out is no newer than what it keeps. *)
Lemma sorted_take_drop n l a b :
  StronglySorted (newer_first key) l -> In a (take n l) -> In b (drop n l) -> newer_first key a b.
Proof.
  intros H. revert n. induction H as [| y r Hr IH Hy]; intros [| n]; simpl;
    try tauto.
  intros [<- | Ha] Hb.
  - rewrite List.Forall_forall in Hy. apply Hy.
    rewrite <- (take_drop n r). apply in_or_app. right. exact Hb.
  - eapply IH; eauto.
Qed.

End OrderedFacts.

Lemma filter_sublist {A : Type} (p : A -> bool) l : List.filter p l `sublist_of` l.
Proof.
  induction l as [| x r IH]; simpl; [constructor |].
  destruct (p x); [apply sublist_skip | apply sublist_cons]; exact IH.
Qed.

Lemma featured_listed (store : gmap string DiscordBot.Vouch) id v :
  In (id, v) (FeaturedApi.api_vouches_featured store) ->
  store !! id = Some v /\ DiscordBot.approved v = true /\ DiscordBot.featured v = true.
Proof.
  unfold FeaturedApi.api_vouches_featured. intros Hin.
  assert (In (id, v)
            (Query.orderBy_desc DiscordBot.createdAt
               (List.filter
                  (fun kv => DiscordBot.approved (snd kv) && DiscordBot.featured (snd kv))
                  (map_to_list store)))) as H.
  { rewrite <- (take_drop 6 (Query.orderBy_desc _ _)). apply in_or_app. left. exact Hin. }
  rewrite <- list_elem_of_In, orderBy_desc_perm, list_elem_of_In, filter_In in H.
  rewrite <- list_elem_of_In, elem_of_map_to_list in H. simpl in H.
  rewrite andb_true_iff in H. tauto.
Qed.

(** X17: the featured vouches.  [GET /api/vouches/featured] lists at most six
    vouches, each one stored, approved and featured, no vouch twice, the
    newest first; and a stored vouch that is approved and featured is either
    listed, or six vouches are listed and none of them is older than it. *)
Theorem featured_listing (store : gmap string DiscordBot.Vouch) :
  let l := FeaturedApi.api_vouches_featured store in
  (List.length l <= 6)%nat /\
  (forall id v, In (id, v) l ->
     store !! id = Some v /\ DiscordBot.approved v = true /\ DiscordBot.featured v = true) /\
  NoDup (List.map fst l) /\
  StronglySorted
    (fun a b => DiscordBot.createdAt (snd b) <= DiscordBot.createdAt (snd a)) l /\
  (forall id v, store !! id = Some v ->
     DiscordBot.approved v = true -> DiscordBot.featured v = true ->
     In (id, v) l \/
     (List.length l = 6%nat /\
      forall w, In w l -> DiscordBot.createdAt v <= DiscordBot.createdAt (snd w))).
Proof.
  cbv zeta. unfold FeaturedApi.api_vouches_featured.
  set (p := fun kv : string * DiscordBot.Vouch =>
              DiscordBot.approved (snd kv) && DiscordBot.featured (snd kv)).
  set (sorted := Query.orderBy_desc DiscordBot.createdAt
                   (List.filter p (map_to_list store))).
  assert (forall id v, In (id, v) sorted <->
            store !! id = Some v /\ DiscordBot.approved v = true /\
            DiscordBot.featured v = true) as Hin.
  { intros id v. unfold sorted.
    rewrite <- list_elem_of_In, orderBy_desc_perm, list_elem_of_In, filter_In.
    rewrite <- list_elem_of_In, elem_of_map_to_list. unfold p. simpl.
    rewrite andb_true_iff. tauto. }
  assert (forall x, In x (take 6 sorted) -> In x sorted) as Htake.
  { intros x Hx. rewrite <- (take_drop 6 sorted). apply in_or_app. left. exact Hx. }
  assert (StronglySorted (newer_first DiscordBot.createdAt) sorted) as Hs
    by apply orderBy_desc_sorted.
  split; [| split; [| split; [| split]]].
  - rewrite length_take. lia.
  - intros id v Hl. apply Hin, Htake, Hl.
  - change (NoDup (fst <$> take 6 sorted)).
    apply (sublist_NoDup _ (fst <$> sorted)); [| apply fmap_sublist, sublist_take].
    unfold sorted. rewrite orderBy_desc_perm.
    apply (sublist_NoDup _ (fst <$> map_to_list store));
      [apply NoDup_fst_map_to_list | apply fmap_sublist, filter_sublist].
  - apply (sorted_take DiscordBot.createdAt 6 sorted Hs).
  - intros id v Hv Ha Hf.
    assert (In (id, v) sorted) as Hiv by (apply Hin; auto).
    rewrite <- (take_drop 6 sorted) in Hiv. apply in_app_or in Hiv as [Hl | Hr].
    + left. exact Hl.
    + right. split.
      * rewrite length_take. destruct (decide (6 <= List.length sorted)%nat); [lia |].
        rewrite drop_ge in Hr by lia. destruct Hr.
      * intros w Hw.
        apply (sorted_take_drop DiscordBot.createdAt 6 sorted w (id, v) Hs Hw Hr).
Qed.

(** ** X18: the login counter *)

Lemma count_only_subscription d d' : only_subscription d d' -> login_count d' = login_count d.
Proof. unfold only_subscription. intros ->. reflexivity. Qed.

Ltac counting :=
  intros;
  repeat first [ progress simpl in * | case_match ]; simplify_eq;
  try assumption;
  try match goal with
      | H : Firestore.doc_update _ _ ?c = Ok _ |- _ =>
        eapply doc_update_Forall; [ | | exact H]; [eassumption |];
        unfold login_count; simpl; intros d _;
        destruct (Schema.stats d) as [[[n|] ? ?]|]; simpl; repeat case_match; simpl; lia
      | H : Firestore.add _ _ ?c = Ok _ |- _ =>
        eapply add_Forall; [ | | exact H]; [eassumption |];
        unfold login_count; simpl; lia
      end.

Lemma license_dispatch_counted sdk now event db db' :
  map_Forall (fun _ d => 1 <= login_count d) db ->
  LicenseServer.dispatch sdk now event db = Ok db' ->
  map_Forall (fun _ d => 1 <= login_count d) db'.
Proof.
  unfold LicenseServer.dispatch, LicenseServer.handleCheckoutSessionCompleted,
    LicenseServer.handleSubscriptionUpdated, LicenseServer.handleSubscriptionDeleted,
    LicenseServer.handlePaymentSucceeded, LicenseServer.handlePaymentFailed,
    LicenseServer.updateUser.
  intros HI H. repeat case_match; simplify_eq; counting.
Qed.

Lemma license_step_counted sdk secret now op db :
  map_Forall (fun _ d => 1 <= login_count d) db ->
  map_Forall (fun _ d => 1 <= login_count d) (LicenseServer.step sdk secret now op db).2.
Proof.
  intros HI. destruct op; simpl.
  - unfold LicenseServer.api_login, LicenseServer.updateUser, LicenseServer.login_updates.
    counting.
  - unfold LicenseServer.api_web_login, LicenseServer.updateUser. counting.
  - unfold LicenseServer.api_signup, LicenseServer.createUser, LicenseServer.newUser.
    counting.
  - unfold LicenseServer.api_reset_hwid, LicenseServer.updateUser. counting.
  - unfold LicenseServer.api_stripe_create_checkout_session, LicenseServer.updateUser.
    counting.
  - unfold LicenseServer.api_stripe_webhook.
    repeat case_match; simpl; try assumption.
    eapply license_dispatch_counted; eassumption.
  - unfold LicenseServer.api_stripe_cancel_subscription, LicenseServer.updateUser.
    counting.
Qed.

(** X18: logins are counted.  In the license-gated server the counter
    [stats.totalLogins] of an account changes only by a client login, which
    raises it by one; the web login, the administrative reset and the payment
    routes leave it as it is.  Accounts whose counter is at least one, as it
    is after the signup, keep it so under every request, and for such an
    account [GET /api/user/stats] reports the stored counter. *)
Theorem logins_are_counted sdk secret now op db :
  (forall id d, db !! id = Some d ->
     exists d', (LicenseServer.step sdk secret now op db).2 !! id = Some d' /\
       (login_count d' = login_count d \/
        ((exists u p h, op = LicenseServer.Login u p h) /\
         login_count d' = login_count d + 1))) /\
  (map_Forall (fun _ d => 1 <= login_count d) db ->
   map_Forall (fun _ d => 1 <= login_count d) (LicenseServer.step sdk secret now op db).2 /\
   forall session now' st,
     LicenseViews.api_user_stats session now' db = inr st ->
     exists d, db !! default "" session = Some d /\
               LicenseViews.us_totalLogins st = login_count d).
Proof.
  split.
  - intros id d Hd.
    destruct (Effect_kept _ _ _ _ _ (license_step_frame sdk secret now op db) Hd)
      as (d' & Hd' & _ & [-> | Hr]); [eauto |].
    exists d'. split; [exact Hd' |].
    destruct op; simpl in Hr.
    + right. split; [eauto |]. tauto.
    + left. tauto.
    + destruct Hr.
    + left. rewrite Hr. reflexivity.
    + left. apply count_only_subscription, Hr.
    + left. apply count_only_subscription, Hr.
    + left. apply count_only_subscription, Hr.
  - intros HI. split; [apply license_step_counted; exact HI |].
    intros session now' st. unfold LicenseViews.api_user_stats, LicenseServer.getUserById,
      Firestore.doc_get.
    destruct (negb (LicenseServer.requireAuth session)); [discriminate |].
    destruct (db !! default "" session) as [d|] eqn:Ed; [| discriminate].
    intros [= <-]. exists d. split; [reflexivity |]. simpl.
    pose proof (HI _ _ Ed) as Hc. simpl in Hc. revert Hc.
    unfold LicenseViews.totalLoginsOr1, login_count.
    destruct (Schema.stats d ≫= Schema.totalLogins) as [n|]; simpl; [| lia].
    destruct (Z.eqb_spec n 0); [lia | reflexivity].
Qed.

Lemma logins_are_counted_witness :
  exists d',
    (LicenseServer.step Examples.sdk None 100
       (LicenseServer.Login (Some "alice") (Some "secret1") (Some "HW-1"))
       Examples.db_alice).2 !! "u1" = Some d' /\
    (login_count d' = login_count Examples.alice \/
     ((exists u p h,
         LicenseServer.Login (Some "alice") (Some "secret1") (Some "HW-1")
         = LicenseServer.Login u p h) /\
      login_count d' = login_count Examples.alice + 1)).
Proof.
  apply (proj1 (logins_are_counted Examples.sdk None 100
                  (LicenseServer.Login (Some "alice") (Some "secret1") (Some "HW-1"))
                  Examples.db_alice) "u1" Examples.alice).
  reflexivity.
Defined.

(** ** X19: the listings and the hardware lock *)






(** ** X20: [check-username] and the signup of the flat file *)

(** X20: [check-username] says what the signup will do.  For a username of
    three characters or more and a password of six or more, the flat-file
    server reports the name available exactly when the signup with it
    succeeds, and the signup of a name reported taken is refused as taken
    without a write; after a signup that succeeded, every name equal to the
    new one up to letter case is reported taken. *)
Theorem check_username_agrees_with_signup name pass now users :
  name <> "" -> 3 <= str_length name -> pass <> "" -> 6 <= str_length pass ->
  let r := FileServer.api_signup (Some name) (Some pass) now users in
  (FileViews.api_check_username name users = true <-> success r.1 = Some true) /\
  (FileViews.api_check_username name users = false ->
   r = (json 200 false "Username already taken", users)) /\
  (success r.1 = Some true ->
   forall name', toLowerCase name' = toLowerCase name ->
     FileViews.api_check_username name' r.2 = false).
Proof.
  intros Hn Hln Hp Hlp. cbv zeta.
  unfold FileViews.api_check_username, FileServer.api_signup.
  apply truthy_Some in Hn, Hp. rewrite Hn, Hp. cbn [negb orb]. cbv zeta.
  change (default "" (Some name)) with name. change (default "" (Some pass)) with pass.
  apply Z.ltb_ge in Hln, Hlp. rewrite Hln, Hlp.
  destruct (FileServer.usernameExists name users) eqn:E; simpl.
  - split; [split; discriminate |]. split; [reflexivity | discriminate].
  - split; [tauto |]. split; [discriminate |].
    intros _ name' Heq. apply negb_false_iff.
    unfold FileServer.usernameExists. rewrite existsb_app. simpl.
    rewrite Heq, String.eqb_refl. apply orb_true_iff. right. reflexivity.
Qed.

Lemma check_username_agrees_with_signup_witness :
  let r := FileServer.api_signup (Some "Alice") (Some "secret9") 100
             [Examples.file_alice] in
  (FileViews.api_check_username "Alice" [Examples.file_alice] = true
   <-> success r.1 = Some true) /\
  (FileViews.api_check_username "Alice" [Examples.file_alice] = false ->
   r = (json 200 false "Username already taken", [Examples.file_alice])) /\
  (success r.1 = Some true ->
   forall name', toLowerCase name' = toLowerCase "Alice" ->
     FileViews.api_check_username name' r.2 = false).
Proof.
  apply (check_username_agrees_with_signup "Alice" "secret9" 100 [Examples.file_alice]);
    try discriminate; vm_compute; discriminate.
Defined.

(** ** X21: the account ids of the flat file *)

Lemma toString_inj a b : toString a = toString b -> a = b.
Proof.
  unfold toString. intros H. apply DecimalZ.to_int_inj.
  assert (forall z, Z.to_int z <> Decimal.Pos Decimal.Nil /\
                    Z.to_int z <> Decimal.Neg Decimal.Nil) as Hnz.
  { intros [| p | p]; simpl; split; try discriminate;
      intros [= Hp]; exact (DecimalPos.Unsigned.to_uint_nonnil p Hp). }
  destruct (Hnz a) as [Ha1 Ha2], (Hnz b) as [Hb1 Hb2].
  pose proof (NilZero.isi _ Ha1 Ha2) as Ia. pose proof (NilZero.isi _ Hb1 Hb2) as Ib.
  rewrite H in Ia. congruence.
Qed.

(** X21: the flat file makes account ids from the clock.  When every stored
    id is the decimal of an instant before [now] and the ids are pairwise
    different, then after any request served at [now] every id is the decimal
    of an instant up to [now] and the ids are still pairwise different: ids
    stay unique as long as the clock advances between two signups.  Two
    signups served at the same instant, however, give two accounts under one
    id. *)
Theorem file_ids_come_from_the_clock :
  (forall sdk secret now op users,
     Forall (minted_before now) users ->
     NoDup (List.map FileServer.id users) ->
     let users' := (FileServer.step sdk secret now op users).2 in
     Forall (minted_by now) users' /\ NoDup (List.map FileServer.id users')) /\
  (forall u1 p1 u2 p2 now users,
     let r1 := FileServer.api_signup u1 p1 now users in
     let r2 := FileServer.api_signup u2 p2 now r1.2 in
     success r1.1 = Some true -> success r2.1 = Some true ->
     exists a b,
       r2.2 = (users ++ [a; b])%list /\ FileServer.id a = FileServer.id b /\
       FileServer.username a <> FileServer.username b).
Proof.
  split.
  - intros sdk secret now op users Hc Hnd. cbv zeta.
    assert (Forall (minted_by now) users) as Hby.
    { eapply Forall_impl; [exact Hc |]. intros u (t & Ht & Hlt). exists t.
      split; [exact Ht | lia]. }
    destruct (file_step_identity FileServer.id sdk secret now op users)
      as [Heq | (name & pass & -> & Hfree & ->)]; try reflexivity.
    + split; [| rewrite Heq; exact Hnd].
      assert (Forall (fun i => exists t, i = toString t /\ t <= now)
                (List.map FileServer.id (FileServer.step sdk secret now op users).2)) as H.
      { rewrite Heq.
        apply (proj2 (List.Forall_map FileServer.id
                        (fun i => exists t, i = toString t /\ t <= now) users)).
        exact Hby. }
      exact (proj1 (List.Forall_map FileServer.id
                      (fun i => exists t, i = toString t /\ t <= now) _) H).
    + split.
      * apply Forall_app. split; [exact Hby |].
        constructor; [| constructor]. exists now. split; [reflexivity | lia].
      * rewrite List.map_app. simpl. apply NoDup_app. split; [exact Hnd |]. split.
        -- intros i Hi Hin. apply list_elem_of_singleton in Hin. subst i.
           apply list_elem_of_In, in_map_iff in Hi as (u & Hid & Hu).
           rewrite List.Forall_forall in Hc.
           destruct (Hc _ Hu) as (t & Ht & Hlt).
           rewrite Ht in Hid. apply toString_inj in Hid. lia.
        -- apply NoDup_singleton.
  - intros u1 p1 u2 p2 now users r1 r2 H1 H2. subst r1 r2.
    destruct (file_signup_stores _ _ _ _ H1) as (n1 & q1 & -> & -> & E1).
    rewrite E1 in H2 |- *.
    destruct (file_signup_stores _ _ _ _ H2) as (n2 & q2 & -> & -> & E2).
    rewrite E2. eexists _, _. split; [rewrite <- app_assoc; reflexivity |].
    split; [reflexivity |]. simpl.
    intros ->. revert H2. unfold FileServer.api_signup.
    repeat case_match; simpl; try discriminate.
    match goal with H : FileServer.usernameExists _ _ = false |- _ =>
      unfold FileServer.usernameExists in H; rewrite existsb_app in H; simpl in H;
      rewrite String.eqb_refl in H; apply orb_false_iff in H as [_ H]; discriminate H
    end.
Qed.

(** ** X22: the payment events of the server with the vouch API *)

Ltac flagged :=
  try (unfold keeps_failure; simpl;
       match goal with d : Schema.User |- _ =>
         destruct (Schema.subscription d) as [[]|]; simpl; intros; auto; discriminate
       end).

Lemma vouch_dispatch_failure sdk now event db db' :
  VouchServer.dispatch sdk now event db = Ok db' -> Effect keeps_failure db db'.
Proof.
  unfold VouchServer.dispatch, VouchServer.handleCheckoutSessionCompleted,
    VouchServer.update_metadata_user,
    VouchServer.handleSubscriptionUpdated, VouchServer.handleSubscriptionDeleted,
    VouchServer.handlePaymentSucceeded, VouchServer.handlePaymentFailed.
  intros H. repeat case_match; simplify_eq; effect keeps_failure; flagged.
Qed.

Lemma vouch_step_failure sdk secret now op db :
  Effect keeps_failure db (VouchServer.step sdk secret now op db).2.
Proof.
  destruct op; simpl.
  - unfold VouchServer.api_login. effect keeps_failure; flagged.
  - unfold VouchServer.api_signup. effect keeps_failure; flagged.
  - unfold VouchServer.api_reset_hwid. effect keeps_failure; flagged.
  - unfold VouchServer.api_stripe_create_checkout_session. effect keeps_failure; flagged.
  - unfold VouchServer.api_stripe_webhook.
    repeat case_match; simpl; try (apply Unchanged; reflexivity).
    eapply vouch_dispatch_failure; eassumption.
  - unfold VouchServer.api_subscription_cancel. effect keeps_failure; flagged.
Qed.

Lemma update_keeps_status (f : Schema.Subscription -> Schema.Subscription) id
    (db db' : gmap string Schema.User) :
  (forall s, Schema.status (f s) = Schema.status s) ->
  Firestore.doc_update id (Schema.upd_subscription f) db = Ok db' ->
  forall i d, db !! i = Some d -> exists d', db' !! i = Some d' /\ keeps_status d d'.
Proof.
  intros Hf H i d Hd. apply doc_update_Ok in H as (e & He & ->).
  rewrite lookup_insert. case_decide.
  - simplify_eq. eexists. split; [reflexivity |]. unfold keeps_status. simpl.
    rewrite Hf. destruct (Schema.subscription e); reflexivity.
  - exists d. split; [exact Hd | reflexivity].
Qed.

(** X22: payment events in the server with the vouch API.  A recorded
    payment failure is never cleared: whatever the request, an account whose
    [subscription.paymentFailed] is true keeps it true, also when a later
    payment succeeds or a new checkout completes.  And an invoice event is
    always acknowledged and changes the [subscription.status] of no account,
    so that a failed payment does not end a license. *)
Theorem payment_failures_stay_recorded :
  (forall sdk secret now op db id d,
     db !! id = Some d ->
     Schema.subscription d ≫= Schema.paymentFailed = Some true ->
     exists d', (VouchServer.step sdk secret now op db).2 !! id = Some d' /\
                Schema.subscription d' ≫= Schema.paymentFailed = Some true) /\
  (forall sdk now body sig secret db event,
     Stripe.constructEvent sdk body sig secret = Some event ->
     Stripe.type event = "invoice.payment_succeeded" \/
     Stripe.type event = "invoice.payment_failed" ->
     (VouchServer.api_stripe_webhook sdk now body sig secret db).1 = received /\
     forall id d, db !! id = Some d ->
       exists d', (VouchServer.api_stripe_webhook sdk now body sig secret db).2 !! id
                  = Some d' /\
                  Schema.subscription d' ≫= Schema.status
                  = Schema.subscription d ≫= Schema.status).
Proof.
  split.
  - intros sdk secret now op db id d Hd Hf.
    destruct (Effect_kept _ _ _ _ _ (vouch_step_failure sdk secret now op db) Hd)
      as (d' & Hd' & _ & [-> | Hr]); eauto.
  - intros sdk now body sig secret db event Hev Hty.
    unfold VouchServer.api_stripe_webhook, VouchServer.dispatch. rewrite Hev.
    assert (exists db',
              (if String.eqb (Stripe.type event) "checkout.session.completed"
               then VouchServer.handleCheckoutSessionCompleted sdk now (Stripe.object event) db
               else if String.eqb (Stripe.type event) "customer.subscription.updated"
               then VouchServer.handleSubscriptionUpdated (Stripe.object event) db
               else if String.eqb (Stripe.type event) "customer.subscription.deleted"
               then VouchServer.handleSubscriptionDeleted now (Stripe.object event) db
               else if String.eqb (Stripe.type event) "invoice.payment_succeeded"
               then VouchServer.handlePaymentSucceeded now (Stripe.object event) db
               else if String.eqb (Stripe.type event) "invoice.payment_failed"
               then VouchServer.handlePaymentFailed (Stripe.object event) db
               else Ok db) = Ok db' /\
              forall i d, db !! i = Some d ->
                exists d', db' !! i = Some d' /\ keeps_status d d') as (db' & -> & Hk).
    { assert (forall i d, db !! i = Some d ->
                exists d', db !! i = Some d' /\ keeps_status d d') as Hsame
        by (intros i d Hd; exists d; split; [exact Hd | reflexivity]).
      destruct Hty as [-> | ->]; simpl.
      - unfold VouchServer.handlePaymentSucceeded.
        repeat case_match; simplify_eq; eauto;
          first [ solve [eauto]
                | eexists; split;
                  [reflexivity
                  | eapply update_keeps_status; [| eassumption]; intros; reflexivity] ].
      - unfold VouchServer.handlePaymentFailed.
        repeat case_match; simplify_eq; eauto;
          first [ solve [eauto]
                | eexists; split;
                  [reflexivity
                  | eapply update_keeps_status; [| eassumption]; intros; reflexivity] ]. }
    simpl. split; [reflexivity |]. exact Hk.
Qed.

(** ** X23: the hardware lock of the flat file across requests *)

Lemma find_unique {A B : Type} (g : A -> B) (p : A -> bool) l u :
  NoDup (List.map g l) -> In u l -> p u = true ->
  (forall x, In x l -> p x = true -> g x = g u) ->
  List.find p l = Some u.
Proof.
  induction l as [| y r IH]; simpl; intros Hnd Hin Hp Hg; [destruct Hin |].
  apply NoDup_cons in Hnd as [Hy Hr].
  destruct (p y) eqn:Ey.
  - destruct Hin as [-> | Hin]; [reflexivity |].
    exfalso. apply Hy. rewrite (Hg y (or_introl eq_refl) Ey).
    apply list_elem_of_In, in_map. exact Hin.
  - destruct Hin as [-> | Hin]; [congruence |].
    apply IH; auto.
Qed.

Lemma In_modify_first {A : Type} (p : A -> bool) f l u :
  List.find p l = Some u -> In (f u) (modify_first p f l).
Proof.
  induction l as [| y r IH]; simpl; [discriminate |].
  destruct (p y); [intros [= ->]; left; reflexivity | intros H; right; auto].
Qed.

Lemma credentials_username n p u :
  FileServer.credentials (Some n) (Some p) u = true ->
  FileServer.username u = n /\ FileServer.password u = p.
Proof.
  unfold FileServer.credentials. simpl. intros H.
  apply andb_true_iff in H as [H1 H2]. apply String.eqb_eq in H1, H2. auto.
Qed.

(** The login of the flat file, once the record with the credentials is
    known. *)
Lemma file_login_resolved name pass h now users u :
  name <> "" -> pass <> "" ->
  List.find (FileServer.credentials (Some name) (Some pass)) users = Some u ->
  FileServer.api_login (Some name) (Some pass) h now users
  = if truthy h
    then
      if negb (truthy (FileServer.hwid u))
      then (json 200 true "Login successful - Account locked to this computer",
            modify_first (FileServer.credentials (Some name) (Some pass))
              (FileServer.set_hwid h (Some now)) users)
      else if negb (strictEqOpt (FileServer.hwid u) h)
      then (json 200 false
              "Hardware ID mismatch - This account is locked to another computer", users)
      else (json 200 true "Login successful", users)
    else (json 200 true "Login successful", users).
Proof.
  intros Hn Hp Hf. unfold FileServer.api_login.
  apply truthy_Some in Hn, Hp. rewrite Hn, Hp, Hf. reflexivity.
Qed.

(** X23: the hardware lock of the flat file across requests, with usernames
    pairwise different up to letter case.  After a client login that
    succeeded with a fingerprint, the account carries it: another fingerprint
    is refused without a write and the same one admitted; a login that sends
    no fingerprint is admitted although the account is locked, since the lock
    is tested only on a fingerprint that is sent; the reset removes the lock
    and the next login binds the fingerprint it sends. *)
Theorem file_lock_life_cycle name pass h now users :
  NoDup (List.map file_key users) -> h <> "" ->
  success (FileServer.api_login (Some name) (Some pass) (Some h) now users).1 = Some true ->
  file_lock_cycle name pass h now users.
Proof.
  intros Hnd Hh Hok.
  assert (name <> "" /\ pass <> "" /\
          exists u0, List.find (FileServer.credentials (Some name) (Some pass)) users
                     = Some u0) as (Hn & Hp & u0 & Hf0).
  { revert Hok. unfold FileServer.api_login.
    destruct (truthy (Some name)) eqn:E1; [| discriminate].
    destruct (truthy (Some pass)) eqn:E2; [| discriminate].
    apply truthy_Some in E1, E2. simpl.
    destruct (List.find _ users); [eauto | discriminate]. }
  pose proof (truthy_Some h) as Th. apply proj2 in Th. specialize (Th Hh).
  set (cred := FileServer.credentials (Some name) (Some pass)) in *.
  assert (exists users1 u,
            (FileServer.api_login (Some name) (Some pass) (Some h) now users).2 = users1 /\
            List.find cred users1 = Some u /\ FileServer.hwid u = Some h /\
            List.map file_key users1 = List.map file_key users)
    as (users1 & u & E1 & Hf & Hu & Hk).
  { revert Hok. rewrite (file_login_resolved name pass (Some h) now users u0 Hn Hp Hf0), Th.
    destruct (negb (truthy (FileServer.hwid u0))) eqn:Eb.
    - intros _. eexists _, _. split; [reflexivity |]. split; [| split].
      + apply find_modify_first; [exact Hf0 |].
        apply find_some in Hf0 as [_ Hc]. exact Hc.
      + reflexivity.
      + apply map_modify_first. reflexivity.
    - destruct (negb (strictEqOpt (FileServer.hwid u0) (Some h))) eqn:Ec; [discriminate |].
      intros _. exists users, u0. apply negb_false_iff, strictEqOpt_true in Ec. auto. }
  unfold file_lock_cycle. cbv zeta. rewrite E1. fold cred.
  assert (truthy (FileServer.hwid u) = true) as Tu by (rewrite Hu; exact Th).
  assert (NoDup (List.map file_key users1)) as Hnd1 by (rewrite Hk; exact Hnd).
  pose proof (find_some _ _ Hf) as [Hin Hc].
  destruct (credentials_username _ _ _ Hc) as [Hun Hup].
  assert (List.find (fun x => strictEq (Some name) (FileServer.username x)) users1 = Some u)
    as Hfu.
  { apply (find_unique file_key); auto.
    - simpl. rewrite Hun. apply String.eqb_refl.
    - intros x _ Hx. simpl in Hx. apply String.eqb_eq in Hx.
      unfold file_key. congruence. }
  split; [eauto |]. split; [| split; [| split; [| split]]].
  - intros h2 now2 Hh2 Hne.
    rewrite (file_login_resolved name pass (Some h2) now2 users1 u Hn Hp Hf).
    apply truthy_Some in Hh2. rewrite Hh2, Tu, Hu. simpl.
    destruct (String.eqb h h2) eqn:E; [| reflexivity].
    apply String.eqb_eq in E. congruence.
  - intros now2.
    rewrite (file_login_resolved name pass (Some h) now2 users1 u Hn Hp Hf), Th, Tu, Hu.
    simpl. rewrite String.eqb_refl. reflexivity.
  - intros h0 now2 Hh0.
    rewrite (file_login_resolved name pass h0 now2 users1 u Hn Hp Hf), Hh0. reflexivity.
  - unfold FileServer.api_reset_hwid. apply truthy_Some in Hn. rewrite Hn. simpl negb.
    cbv iota. rewrite Hfu, Tu. reflexivity.
  - intros h2 now2 Hh2.
    assert ((FileServer.api_reset_hwid (Some name) users1).2
            = modify_first (fun x => strictEq (Some name) (FileServer.username x))
                (FileServer.set_hwid None None) users1) as ->.
    { unfold FileServer.api_reset_hwid. pose proof Hn as Hn'.
      apply truthy_Some in Hn'. rewrite Hn'. simpl negb. cbv iota.
      rewrite Hfu, Tu. reflexivity. }
    set (users2 := modify_first _ _ users1).
    assert (List.find cred users2 = Some (FileServer.set_hwid None None u)) as Hf2.
    { apply (find_unique file_key).
      - unfold users2. rewrite map_modify_first by reflexivity. exact Hnd1.
      - apply In_modify_first. exact Hfu.
      - exact Hc.
      - intros x _ Hx. apply credentials_username in Hx as [Hx _].
        unfold file_key. simpl. congruence. }
    rewrite (file_login_resolved name pass (Some h2) now2 users2 _ Hn Hp Hf2).
    apply truthy_Some in Hh2. rewrite Hh2. simpl.
    split; [reflexivity |].
    eexists. split; [apply (find_modify_first cred); [exact Hf2 | exact Hc] |].
    split; reflexivity.
Qed.

(** [carol] logs in from [HW-3]. *)
Lemma file_lock_life_cycle_witness :
  file_lock_cycle "carol" "secret3" "HW-3" 100 [Examples.file_carol].
Proof.
  apply file_lock_life_cycle.
  - apply NoDup_singleton.
  - discriminate.
  - vm_compute. reflexivity.
Defined.

(** ** Instances of the further properties *)


(** The self-service reset of [alice] in the server with the vouch API. *)
Lemma requests_write_their_own_fields_witness :
  exists d',
    (VouchServer.step Examples.sdk None 100 (VouchServer.ResetHwid (Some "u1"))
       Examples.db_alice).2 !! "u1" = Some d' /\
    d' = Schema.set_subscription (Schema.subscription d') Examples.alice.
Proof.
  apply (proj2 requests_write_their_own_fields).
  reflexivity.
Defined.

(** An update for the customer [cus_1], which [bob] does not hold. *)
Lemma events_without_account_are_acknowledged_witness :
  let r := LicenseServer.api_stripe_webhook
             (Examples.delivering Examples.subscription_updated) 100 "body" None None
             Examples.db_bob in
  r.2 = Examples.db_bob /\
  (is_Some (Stripe.customer (Stripe.object Examples.subscription_updated)) \/
   ~ In (Stripe.type Examples.subscription_updated) firestore_event_types ->
   r.1 = received).
Proof.
  apply (proj1 events_without_account_are_acknowledged
           (Examples.delivering Examples.subscription_updated) 100 "body" None None
           Examples.db_bob Examples.subscription_updated).
  - reflexivity.
  - discriminate.
  - intros c id u Hc Hd. unfold Examples.db_bob in Hd.
    apply lookup_singleton_Some in Hd as [_ <-]. simpl. discriminate.
Defined.

(** A member without the permission sends [!approve]. *)
Lemma vouches_change_by_moderation_only_witness :
  let v := VouchBot.vouchData "1001" "1002" 5 "always a pleasure" 100 in
  let store : gmap string DiscordBot.Vouch := {[ "v1" := v ]} in
  let m := VouchBot.mkIncoming false "!approve v1" "1003" "c1" None false in
  exists v',
    (VouchBot.messageCreate None m "v2" 200 store).2 !! "v1" = Some v' /\
    submission v' = submission v /\ (VouchBot.manageMessages m = false -> v' = v).
Proof.
  apply (proj1 (vouches_change_by_moderation_only None
                  (VouchBot.mkIncoming false "!approve v1" "1003" "c1" None false)
                  "v2" 200
                  {[ "v1" := VouchBot.vouchData "1001" "1002" 5 "always a pleasure" 100 ]})).
  reflexivity.
Defined.

(** [erin] signs up at the instant 100 in a file that holds an account of
    the instant 10. *)
Lemma file_ids_come_from_the_clock_witness :
  let users := [FileServer.mkUser "10" "dave" "secret4" 10 None None None] in
  let users' :=
    (FileServer.step Examples.sdk None 100
       (FileServer.Signup (Some "erin") (Some "secret5")) users).2 in
  Forall (minted_by 100) users' /\ NoDup (List.map FileServer.id users').
Proof.
  apply (proj1 file_ids_come_from_the_clock Examples.sdk None 100
           (FileServer.Signup (Some "erin") (Some "secret5"))
           [FileServer.mkUser "10" "dave" "secret4" 10 None None None]).
  - constructor; [| constructor]. exists 10. split; [reflexivity | lia].
  - apply NoDup_singleton.
Defined.

(** An account with a recorded failure, and a payment that then succeeds. *)
Lemma payment_failures_stay_recorded_witness :
  let failed :=
    Schema.upd_subscription (Schema.set_paymentFailed (Some true) (Some "card declined"))
      Examples.alice in
  let paid :=
    Stripe.mkEvent "invoice.payment_succeeded"
      (Stripe.mkObject (Some "in_1") (Some "cus_1") (Some "sub_1") None None
         (Stripe.mkMetadata None None) None None (Some 2000) None) in
  exists d',
    (VouchServer.step (Examples.delivering paid) None 100
       (VouchServer.Webhook "body" None) {[ "u1" := failed ]}).2 !! "u1" = Some d' /\
    Schema.subscription d' ≫= Schema.paymentFailed = Some true.
Proof.
  apply (proj1 payment_failures_stay_recorded
           (Examples.delivering
              (Stripe.mkEvent "invoice.payment_succeeded"
                 (Stripe.mkObject (Some "in_1") (Some "cus_1") (Some "sub_1") None None
                    (Stripe.mkMetadata None None) None None (Some 2000) None)))
           None 100 (VouchServer.Webhook "body" None)
           {[ "u1" := Schema.upd_subscription
                        (Schema.set_paymentFailed (Some true) (Some "card declined"))
                        Examples.alice ]}
           "u1"
           (Schema.upd_subscription
              (Schema.set_paymentFailed (Some true) (Some "card declined"))
              Examples.alice)).
  - reflexivity.
  - reflexivity.
Defined.

(** ** X24: the hardware lock of the server without subscriptions *)

Lemma hwid_login_resolved db id u pass h now :
  unique_usernames db -> db !! id = Some u ->
  HwidServer.api_login (Some (Schema.username u)) pass h now db
  = if negb (truthy (Some (Schema.username u))) || negb (truthy pass) || negb (truthy h)
    then (json 400 false "Missing required fields", db)
    else if negb (strictEq pass (Schema.password u))
    then (json 401 false "Invalid credentials", db)
    else if truthy (Schema.hwid u) && negb (strictEqOpt (Schema.hwid u) h)
    then (json 403 false "Hardware mismatch. Contact administrator.", db)
    else if negb (truthy (Schema.hwid u))
    then (json 200 true "Login successful", <[id := Schema.set_hwid h (Some now) u]> db)
    else (json 200 true "Login successful", db).
Proof.
  intros Hu Hd. unfold HwidServer.api_login, HwidServer.getUserByUsername.
  change (default "" (Some (Schema.username u))) with (Schema.username u).
  pose proof (username_lookup_unique db id u Hu Hd) as H.
  unfold LicenseServer.getUserByUsername in H. rewrite H.
  unfold HwidServer.updateUser. rewrite (doc_update_Some _ _ _ _ Hd).
  reflexivity.
Qed.

Lemma hwid_reset_resolved db id u :
  unique_usernames db -> db !! id = Some u ->
  HwidServer.api_reset_hwid (Some (Schema.username u)) db
  = if negb (truthy (Some (Schema.username u)))
    then (json 400 false "Username required", db)
    else if negb (truthy (Schema.hwid u))
    then (json 400 false "User is not hardware locked", db)
    else (json 200 true ("Hardware lock reset for " +:+ Schema.username u),
          <[id := Schema.set_hwid None None u]> db).
Proof.
  intros Hu Hd. unfold HwidServer.api_reset_hwid, HwidServer.getUserByUsername.
  change (default "" (Some (Schema.username u))) with (Schema.username u).
  pose proof (username_lookup_unique db id u Hu Hd) as H.
  unfold LicenseServer.getUserByUsername in H. rewrite H.
  unfold HwidServer.updateUser. rewrite (doc_update_Some _ _ _ _ Hd).
  reflexivity.
Qed.

(** X24: the hardware lock of the server without subscriptions, across
    requests, with usernames unique.  After a client login that succeeded
    with the fingerprint [h] the account carries [h]; another fingerprint is
    answered 403 without a write; [h] is admitted again and, unlike in the
    license-gated server, that login writes nothing; the administrative reset
    clears the lock, and the login that follows binds the fingerprint it
    sends at its own instant. *)
Theorem hwid_lock_life_cycle db id u pass h now :
  unique_usernames db -> db !! id = Some u ->
  success (HwidServer.api_login (Some (Schema.username u)) pass h now db).1 = Some true ->
  hwid_lock_cycle db id u pass h now.
Proof.
  intros Hu Hd Hok. unfold hwid_lock_cycle. cbv zeta.
  assert (truthy (Some (Schema.username u)) = true /\ truthy pass = true /\
          truthy h = true /\ strictEq pass (Schema.password u) = true /\
          exists u1,
            HwidServer.api_login (Some (Schema.username u)) pass h now db
            = (json 200 true "Login successful", <[id := u1]> db) /\
            Schema.hwid u1 = h /\ Schema.username u1 = Schema.username u /\
            Schema.password u1 = Schema.password u)
    as (Hname & Hpass & Hh & Hpw & u1 & Heq & Hh1 & Fn & Fp).
  { revert Hok. rewrite (hwid_login_resolved db id u pass h now Hu Hd).
    destruct (truthy (Some (Schema.username u))) eqn:E1; [| discriminate].
    destruct (truthy pass) eqn:E2; [| discriminate].
    destruct (truthy h) eqn:E3; [| discriminate].
    cbn [negb orb].
    destruct (strictEq pass (Schema.password u)) eqn:E4; [| discriminate].
    cbn [negb].
    destruct (truthy (Schema.hwid u)) eqn:E6; cbn [andb negb].
    - destruct (strictEqOpt (Schema.hwid u) h) eqn:E7; [| discriminate].
      cbn [negb]. intros _. apply strictEqOpt_true in E7.
      repeat split; auto. exists u. rewrite insert_id by exact Hd. auto.
    - intros _. repeat split; auto. eexists. split; [reflexivity |]. auto. }
  rewrite Heq. cbn [snd].
  assert (unique_usernames (<[id := u1]> db)) as Hu1
    by (eapply unique_usernames_update; eauto).
  assert ((<[id := u1]> db) !! id = Some u1) as Hd1 by apply lookup_insert_eq.
  assert (truthy (Schema.hwid u1) = true) as Th1 by (rewrite Hh1; exact Hh).
  exists u1. split; [exact Hd1 |]. split; [exact Hh1 |].
  split; [| split; [| split]].
  - intros h2 now2 Hh2 Hne.
    pose proof (hwid_login_resolved _ id u1 pass h2 now2 Hu1 Hd1) as H.
    rewrite Fn, Fp in H. rewrite H, Hname, Hpass, Hh2, Hpw, Th1, Hh1. simpl.
    assert (strictEqOpt h h2 = false) as ->; [| reflexivity].
    destruct (strictEqOpt h h2) eqn:E; [| reflexivity].
    apply strictEqOpt_true in E. congruence.
  - intros now2.
    pose proof (hwid_login_resolved _ id u1 pass h now2 Hu1 Hd1) as H.
    rewrite Fn, Fp in H. rewrite H, Hname, Hpass, Hh, Hpw, Th1, Hh1. simpl.
    assert (strictEqOpt h h = true) as -> by (apply strictEqOpt_true; reflexivity).
    reflexivity.
  - pose proof (hwid_reset_resolved _ id u1 Hu1 Hd1) as H.
    rewrite Fn in H. rewrite H, Hname, Th1. reflexivity.
  - intros h2 now2 Hh2.
    pose proof (hwid_reset_resolved _ id u1 Hu1 Hd1) as H.
    rewrite Fn in H. rewrite H, Hname, Th1. cbn [negb snd].
    set (u0 := Schema.set_hwid None None u1).
    assert (unique_usernames (<[id := u0]> (<[id := u1]> db))) as Hu0
      by (eapply unique_usernames_update; eauto).
    pose proof (hwid_login_resolved _ id u0 pass h2 now2 Hu0 (lookup_insert_eq _ _ _)) as H0.
    change (Schema.username u0) with (Schema.username u1) in H0.
    change (Schema.password u0) with (Schema.password u1) in H0.
    rewrite Fn, Fp in H0. rewrite H0, Hname, Hpass, Hh2, Hpw. reflexivity.
Qed.

(** [alice] logs in from [HW-1]. *)
Lemma hwid_lock_life_cycle_witness :
  hwid_lock_cycle Examples.db_alice "u1" Examples.alice (Some "secret1") (Some "HW-1") 100.
Proof.
  apply hwid_lock_life_cycle.
  - apply unique_usernames_singleton.
  - reflexivity.
  - vm_compute. reflexivity.
Defined.

(** ** X25: a rejection, as the web site sees it *)

Lemma filter_length_perm {A : Type} (p : A -> bool) l k :
  l ≡ₚ k -> List.length (List.filter p l) = List.length (List.filter p k).
Proof.
  induction 1 as [| x l k _ IH | x y l | l k m _ IH1 _ IH2]; simpl.
  - reflexivity.
  - destruct (p x); simpl; rewrite IH; reflexivity.
  - destruct (p x), (p y); reflexivity.
  - rewrite IH1. exact IH2.
Qed.

(** The number of approved vouches before and after one document is
    rewritten. *)
Lemma approved_count_update (store : gmap string DiscordBot.Vouch) id v v' :
  store !! id = Some v ->
  (List.length (List.filter DiscordBot.approved (List.map snd (map_to_list store)))
   = (if DiscordBot.approved v then 1 else 0)
     + List.length (List.filter DiscordBot.approved
                      (List.map snd (map_to_list (delete id store)))))%nat /\
  (List.length (List.filter DiscordBot.approved
                  (List.map snd (map_to_list (<[id := v']> store))))
   = (if DiscordBot.approved v' then 1 else 0)
     + List.length (List.filter DiscordBot.approved
                      (List.map snd (map_to_list (delete id store)))))%nat.
Proof.
  intros Hv.
  assert (forall w, List.length (List.filter DiscordBot.approved
                      (List.map snd (map_to_list (<[id := w]> (delete id store)))))
                    = ((if DiscordBot.approved w then 1 else 0)
                       + List.length (List.filter DiscordBot.approved
                           (List.map snd (map_to_list (delete id store)))))%nat) as H.
  { intros w.
    rewrite (filter_length_perm _ _ (List.map snd ((id, w) :: map_to_list (delete id store)))).
    - simpl. destruct (DiscordBot.approved w); reflexivity.
    - change (snd <$> map_to_list (<[id := w]> (delete id store))
              ≡ₚ snd <$> (id, w) :: map_to_list (delete id store)).
      rewrite map_to_list_insert by apply lookup_delete_eq. reflexivity. }
  split.
  - rewrite <- (H v), insert_delete_id by exact Hv. reflexivity.
  - rewrite <- (H v'), insert_delete_eq. reflexivity.
Qed.

(** X25: a rejection, as the web site sees it.  When [!reject] answers that
    the vouch is rejected, the vouch keeps its [featured] flag, but the
    featured listing of the web site no longer shows it, and the number of
    approved vouches in the statistics goes down by one if the vouch was
    approved and stays the same if it was not. *)
Theorem rejection_unlists msg now (store : gmap string DiscordBot.Vouch) reason :
  (DiscordBot.reject msg now store).1 = DiscordBot.Rejected reason ->
  let vouchId := default "" (head (DiscordBot.args msg)) in
  let store' := (DiscordBot.reject msg now store).2 in
  exists v v',
    store !! vouchId = Some v /\ store' !! vouchId = Some v' /\
    DiscordBot.featured v' = DiscordBot.featured v /\
    (forall w, ~ In (vouchId, w) (FeaturedApi.api_vouches_featured store')) /\
    VouchApi.totalVouches (VouchApi.api_vouches_stats store')
    = VouchApi.totalVouches (VouchApi.api_vouches_stats store)
      - (if DiscordBot.approved v then 1 else 0).
Proof.
  unfold DiscordBot.reject, Firestore.doc_get, Firestore.doc_update. cbv zeta.
  destruct (negb (DiscordBot.canManageMessages msg)); [discriminate |].
  destruct (negb (truthy (head (DiscordBot.args msg)))); [discriminate |].
  destruct (store !! default "" (head (DiscordBot.args msg))) as [v|] eqn:Ev;
    [| discriminate].
  simpl. intros _. eexists v, _. split; [reflexivity |].
  split; [apply lookup_insert_eq |]. split; [reflexivity |]. split.
  - intros w Hin. apply featured_listed in Hin as (Hw & Ha & _).
    rewrite lookup_insert_eq in Hw. simplify_eq.
  - unfold VouchApi.api_vouches_stats. simpl.
    destruct (approved_count_update store _ v
                (DiscordBot.set_rejected (DiscordBot.author msg) now
                   (DiscordBot.reasonOf msg) v) Ev) as [H1 H2].
    rewrite H1, H2. simpl. destruct (DiscordBot.approved v); lia.
Qed.

(** A moderator rejects an approved and featured vouch. *)
Lemma rejection_unlists_witness :
  let v := DiscordBot.set_featured true
             (DiscordBot.set_approved "9001" 200
                (VouchBot.vouchData "1001" "1002" 5 "always a pleasure" 100)) in
  let store : gmap string DiscordBot.Vouch := {[ "v1" := v ]} in
  let msg := DiscordBot.mkMessage "9001" true ["v1"; "spam"] in
  let vouchId := default "" (head (DiscordBot.args msg)) in
  let store' := (DiscordBot.reject msg 300 store).2 in
  exists v0 v',
    store !! vouchId = Some v0 /\ store' !! vouchId = Some v' /\
    DiscordBot.featured v' = DiscordBot.featured v0 /\
    (forall w, ~ In (vouchId, w) (FeaturedApi.api_vouches_featured store')) /\
    VouchApi.totalVouches (VouchApi.api_vouches_stats store')
    = VouchApi.totalVouches (VouchApi.api_vouches_stats store)
      - (if DiscordBot.approved v0 then 1 else 0).
Proof.
  apply (rejection_unlists (DiscordBot.mkMessage "9001" true ["v1"; "spam"]) 300
           {[ "v1" := DiscordBot.set_featured true
                        (DiscordBot.set_approved "9001" 200
                           (VouchBot.vouchData "1001" "1002" 5 "always a pleasure" 100)) ]}
           "spam").
  reflexivity.
Defined.
